(** * barbearia-bot: the conversation state machine of [main.js]

    A shallow embedding of the scheduling core of the WhatsApp bot
    (validation helpers, availability listing, booking, cancellation,
    feedback, the message dispatcher, the chat timers, the scheduled jobs
    and the handlers of incoming messages), followed by the properties
    its specification states about it and by further properties of the
    code.

    Conventions of the embedding.
    - JavaScript strings are Rocq strings holding the UTF-8 bytes of the
      text; [split], [startsWith], [endsWith] and [===] only look for ASCII
      patterns in the source, which UTF-8 preserves.
    - A [Date] is its time value, [option Z] milliseconds since the epoch,
      [None] being the invalid date (NaN).  The calendar arithmetic is the
      one of ECMA-262 (Day, TimeWithinDay, DayFromYear, MakeDay, ...).
    - The host's offset from UTC is the section variable [LocalTZA]
      (milliseconds, fixed: no daylight saving rule is modelled).
    - The store is three lists of rows, in insertion order; store and
      transport calls succeed (the [err] continuations and rejected
      promises of the source are not modelled), and all clock reads made
      while one message is handled return the same instant [agora].
    - A handler (a message, a timer, a scheduled job) is one function on
      the world: it is taken from start to end with no other handler in
      between.
    - The two variants of the program kept in [main.js] (SQLite and
      MongoDB back ends) are told apart by [Versao] where they differ. *)

From Stdlib Require Import ZArith String Ascii List Lia Bool QArith Qround.
From Stdlib Require Import DecimalString.
From stdpp Require Import gmap strings.
Import ListNotations.
Local Open Scope string_scope.
Local Open Scope Z_scope.

(** ** Calendar arithmetic (ECMA-262, section "Time Values and Time Range") *)

Module Calendario.

Definition msPerDay : Z := 86400000.
Definition msPerHour : Z := 3600000.
Definition msPerMinute : Z := 60000.

Definition Day (t : Z) : Z := t / msPerDay.
Definition TimeWithinDay (t : Z) : Z := t mod msPerDay.

Definition InLeapYear (y : Z) : bool :=
  (y mod 4 =? 0) && (negb (y mod 100 =? 0) || (y mod 400 =? 0)).

Definition DaysInYear (y : Z) : Z := if InLeapYear y then 366 else 365.

Definition DayFromYear (y : Z) : Z :=
  365 * (y - 1970) + (y - 1969) / 4 - (y - 1901) / 100 + (y - 1601) / 400.

(** The largest year whose first day is not after day [d]: an estimate
    from the mean year length, corrected by at most one. *)
Definition YearFromDay (d : Z) : Z :=
  let y := (400 * (d + 719528)) / 146097 in
  if DayFromYear (y + 1) <=? d then y + 1
  else if d <? DayFromYear y then y - 1
  else y.

Definition DayWithinYear (d : Z) : Z := d - DayFromYear (YearFromDay d).

(** Day within the year on which month [m] (0 = January) starts. *)
Definition monthStart (leap : bool) (m : Z) : Z :=
  let l := if leap then 1 else 0 in
  if m =? 0 then 0 else
  if m =? 1 then 31 else
  if m =? 2 then 59 + l else
  if m =? 3 then 90 + l else
  if m =? 4 then 120 + l else
  if m =? 5 then 151 + l else
  if m =? 6 then 181 + l else
  if m =? 7 then 212 + l else
  if m =? 8 then 243 + l else
  if m =? 9 then 273 + l else
  if m =? 10 then 304 + l else
  if m =? 11 then 334 + l else 365 + l.

Definition monthOf (leap : bool) (w : Z) : Z :=
  if w <? monthStart leap 1 then 0 else
  if w <? monthStart leap 2 then 1 else
  if w <? monthStart leap 3 then 2 else
  if w <? monthStart leap 4 then 3 else
  if w <? monthStart leap 5 then 4 else
  if w <? monthStart leap 6 then 5 else
  if w <? monthStart leap 7 then 6 else
  if w <? monthStart leap 8 then 7 else
  if w <? monthStart leap 9 then 8 else
  if w <? monthStart leap 10 then 9 else
  if w <? monthStart leap 11 then 10 else 11.

Definition MonthFromDay (d : Z) : Z :=
  monthOf (InLeapYear (YearFromDay d)) (DayWithinYear d).

Definition DateFromDay (d : Z) : Z :=
  DayWithinYear d - monthStart (InLeapYear (YearFromDay d)) (MonthFromDay d) + 1.

Definition WeekDay (t : Z) : Z := (Day t + 4) mod 7.

Definition HourFromTime (t : Z) : Z := (t / msPerHour) mod 24.
Definition MinFromTime (t : Z) : Z := (t / msPerMinute) mod 60.
Definition SecFromTime (t : Z) : Z := (t / 1000) mod 60.
Definition msFromTime (t : Z) : Z := t mod 1000.

Definition MakeDay (year month date : Z) : Z :=
  let ym := year + month / 12 in
  let mn := month mod 12 in
  DayFromYear ym + monthStart (InLeapYear ym) mn + date - 1.

Definition MakeTime (h m s ms : Z) : Z :=
  h * msPerHour + m * msPerMinute + s * 1000 + ms.

Definition MakeDate (day time : Z) : Z := day * msPerDay + time.

Definition TimeClip (t : Z) : option Z :=
  if Z.abs t <=? 8640000000000000 then Some t else None.

End Calendario.
Import Calendario.

(** ** The string operations the source uses *)

Definition nl : string := String (ascii_of_nat 10) EmptyString.

Definition digito (n : Z) : ascii := ascii_of_N (Z.to_N (48 + n)).

Definition dec2 (n : Z) : string :=
  String (digito (n / 10 mod 10)) (String (digito (n mod 10)) EmptyString).

Definition dec3 (n : Z) : string := String (digito (n / 100 mod 10)) (dec2 n).

Definition dec4 (n : Z) : string := String (digito (n / 1000 mod 10)) (dec3 n).

Definition dec6 (n : Z) : string :=
  String (digito (n / 100000 mod 10)) (String (digito (n / 10000 mod 10)) (dec4 n)).

(** [Number.prototype.toString] on an integer. *)
Definition toString (n : Z) : string := NilZero.string_of_int (Z.to_int n).

Definition codigo (c : ascii) : Z := Z.of_N (N_of_ascii c).

(** [\d] of a JavaScript regular expression: the ASCII digits only. *)
Definition ehDigito (c : ascii) : bool := (48 <=? codigo c) && (codigo c <=? 57).

Definition valorDigito (c : ascii) : Z := codigo c - 48.

Definition valorHex (c : ascii) : option Z :=
  let k := codigo c in
  if (48 <=? k) && (k <=? 57) then Some (k - 48)
  else if (97 <=? k) && (k <=? 102) then Some (k - 87)
  else if (65 <=? k) && (k <=? 70) then Some (k - 55)
  else None.

Definition valorDec (c : ascii) : option Z :=
  if ehDigito c then Some (valorDigito c) else None.

Definition ehEspacoASCII (c : ascii) : bool :=
  let k := codigo c in ((9 <=? k) && (k <=? 13)) || (k =? 32).

(** The two- and three-byte UTF-8 encodings of the other code points of
    ECMA-262's WhiteSpace and LineTerminator: U+00A0, U+1680, U+2000 to
    U+200A, U+2028, U+2029, U+202F, U+205F, U+3000, U+FEFF. *)
Definition ehEspaco2 (c1 c2 : ascii) : bool :=
  (codigo c1 =? 194) && (codigo c2 =? 160).

Definition ehEspaco3 (c1 c2 c3 : ascii) : bool :=
  let a := codigo c1 in let b := codigo c2 in let c := codigo c3 in
  ((a =? 225) && (b =? 154) && (c =? 128))
  || ((a =? 226) && (b =? 128)
      && (((128 <=? c) && (c <=? 138)) || (c =? 168) || (c =? 169) || (c =? 175)))
  || ((a =? 226) && (b =? 129) && (c =? 159))
  || ((a =? 227) && (b =? 128) && (c =? 128))
  || ((a =? 239) && (b =? 187) && (c =? 191)).

Fixpoint trimStartL (l : list ascii) : list ascii :=
  match l with
  | [] => []
  | c1 :: r1 =>
      if ehEspacoASCII c1 then trimStartL r1 else
      match r1 with
      | [] => l
      | c2 :: r2 =>
          if ehEspaco2 c1 c2 then trimStartL r2 else
          match r2 with
          | [] => l
          | c3 :: r3 => if ehEspaco3 c1 c2 c3 then trimStartL r3 else l
          end
      end
  end.

(** The same scan from the end, on the reversed byte list. *)
Fixpoint trimEndR (l : list ascii) : list ascii :=
  match l with
  | [] => []
  | c1 :: r1 =>
      if ehEspacoASCII c1 then trimEndR r1 else
      match r1 with
      | [] => l
      | c2 :: r2 =>
          if ehEspaco2 c2 c1 then trimEndR r2 else
          match r2 with
          | [] => l
          | c3 :: r3 => if ehEspaco3 c3 c2 c1 then trimEndR r3 else l
          end
      end
  end.

Definition trimStart (s : string) : string :=
  string_of_list_ascii (trimStartL (list_ascii_of_string s)).

(** [String.prototype.trim]. *)
Definition trim (s : string) : string :=
  string_of_list_ascii
    (List.rev (trimEndR (List.rev (trimStartL (list_ascii_of_string s))))).

(** [String.prototype.split] with a one-character separator. *)
Fixpoint split (sep : ascii) (s : string) : list string :=
  match s with
  | EmptyString => [EmptyString]
  | String c r =>
      if Ascii.eqb c sep then EmptyString :: split sep r
      else match split sep r with
           | h :: t => String c h :: t
           | [] => [String c EmptyString]
           end
  end.

(** [Array.prototype.join]. *)
Fixpoint join (sep : string) (l : list string) : string :=
  match l with
  | [] => EmptyString
  | [x] => x
  | x :: r => x ++ sep ++ join sep r
  end.

Definition startsWith (s p : string) : bool := String.prefix p s.

Definition endsWith (s suf : string) : bool :=
  let n := String.length s in
  let m := String.length suf in
  (m <=? n)%nat && String.eqb (String.substring (n - m) m s) suf.

(** [String.prototype.includes]. *)
Fixpoint includes (s sub : string) : bool :=
  String.prefix sub s ||
  match s with
  | EmptyString => false
  | String _ r => includes r sub
  end.

(** [s.padStart(2, '0')]. *)
Definition padStart2 (s : string) : string :=
  match String.length s with
  | O => "00"
  | S O => "0" ++ s
  | _ => s
  end.

(** [arr[i]] on an array of strings, [None] being [undefined]. *)
Definition elemento (l : list string) (i : nat) : option string := nth_error l i.

(** [partes[i]] where the source has checked the length, so that the
    element exists. *)
Definition parte (partes : list string) (i : nat) : string :=
  default EmptyString (elemento partes i).

(** The longest prefix of digits in the given radix, read as a number;
    [None] when there is no digit. *)
Fixpoint lerDigitos (valor : ascii -> option Z) (radix : Z) (acc : option Z)
         (l : list ascii) : option Z :=
  match l with
  | [] => acc
  | c :: r =>
      match valor c with
      | Some v => lerDigitos valor radix (Some (radix * default 0 acc + v)) r
      | None => acc
      end
  end.

(** [parseInt(s)] without a radix argument, ECMA-262 19.2.5: leading white
    space is skipped, a sign and a [0x] prefix are honoured, the longest
    digit prefix is read; [None] is NaN.  The result is the exact integer
    (the rounding of very long numerals to a double is not modelled; it is
    monotone, so no comparison made by the program is affected). *)
Definition parseInt (s : string) : option Z :=
  let l := trimStartL (list_ascii_of_string s) in
  let '(neg, l1) :=
    match l with
    | c :: r => if codigo c =? 45 then (true, r)
                else if codigo c =? 43 then (false, r) else (false, l)
    | [] => (false, l)
    end in
  let v :=
    match l1 with
    | c0 :: cx :: r =>
        if (codigo c0 =? 48) && ((codigo cx =? 120) || (codigo cx =? 88))
        then lerDigitos valorHex 16 None r
        else lerDigitos valorDec 10 None l1
    | _ => lerDigitos valorDec 10 None l1
    end in
  option_map (fun n => if neg then - n else n) v.

(** A JavaScript number as far as the program looks at one: NaN, or a
    finite value given by the rational it denotes. *)
Inductive number : Type :=
  | NaN : number
  | Num (q : Q) : number.

Definition number_of_int (o : option Z) : number :=
  match o with
  | Some z => Num (inject_Z z)
  | None => NaN
  end.

(** ** Validation helpers *)

(** [/^([0-1][0-9]|2[0-3]):[0-5][0-9]$/.test(horario)]. *)
Definition validarHorario (horario : string) : bool :=
  match list_ascii_of_string horario with
  | [h1; h2; c; m1; m2] =>
      (((48 <=? codigo h1) && (codigo h1 <=? 49) && ehDigito h2)
       || ((codigo h1 =? 50) && (48 <=? codigo h2) && (codigo h2 <=? 51)))
      && (codigo c =? 58)
      && (48 <=? codigo m1) && (codigo m1 <=? 53) && ehDigito m2
  | _ => false
  end.

(** [data.match(/^(\d{2})\/(\d{2})\/(\d{4})$/)]: the three groups
    (dia, mes, ano), or [None] when the expression does not match. *)
Definition regexData (data : string) : option (string * string * string) :=
  match list_ascii_of_string data with
  | [d1; d2; s1; m1; m2; s2; a1; a2; a3; a4] =>
      if ehDigito d1 && ehDigito d2 && (codigo s1 =? 47)
         && ehDigito m1 && ehDigito m2 && (codigo s2 =? 47)
         && ehDigito a1 && ehDigito a2 && ehDigito a3 && ehDigito a4
      then Some (string_of_list_ascii [d1; d2], string_of_list_ascii [m1; m2],
                 string_of_list_ascii [a1; a2; a3; a4])
      else None
  | _ => None
  end.

(** Exactly [n] digits at the head of [l], as a number, and the rest. *)
Fixpoint lerN (n : nat) (acc : Z) (l : list ascii) : option (Z * list ascii) :=
  match n with
  | O => Some (acc, l)
  | S n' =>
      match l with
      | c :: r => if ehDigito c then lerN n' (10 * acc + valorDigito c) r else None
      | [] => None
      end
  end.

Definition lerSep (k : Z) (l : list ascii) : option (list ascii) :=
  match l with
  | c :: r => if codigo c =? k then Some r else None
  | [] => None
  end.

(** The two variants of the program. *)
Inductive Versao : Type := SQLite | MongoDB.

(** ** Rows of the store *)

Record Agendamento : Type := mkAgendamento {
  ag_nome : string;
  ag_data : string;
  ag_hora : string;
  ag_sender : string;
  ag_timestamp : string
}.

Record Feedback : Type := mkFeedback {
  fb_nome : string;
  fb_comentario : string;
  fb_avaliacao : number;
  fb_timestamp : string
}.

Record Cancelamento : Type := mkCancelamento {
  ca_nome : string;
  ca_data : string;
  ca_hora : string;
  ca_motivo : string;
  ca_timestamp : string
}.

Record BD : Type := mkBD {
  agendamentos : list Agendamento;
  feedbacks : list Feedback;
  cancelamentos : list Cancelamento
}.

(** ** Per-user state *)

(** The values [estado.etapa] takes: "data", "horario", "nome",
    "cancelar_nome_hora", "confirmar_presenca". *)
Inductive Etapa : Type :=
  | EData | EHorario | ENome | ECancelarNomeHora | EConfirmarPresenca.

(** An entry of the [estados] map; an absent field is [None]. *)
Record Estado : Type := mkEstado {
  ultimoContato : Z;
  etapa : option Etapa;
  est_data : option string;
  est_hora : option string;
  est_agendamento : option (string * string * string)
}.

(** An entry of [conversasChocolate].  [timeoutId] stands for the pending
    idle timer and is the instant at which it is due. *)
Record Conversa : Type := mkConversa {
  ativo : bool;
  cv_ultimoContato : Z;
  timeoutId : Z
}.

(** What [client.sendMessage] was given: a text, or (SQLite variant, which
    passes the result of [listarAgendamentosDia] without awaiting it) a
    promise that resolves to a text. *)
Inductive Conteudo : Type :=
  | Texto (s : string)
  | Promessa (s : string).

(** The mutable world of the process: the store, the module-level maps,
    the [ultimoAgendamento] marker, and the messages handed to the
    transport, oldest first. *)
Record Mundo : Type := mkMundo {
  bd : BD;
  estados : gmap string Estado;
  conversasChocolate : gmap string Conversa;
  ultimoAgendamento : option (string * Z);
  enviadas : list (string * Conteudo)
}.

Definition com_bd (w : Mundo) (b : BD) : Mundo :=
  mkMundo b (estados w) (conversasChocolate w) (ultimoAgendamento w) (enviadas w).

Definition com_estados (w : Mundo) (e : gmap string Estado) : Mundo :=
  mkMundo (bd w) e (conversasChocolate w) (ultimoAgendamento w) (enviadas w).

Definition com_conversas (w : Mundo) (c : gmap string Conversa) : Mundo :=
  mkMundo (bd w) (estados w) c (ultimoAgendamento w) (enviadas w).

Definition com_ultimoAgendamento (w : Mundo) (u : option (string * Z)) : Mundo :=
  mkMundo (bd w) (estados w) (conversasChocolate w) u (enviadas w).

(** [client.sendMessage(para, conteudo)]. *)
Definition sendMessage (w : Mundo) (para : string) (c : Conteudo) : Mundo :=
  mkMundo (bd w) (estados w) (conversasChocolate w) (ultimoAgendamento w)
          (enviadas w ++ [(para, c)]).

Definition com_agendamentos (b : BD) (l : list Agendamento) : BD :=
  mkBD l (feedbacks b) (cancelamentos b).

Section Barbearia.

(** The host's offset from UTC in milliseconds (ECMA-262's LocalTZA). *)
Variable LocalTZA : Z.
(** [String.prototype.toLowerCase]: the Unicode case mapping is not
    reproduced, every result holds for any such function. *)
Variable toLowerCase : string -> string.
(** [process.env.ADMIN_PHONE || '+5582993230395@c.us']. *)
Variable ADMIN_PHONE : string.
Variable versao : Versao.

(** ** Date objects *)

Definition LocalTime (t : Z) : Z := t + LocalTZA.
Definition UTC (t : Z) : Z := t - LocalTZA.

(** [new Date(ano, mes, dia)]: local midnight of the given day, months
    and days out of range carrying over; a year from 0 to 99 means
    1900 + year. *)
Definition Date_ymd (ano mes dia : option Z) : option Z :=
  match ano, mes, dia with
  | Some y, Some m, Some d =>
      let yr := if (0 <=? y) && (y <=? 99) then 1900 + y else y in
      TimeClip (UTC (MakeDate (MakeDay yr m d) (MakeTime 0 0 0 0)))
  | _, _, _ => None
  end.

(** [new Date(s)] for the two shapes of string the program builds:
    "YYYY-MM-DD" (taken as UTC) and "YYYY-MM-DDTHH:MM:SS" (taken as local
    time).  As in V8 a month must be 01 to 12 and a day 01 to 31, a day
    past the end of its month carrying over.  Any other string gives the
    invalid date here. *)
Definition Date_parse (s : string) : option Z :=
  match lerN 4 0 (list_ascii_of_string s) with
  | None => None
  | Some (y, l1) =>
  match lerSep 45 l1 with None => None | Some l2 =>
  match lerN 2 0 l2 with None => None | Some (m, l3) =>
  match lerSep 45 l3 with None => None | Some l4 =>
  match lerN 2 0 l4 with None => None | Some (d, l5) =>
    if (1 <=? m) && (m <=? 12) && (1 <=? d) && (d <=? 31) then
      match l5 with
      | [] => TimeClip (MakeDate (MakeDay y (m - 1) d) 0)
      | _ =>
        match lerSep 84 l5 with None => None | Some l6 =>
        match lerN 2 0 l6 with None => None | Some (hh, l7) =>
        match lerSep 58 l7 with None => None | Some l8 =>
        match lerN 2 0 l8 with None => None | Some (mi, l9) =>
        match lerSep 58 l9 with None => None | Some l10 =>
        match lerN 2 0 l10 with
        | Some (ss, []) =>
            if ((hh <=? 23) && (mi <=? 59) && (ss <=? 59))
               || ((hh =? 24) && (mi =? 0) && (ss =? 0))
            then TimeClip (UTC (MakeDate (MakeDay y (m - 1) d) (MakeTime hh mi ss 0)))
            else None
        | _ => None
        end end end end end end
      end
    else None
  end end end end
  end.

(** [d.getDay()]: the weekday of [d] in local time; [None] is NaN. *)
Definition getDay (d : option Z) : option Z :=
  option_map (fun t => WeekDay (LocalTime t)) d.

(** [d.getDate()]. *)
Definition getDate (t : Z) : Z := DateFromDay (Day (LocalTime t)).

(** [d.setHours(h, 0, 0, 0)]. *)
Definition setHours (d : option Z) (h : Z) : option Z :=
  match d with
  | Some t => TimeClip (UTC (MakeDate (Day (LocalTime t)) (MakeTime h 0 0 0)))
  | None => None
  end.

(** [d.setDate(dt)]. *)
Definition setDate (t : Z) (dt : Z) : option Z :=
  let lt := LocalTime t in
  TimeClip (UTC (MakeDate (MakeDay (YearFromDay (Day lt)) (MonthFromDay (Day lt)) dt)
                          (TimeWithinDay lt))).

(** [a < b] on two dates: false as soon as one is invalid. *)
Definition Date_lt (a b : option Z) : bool :=
  match a, b with
  | Some x, Some y => x <? y
  | _, _ => false
  end.

(** The date part of [toISOString]: four digits for the years 0 to 9999,
    a sign and six digits otherwise. *)
Definition dataISO (t : Z) : string :=
  let d := Day t in
  let y := YearFromDay d in
  (if (0 <=? y) && (y <=? 9999) then dec4 y
   else (if y <? 0 then "-" else "+") ++ dec6 (Z.abs y))
  ++ "-" ++ dec2 (MonthFromDay d + 1) ++ "-" ++ dec2 (DateFromDay d).

(** [d.toISOString()] of a valid date. *)
Definition toISOString (t : Z) : string :=
  dataISO t ++ "T" ++ dec2 (HourFromTime t) ++ ":" ++ dec2 (MinFromTime t) ++ ":"
  ++ dec2 (SecFromTime t) ++ "." ++ dec3 (msFromTime t) ++ "Z".

(** [d.toISOString().split('T')[0]]: the date of [t] in UTC.  Applied to
    [new Date()] it is what the program calls "hoje". *)
Definition dataUTC (t : Z) : string := parte (split "T" (toISOString t)) 0.

(** [d.toTimeString().slice(0, 5)]: the local time of day as HH:MM. *)
Definition horaLocal (t : Z) : string :=
  dec2 (HourFromTime (LocalTime t)) ++ ":" ++ dec2 (MinFromTime (LocalTime t)).

(** [diaSemana === 6 ? [10, 16] : [9, 20]]. *)
Definition expediente (diaSemana : option Z) : Z * Z :=
  match diaSemana with
  | Some 6 => (10, 16)
  | _ => (9, 20)
  end.

(** ** Texts *)

Definition mostrarMenu : string :=
  "E aí, qual é o plano? 😎" ++ nl ++
  "1. Agendar um corte 📝" ++ nl ++
  "2. Cancelar agendamento" ++ nl ++
  "3. Ver agendamentos" ++ nl ++
  "4. Horário da barbearia 🕛" ++ nl ++
  "5. Onde fica? 🌎" ++ nl ++
  "6. Papo com o Chocolate 🗣️" ++ nl ++
  "7. Sair".

Definition INFO_horario : string :=
  match versao with
  | SQLite => "Seg a Sáb: 9h às 20h, Dom: 10h às 16h."
  | MongoDB => "Seg a Sáb: 9h às 21h."
  end.

Definition INFO_endereco : string :=
  match versao with
  | SQLite => "Rua dos Cortes, 456, Bairro Estilo, Cidade."
  | MongoDB => "Tv. Dona Alzira Aguiar - Pajuçara, Maceió - AL, 57030-680."
  end.

Definition promptData : string :=
  "Digite a data do agendamento (DD/MM/YYYY) ou 'sair' para voltar ao menu:".

Definition promptHorario : string :=
  "Digite o horário (ex.: 09:00) ou 'sair':".

(** ** The [estados] map *)

Definition com_etapa (e : option Etapa) (s : Estado) : Estado :=
  mkEstado (ultimoContato s) e (est_data s) (est_hora s) (est_agendamento s).

Definition com_ultimoContato (t : Z) (s : Estado) : Estado :=
  mkEstado t (etapa s) (est_data s) (est_hora s) (est_agendamento s).

Definition com_data (d : string) (s : Estado) : Estado :=
  mkEstado (ultimoContato s) (etapa s) (Some d) (est_hora s) (est_agendamento s).

Definition com_hora (h : string) (s : Estado) : Estado :=
  mkEstado (ultimoContato s) (etapa s) (est_data s) (Some h) (est_agendamento s).

(** [getEstado(sender)], as the map it leaves behind: a missing entry is
    created with only [ultimoContato]. *)
Definition getEstado (agora : Z) (sender : string) (e : gmap string Estado)
  : gmap string Estado :=
  match e !! sender with
  | Some _ => e
  | None => <[sender := mkEstado agora None None None None]> e
  end.

(** [estado.etapa] of the entry of [sender], [None] when there is no entry
    or no step. *)
Definition etapaDe (sender : string) (e : gmap string Estado) : option Etapa :=
  match e !! sender with
  | Some s => etapa s
  | None => None
  end.

(** [listarHorarios(sender)]: despite its name it sets the step to "data"
    and returns the date prompt. *)
Definition listarHorarios (agora : Z) (sender : string) (w : Mundo) : string * Mundo :=
  (promptData,
   com_estados w (alter (com_etapa (Some EData)) sender (getEstado agora sender (estados w)))).

(** ** Availability listing *)

Definition mesmaHora (horaStr : string) (a : Agendamento) : bool :=
  String.eqb (ag_hora a) horaStr.

(** The text of one slot: the status of [horaStr] among [rows], with the
    occupant's name only when [sender] is the administrator. *)
Definition linhaHorario (sender : string) (rows : list Agendamento) (horaStr : string)
  : string :=
  let isAdmin := String.eqb sender ADMIN_PHONE in
  let status :=
    match List.find (mesmaHora horaStr) rows with
    | Some agendado =>
        "⏰ (agendado" ++ (if isAdmin then " - " ++ ag_nome agendado else EmptyString) ++ ")"
    | None => "✅ (disponível)"
    end in
  horaStr ++ " " ++ status.

(** The [while (currentTime < fimTime)] loop, which advances by thirty
    minutes per turn; [n] bounds the number of turns. *)
Fixpoint horariosLoop (n : nat) (sender : string) (rows : list Agendamento)
         (currentTime fimTime : Z) : list string :=
  match n with
  | O => []
  | S n' =>
      if currentTime <? fimTime then
        linhaHorario sender rows (horaLocal currentTime)
        :: horariosLoop n' sender rows (currentTime + 30 * msPerMinute) fimTime
      else []
  end.

(** Number of turns the loop takes from [c] to [f]. *)
Definition voltas (c f : Z) : nat := Z.to_nat ((f - c + 30 * msPerMinute - 1) / (30 * msPerMinute)).

Definition horarios (sender : string) (rows : list Agendamento)
           (currentTime fimTime : option Z) : list string :=
  match currentTime, fimTime with
  | Some c, Some f => horariosLoop (voltas c f) sender rows c f
  | _, _ => []
  end.

Definition doDia (dia : string) (a : Agendamento) : bool := String.eqb (ag_data a) dia.

(** [data || new Date().toISOString().split('T')[0]]; [data] is [None]
    for a call without the argument, and an empty string is falsy like
    [null]. *)
Definition ouHoje (agora : Z) (data : option string) : string :=
  match data with
  | Some d => if String.eqb d EmptyString then dataUTC agora else d
  | None => dataUTC agora
  end.

(** [listarAgendamentosDia(sender, data)]. *)
Definition listarAgendamentosDia (agora : Z) (sender : string) (data : option string)
           (b : BD) : string :=
  let hoje := ouHoje agora data in
  let diaSemana := getDay (Date_parse hoje) in
  let '(horaInicio, horaFim) := expediente diaSemana in
  let currentTime := Date_parse (hoje ++ "T" ++ padStart2 (toString horaInicio) ++ ":00:00") in
  let fimTime := Date_parse (hoje ++ "T" ++ padStart2 (toString horaFim) ++ ":00:00") in
  let rows := List.filter (doDia hoje) (agendamentos b) in
  join nl (horarios sender rows currentTime fimTime) ++ nl ++ nl ++ mostrarMenu.

(** ** Style triage *)

Definition ESTILOS : list (string * (string * string * Z)) :=
  [ ("cabelo curto", ("Corte Militar", "Chocolate", 50));
    ("cabelo longo", ("Corte Surfer", "Chocolate", 60));
    ("barba cheia", ("Barba Lenador", "Chocolate", 40));
    ("barba rala", ("Barba Desenhada", "Chocolate", 35));
    ("degrade", ("Degradê Navalhado", "Chocolate", 55)) ].

Definition triagemEstilo (estilo nome : string) : string :=
  let estilo := toLowerCase estilo in
  match List.find (fun '(chave, _) => includes estilo chave) ESTILOS with
  | Some (_, (sugestao, barbeiro, preco)) =>
      "Sugerimos o *" ++ sugestao ++ "* com o barbeiro " ++ barbeiro ++ " (R$"
      ++ toString preco ++ "). 😎 " ++ "Deseja agendar? Digite 1 para iniciar."
      ++ nl ++ nl ++ mostrarMenu
  | None =>
      "Estilo não identificado. Descreva novamente (ex.: cabelo curto, barba cheia)."
      ++ nl ++ nl ++ mostrarMenu
  end.

(** ** Booking *)

(** [x < y] and [x >= y] of a possibly-NaN number against an integer. *)
Definition nanLt (x : option Z) (y : Z) : bool :=
  match x with Some v => v <? y | None => false end.
Definition nanGe (x : option Z) (y : Z) : bool :=
  match x with Some v => y <=? v | None => false end.

Definition msgForaDoExpediente (horaInicio horaFim : Z) : string :=
  "Horário fora do expediente (" ++ toString horaInicio ++ "h às "
  ++ toString horaFim ++ "h)".

(** [parseInt(hora.split(":")[0])]. *)
Definition horaNumDe (hora : string) : option Z := parseInt (parte (split ":" hora) 0).

(** The message of the [RangeError] that [toISOString] throws on an
    invalid date (V8). *)
Definition msgDataInvalida : string := "Invalid time value".

(** The statements at the head of the [try] block of [agendarServico]:
    the message of the error thrown by the first one that throws.  Three
    are the checks of the program, each with its [Error]; the fourth is
    the log line of the SQLite variant,
    [logger.info(`... ${dataHoraAgendamento.toISOString()} ...`)], which
    stands between the hours check and the check on the past and throws
    when the date and time do not parse.  The MongoDB variant has no such
    line: there an invalid date compares false with [agora] and passes. *)
Definition verificarHorario (agora : Z) (data hora : string) : option string :=
  if negb (validarHorario hora) then Some "Horário inválido" else
  let dataObj := Date_parse data in
  let diaSemana := getDay dataObj in
  let '(horaInicio, horaFim) := expediente diaSemana in
  let horaNum := horaNumDe hora in
  if nanLt horaNum horaInicio || nanGe horaNum horaFim then
    Some (msgForaDoExpediente horaInicio horaFim)
  else
  let dataHoraAgendamento := Date_parse (data ++ "T" ++ hora ++ ":00") in
  match versao, dataHoraAgendamento with
  | SQLite, None => Some msgDataInvalida
  | _, _ =>
      if Date_lt dataHoraAgendamento (Some agora) then
        Some "Não é possível agendar no passado"
      else None
  end.

Definition doSender (sender : string) (a : Agendamento) : bool :=
  String.eqb (ag_sender a) sender.

Definition noHorario (data hora : string) (a : Agendamento) : bool :=
  String.eqb (ag_data a) data && String.eqb (ag_hora a) hora.

Definition msgLimite : string :=
  "Você atingiu o limite de 3 agendamentos. Cancele um para agendar novamente.".

Definition msgConflito : string := "Horário já agendado. Escolha outro horário.".

Definition msgConfirmado (nome data hora : string) : string :=
  "*Agendamento Confirmado! 🎉*" ++ nl ++ "Nome: " ++ nome ++ nl ++ "Data: " ++ data
  ++ nl ++ "Hora: " ++ hora ++ nl ++ "Endereço: " ++ INFO_endereco ++ nl ++ nl
  ++ "Chegue 5 minutos antes! Qualquer dúvida, é só chamar.".

(** [notificarAdmin(client, mensagem)]. *)
Definition notificarAdmin (w : Mundo) (mensagem : string) : Mundo :=
  sendMessage w ADMIN_PHONE (Texto mensagem).

(** [agendarServico(nome, data, hora, sender, client)]: the reply ([None]
    is [null]) and the world it leaves. *)
Definition agendarServico (agora : Z) (nome data hora sender : string) (w : Mundo)
  : option string * Mundo :=
  match verificarHorario agora data hora with
  | Some e =>
      let '(p, w') := listarHorarios agora sender w in
      (Some ("Erro: " ++ e ++ ". Tente novamente." ++ nl ++ nl ++ p), w')
  | None =>
      let agendamentosAtivos :=
        List.length (List.filter (doSender sender) (agendamentos (bd w))) in
      if (3 <=? agendamentosAtivos)%nat then
        (Some (msgLimite ++ nl ++ nl ++ mostrarMenu), w)
      else
        match List.find (noHorario data hora) (agendamentos (bd w)) with
        | Some _ =>
            let '(p, w') := listarHorarios agora sender w in
            (Some (msgConflito ++ nl ++ nl ++ p), w')
        | None =>
            let agendamento := mkAgendamento nome data hora sender (toISOString agora) in
            let w1 := com_bd w (com_agendamentos (bd w) (agendamentos (bd w) ++ [agendamento])) in
            let w2 := notificarAdmin w1
                        ("Novo agendamento: " ++ nome ++ ", " ++ data ++ ", " ++ hora) in
            let lista := listarAgendamentosDia agora sender (Some data) (bd w2) in
            let w3 := sendMessage w2 sender
                        (match versao with
                         | SQLite => Promessa lista
                         | MongoDB => Texto lista
                         end) in
            let w4 := sendMessage w3 sender (Texto (msgConfirmado nome data hora)) in
            (None, com_ultimoAgendamento w4 (Some (sender, agora)))
        end
  end.

(** ** Cancellation *)

Definition doCliente (nome data hora : string) (a : Agendamento) : bool :=
  String.eqb (ag_nome a) nome && String.eqb (ag_data a) data && String.eqb (ag_hora a) hora.

(** [deleteOne]: the first matching row goes. *)
Fixpoint removerPrimeiro (p : Agendamento -> bool) (l : list Agendamento)
  : list Agendamento :=
  match l with
  | [] => []
  | a :: r => if p a then r else a :: removerPrimeiro p r
  end.

(** [DELETE FROM agendamentos WHERE ...] removes every matching row,
    [Agendamento.deleteOne] the first. *)
Definition apagar (p : Agendamento -> bool) (l : list Agendamento) : list Agendamento :=
  match versao with
  | SQLite => List.filter (fun a => negb (p a)) l
  | MongoDB => removerPrimeiro p l
  end.

Definition msgNaoEncontrado : string := "Agendamento não encontrado.".
Definition msgCancelado : string := "Agendamento cancelado com sucesso.".
Definition motivoUsuario : string := "Cancelado pelo usuário".

(** [cancelarServico(nome, data, hora, client)]. *)
Definition cancelarServico (agora : Z) (nome data hora : string) (w : Mundo)
  : option string * Mundo :=
  match List.find (doCliente nome data hora) (agendamentos (bd w)) with
  | None => (Some (msgNaoEncontrado ++ nl ++ nl ++ mostrarMenu), w)
  | Some _ =>
      let b1 := com_agendamentos (bd w)
                  (apagar (doCliente nome data hora) (agendamentos (bd w))) in
      let cancelamento := mkCancelamento nome data hora motivoUsuario (toISOString agora) in
      let b2 := mkBD (agendamentos b1) (feedbacks b1) (cancelamentos b1 ++ [cancelamento]) in
      let w1 := notificarAdmin (com_bd w b2)
                  ("Cancelamento: " ++ nome ++ ", " ++ data ++ ", " ++ hora) in
      (Some (msgCancelado ++ nl ++ nl ++ mostrarMenu), w1)
  end.

(** ** Feedback *)

(** [parseInt(x)] of a number: the number is printed and its integer
    digits are read back.  For a finite number this is always an integer
    (the integer part while the printed form is positional, the leading
    digits of the mantissa once it is exponential); the embedding takes
    the integer part throughout, [Number.isInteger] being the only
    consumer of the result. *)
Definition parseIntNumero (x : number) : option Z :=
  match x with
  | NaN => None
  | Num q => Some (if Qle_bool 0 q then Qfloor q else Qceiling q)
  end.

(** [Number.isInteger] of a result of [parseInt]. *)
Definition Number_isInteger (x : option Z) : bool :=
  match x with Some _ => true | None => false end.

Definition numLt (x : number) (k : Z) : bool :=
  match x with NaN => false | Num q => negb (Qle_bool (inject_Z k) q) end.

Definition numGt (x : number) (k : Z) : bool :=
  match x with NaN => false | Num q => negb (Qle_bool q (inject_Z k)) end.

Definition msgAvaliacaoInvalida : string :=
  "Avaliação inválida. Use um número de 1 a 5." ++ nl ++ nl
  ++ "Formato: feedback [nome] [comentario] [avaliação]".

Definition msgValeu : string := "Valeu pelo feedback, irmão! 😎".

(** [coletarFeedback(nome, comentario, avaliacao)]. *)
Definition coletarFeedback (agora : Z) (nome comentario : string) (avaliacao : number)
           (w : Mundo) : option string * Mundo :=
  if negb (Number_isInteger (parseIntNumero avaliacao))
     || numLt avaliacao 1 || numGt avaliacao 5
  then (Some (msgAvaliacaoInvalida ++ nl ++ nl ++ mostrarMenu), w)
  else
    let feedback := mkFeedback nome comentario avaliacao (toISOString agora) in
    (Some (msgValeu ++ nl ++ nl ++ mostrarMenu),
     com_bd w (mkBD (agendamentos (bd w)) (feedbacks (bd w) ++ [feedback])
                    (cancelamentos (bd w)))).

(** ** Report *)

(** [gerarRelatorio(sender)]; the two CSV dumps go to the logger only. *)
Definition gerarRelatorio (agora : Z) (sender : string) (w : Mundo) : string :=
  if negb (String.eqb sender ADMIN_PHONE) then
    "Apenas o administrador pode acessar relatórios." ++ nl ++ nl ++ mostrarMenu
  else
    let hoje := dataUTC agora in
    let ativos := List.filter (fun a => negb (String.ltb (ag_data a) hoje))
                              (agendamentos (bd w)) in
    "Relatório: " ++ toString (Z.of_nat (List.length ativos)) ++ " agendamentos ativos, "
    ++ toString (Z.of_nat (List.length (cancelamentos (bd w)))) ++ " cancelados."
    ++ nl ++ nl ++ mostrarMenu.

(** ** Chat with Chocolate *)

Definition seteMinutos : Z := 7 * 60 * 1000.

Definition iniciarChatChocolate (agora : Z) (sender : string) (w : Mundo)
  : option string * Mundo :=
  (Some ("O Chocolate foi solicitado, por favor, aguarde... ⏳" ++ nl ++
         "Digite 'sair' a qualquer momento para finalizar o bate-papo e voltar ao menu."),
   com_conversas w (<[sender := mkConversa true agora (agora + seteMinutos)]>
                      (conversasChocolate w))).

Definition processarMensagemChocolate (agora : Z) (mensagem sender : string) (w : Mundo)
  : option string * Mundo :=
  match conversasChocolate w !! sender with
  | None => (None, w)
  | Some conversa =>
      if negb (ativo conversa) then (None, w)
      else if String.eqb (trim (toLowerCase mensagem)) "sair" then
        (Some ("Bate-papo encerrado. Voltando ao menu." ++ nl ++ nl ++ mostrarMenu),
         com_conversas w (delete sender (conversasChocolate w)))
      else
        (None,
         com_conversas w (<[sender := mkConversa (ativo conversa) agora (agora + seteMinutos)]>
                            (conversasChocolate w)))
  end.

(** ** The dispatcher *)

Definition validarData (data : string) : bool :=
  match regexData data with
  | None => false
  | Some (dia, mes, ano) =>
      match Date_ymd (parseInt ano) (option_map (fun m => m - 1) (parseInt mes))
                     (parseInt dia) with
      | Some _ => true
      | None => false
      end
  end.

(** The step "data". *)
Definition etapaData (agora : Z) (mensagem sender : string) (w : Mundo)
  : option string * Mundo :=
  if negb (validarData mensagem) then
    (Some ("Formato inválido. Use: DD/MM/YYYY (ex.: 25/12/2025)" ++ nl ++ nl
           ++ "Digite novamente ou 'sair':"), w)
  else
    let partes := split "/" mensagem in
    let dia := parte partes 0 in
    let mes := parte partes 1 in
    let ano := parte partes 2 in
    let dataObj :=
      setHours (Date_ymd (parseInt ano) (option_map (fun m => m - 1) (parseInt mes))
                         (parseInt dia)) 0 in
    let hoje := setHours (Some agora) 0 in
    if Date_lt dataObj hoje then
      (Some ("A data deve ser hoje ou futura. Não é possível agendar no passado."
             ++ nl ++ nl ++ "Digite outra data (DD/MM/YYYY) ou 'sair':"), w)
    else
      let data := ano ++ "-" ++ padStart2 mes ++ "-" ++ padStart2 dia in
      let w1 := com_estados w
                  (alter (fun s => com_etapa (Some EHorario) (com_data data s))
                         sender (estados w)) in
      let diaSemana := getDay dataObj in
      let '(horaInicio, horaFim) := expediente diaSemana in
      let currentTime := setHours dataObj horaInicio in
      let fimTime := setHours dataObj horaFim in
      let rows := List.filter (doDia data) (agendamentos (bd w1)) in
      (Some (join nl (horarios sender rows currentTime fimTime) ++ nl ++ nl
             ++ promptHorario), w1).

Definition apagarEstado (sender : string) (w : Mundo) : Mundo :=
  com_estados w (delete sender (estados w)).

Definition msgFormatoCancelar : string :=
  "[nome] [horário: HH:MM] (ex.: Joao 09:00) ou 'sair' para voltar ao menu:".

(** The [if (estado.etapa) { ... }] block; every step returns. *)
Definition processarEtapa (agora : Z) (e : Etapa) (estado : Estado)
           (mensagem mensagemLower sender : string) (w : Mundo)
  : option string * Mundo :=
  match e with
  | EData => etapaData agora mensagem sender w
  | EHorario =>
      if negb (validarHorario mensagem) then
        let '(p, w') := listarHorarios agora sender w in
        (Some ("Horário inválido. Use: HH:MM (ex.: 09:00)" ++ nl ++ nl ++ p), w')
      else
        (Some "Digite seu nome ou 'sair' para voltar ao menu:",
         com_estados w (alter (fun s => com_etapa (Some ENome) (com_hora mensagem s))
                              sender (estados w)))
  | ENome =>
      match est_data estado, est_hora estado with
      | Some data, Some hora =>
          agendarServico agora mensagem data hora sender (apagarEstado sender w)
      | _, _ =>
          (* Outside the embedding: the step "nome" is only set together
             with [estado.hora], at a state that holds [estado.data] (the
             invariant [estadosBem] below, kept by every handler), so this
             branch is not reached; the source would call [agendarServico]
             with [undefined]. *)
          (None, apagarEstado sender w)
      end
  | ECancelarNomeHora =>
      let partes := split " " mensagem in
      if (2 <=? List.length partes)%nat then
        let nome := parte partes 0 in
        let hora := parte partes 1 in
        if negb (validarHorario hora) then
          (Some ("Formato inválido. Use: " ++ msgFormatoCancelar), w)
        else
          cancelarServico agora nome (dataUTC agora) hora (apagarEstado sender w)
      else (Some ("Formato: " ++ msgFormatoCancelar), w)
  | EConfirmarPresenca =>
      if String.eqb mensagemLower "sim" then
        (Some ("Show! Te esperamos no horário. 😎" ++ nl ++ nl ++ mostrarMenu),
         apagarEstado sender w)
      else if String.eqb mensagemLower "não" then
        match est_agendamento estado with
        | Some (nome, data, hora) =>
            cancelarServico agora nome data hora (apagarEstado sender w)
        | None =>
            (* Outside the embedding: the step is only armed together with
               [estado.agendamento] (the invariant [estadosBem] below), so
               this branch is not reached; the source would throw on the
               destructuring of [undefined]. *)
            (None, apagarEstado sender w)
        end
      else (Some "Responda 'Sim' ou 'Não' para confirmar sua presença.", w)
  end.

(** The free-form commands at the end of [processarMensagem]. *)
Definition comandosEspeciais (agora : Z) (mensagem mensagemLower sender : string)
           (w : Mundo) : option string * Mundo :=
  if startsWith mensagemLower "triagem" then
    let partes := split " " mensagem in
    if (3 <=? List.length partes)%nat then
      (Some (triagemEstilo (parte partes 1) (parte partes 2)), w)
    else (Some ("Formato: triagem [estilo] [nome]" ++ nl ++ nl ++ mostrarMenu), w)
  else if startsWith mensagemLower "feedback" then
    let partes := split " " mensagem in
    if (4 <=? List.length partes)%nat then
      let nome := parte partes 1 in
      let avaliacao := parseInt (List.last partes EmptyString) in
      let comentario := join " " (List.removelast (List.skipn 2 partes)) in
      coletarFeedback agora nome comentario (number_of_int avaliacao) w
    else
      (Some ("Formato: feedback [nome] [comentario] [avaliação de 1 a 5]"
             ++ nl ++ nl ++ mostrarMenu), w)
  else if String.eqb mensagemLower "relatorio" then
    (Some (gerarRelatorio agora sender w), w)
  else (Some mostrarMenu, w).

Definition pertence (x : string) (l : list string) : bool :=
  List.existsb (String.eqb x) l.

(** [processarMensagem] from the chat-with-Chocolate test on: the routing
    a message gets when it is not swallowed by the [ultimoAgendamento]
    marker.  The entry of [sender] in [estados] exists by then. *)
Definition rotear (agora : Z) (mensagem sender : string) (w : Mundo)
  : option string * Mundo :=
  let mensagemLower := trim (toLowerCase mensagem) in
  match conversasChocolate w !! sender with
  | Some _ => processarMensagemChocolate agora mensagem sender w
  | None =>
  let estado := default (mkEstado agora None None None None) (estados w !! sender) in
  if String.eqb mensagemLower "sair" && bool_decide (is_Some (etapa estado)) then
    (Some mostrarMenu, apagarEstado sender w)
  else if negb (bool_decide (is_Some (etapa estado)))
          && negb (pertence mensagem ["1"; "2"; "3"; "4"; "5"; "6"; "7"])
          && negb (startsWith mensagemLower "triagem")
          && negb (startsWith mensagemLower "feedback")
          && negb (startsWith mensagemLower "relatorio") then
    (Some mostrarMenu, w)
  else if String.eqb mensagem "1" then
    (Some promptData,
     com_estados w (alter (com_etapa (Some EData)) sender (estados w)))
  else if String.eqb mensagem "2" then
    (Some "Digite seu nome e o horário (ex.: Joao 09:00) ou 'sair' para voltar ao menu:",
     com_estados w (alter (com_etapa (Some ECancelarNomeHora)) sender (estados w)))
  else if String.eqb mensagem "3" then
    (Some (listarAgendamentosDia agora sender None (bd w)), w)
  else if String.eqb mensagem "4" then
    (Some (INFO_horario ++ nl ++ nl ++ mostrarMenu), w)
  else if String.eqb mensagem "5" then
    (Some (INFO_endereco ++ nl ++ nl ++ mostrarMenu), w)
  else if String.eqb mensagem "6" then
    iniciarChatChocolate agora sender w
  else if String.eqb mensagem "7" then
    (Some "Bot encerrado. Até a próxima! 😎",
     apagarEstado sender (com_conversas w (delete sender (conversasChocolate w))))
  else
    match etapa estado with
    | Some e => processarEtapa agora e estado mensagem mensagemLower sender w
    | None => comandosEspeciais agora mensagem mensagemLower sender w
    end
  end.

(** [const estado = getEstado(sender); estado.ultimoContato = Date.now()]. *)
Definition registrarContato (agora : Z) (sender : string) (w : Mundo) : Mundo :=
  com_estados w (alter (com_ultimoContato agora) sender
                       (getEstado agora sender (estados w))).

(** The test on the [ultimoAgendamento] marker. *)
Definition acabouDeAgendar (agora : Z) (sender : string) (w : Mundo) : bool :=
  match ultimoAgendamento w with
  | Some (s, timestamp) => String.eqb s sender && (agora - timestamp <? 60000)
  | None => false
  end.

(** [processarMensagem(mensagem, sender, client)]. *)
Definition processarMensagem (agora : Z) (mensagem sender : string) (w : Mundo)
  : option string * Mundo :=
  if negb (endsWith sender "@c.us") then (None, w)
  else
    let w1 := registrarContato agora sender w in
    if acabouDeAgendar agora sender w1 then
      (Some mostrarMenu, com_ultimoAgendamento w1 None)
    else rotear agora mensagem sender w1.

(** ** Retention job *)

(** The job scheduled at 00:00: rows whose [data] sorts before the date
    thirty days back are deleted.  Text comparison is bytewise, as in
    both stores.  When the limit date is invalid [toISOString] throws and
    nothing is deleted. *)
Definition limparAgendamentosAntigos (agora : Z) (b : BD) : BD :=
  match setDate agora (getDate agora - 30) with
  | Some dataLimite =>
      let dataLimiteStr := dataUTC dataLimite in
      com_agendamentos b
        (List.filter (fun a => negb (String.ltb (ag_data a) dataLimiteStr))
                     (agendamentos b))
  | None => b
  end.


(** ** Notions used to state the properties *)

(** The times of day visited by the loop of the listing. *)
Fixpoint horasLoop (n : nat) (currentTime fimTime : Z) : list string :=
  match n with
  | O => []
  | S n' =>
      if currentTime <? fimTime then
        horaLocal currentTime :: horasLoop n' (currentTime + 30 * msPerMinute) fimTime
      else []
  end.

(** The slots [listarAgendamentosDia] lists for its argument. *)
Definition horasDoDia (agora : Z) (data : option string) : list string :=
  let hoje := ouHoje agora data in
  let '(horaInicio, horaFim) := expediente (getDay (Date_parse hoje)) in
  match Date_parse (hoje ++ "T" ++ padStart2 (toString horaInicio) ++ ":00:00"),
        Date_parse (hoje ++ "T" ++ padStart2 (toString horaFim) ++ ":00:00") with
  | Some c, Some f => horasLoop (voltas c f) c f
  | _, _ => []
  end.

(** Two tables that hold the same slots, row by row, whatever the names. *)
Definition mesmosHorarios (l1 l2 : list Agendamento) : Prop :=
  Forall2 (fun a b => ag_data a = ag_data b /\ ag_hora a = ag_hora b) l1 l2.

(** The line of a slot with the occupant withheld. *)
Definition linhaPublica (ocupado : bool) (horaStr : string) : string :=
  horaStr ++ " " ++ (if ocupado then "⏰ (agendado)" else "✅ (disponível)").

(** The line of a slot as the administrator sees it. *)
Definition linhaAdmin (ocupante : option string) (horaStr : string) : string :=
  horaStr ++ " " ++
  match ocupante with
  | Some nome => "⏰ (agendado - " ++ nome ++ ")"
  | None => "✅ (disponível)"
  end.

(** The text HH:MM of an hour and a minute. *)
Definition horaTexto (h m : Z) : string := dec2 h ++ ":" ++ dec2 m.

(** The two facts checked of every HH:MM from 00:00 to 23:59. *)
Definition horaBoa (h m : nat) : bool :=
  validarHorario (horaTexto (Z.of_nat h) (Z.of_nat m))
  && match horaNumDe (horaTexto (Z.of_nat h) (Z.of_nat m)) with
     | Some v => v =? Z.of_nat h
     | None => false
     end.

(** The date YYYY-MM-DD of day number [d] (days since 1970-01-01), as the
    program stores it in [data]. *)
Definition dataDoDia (d : Z) : string := dataISO (d * msPerDay).

(** The same date as the number YYYYMMDD. *)
Definition chaveDoDia (d : Z) : Z :=
  YearFromDay d * 10000 + (MonthFromDay d + 1) * 100 + DateFromDay d.

Definition semT (s : string) : bool :=
  List.forallb (fun c => negb (Ascii.eqb c "T")) (list_ascii_of_string s).

(** ** Data of the worked examples *)

(** An ASCII-only instance of [toLowerCase], used where an example runs
    the dispatcher. *)
Definition minuscula (c : ascii) : ascii :=
  if (65 <=? codigo c) && (codigo c <=? 90) then ascii_of_N (Z.to_N (codigo c + 32)) else c.

Definition toLowerASCII (s : string) : string :=
  string_of_list_ascii (List.map minuscula (list_ascii_of_string s)).

(** UTC-3, the offset of Maceió. *)
Definition fusoMaceio : Z := -3 * msPerHour.

Definition admin : string := "+5582993230395@c.us".

(** 2025-11-01T21:00:00.123Z. *)
Definition instante : Z := 1762030800123.

Definition mundoVazio : Mundo := mkMundo (mkBD [] [] []) ∅ ∅ None [].

(** A table in which 2025-12-26 10:00 is already taken. *)
Definition mundoOcupado : Mundo :=
  mkMundo (mkBD [mkAgendamento "Caio" "2025-12-26" "10:00" "c@c.us" "2025-10-30T12:00:00.000Z"]
                [] [])
          ∅ ∅ None [].

(** A requester whose three rows are all dated before 2025-11-01. *)
Definition mundoPassado : Mundo :=
  mkMundo (mkBD [mkAgendamento "Bia" "2025-10-10" "10:00" "b@c.us" "2025-10-01T12:00:00.000Z";
                 mkAgendamento "Bia" "2025-10-17" "10:00" "b@c.us" "2025-10-01T12:01:00.000Z";
                 mkAgendamento "Bia" "2025-10-24" "10:00" "b@c.us" "2025-10-01T12:02:00.000Z"]
                [] [])
          ∅ ∅ None [].

(** Rows dated 31 and 29 days before 2025-11-01. *)
Definition ag31 : Agendamento :=
  mkAgendamento "Ana" "2025-10-01" "10:00" "a@c.us" "2025-09-20T12:00:00.000Z".
Definition ag29 : Agendamento :=
  mkAgendamento "Bia" "2025-10-03" "10:00" "b@c.us" "2025-09-20T12:01:00.000Z".
Definition bdAntigo : BD :=
  mkBD [ag31; ag29]
       [mkFeedback "Ana" "bom" (Num 5) "2025-09-01T12:00:00.000Z"]
       [mkCancelamento "Caio" "2025-09-01" "11:00" "Cancelado pelo usuário"
                       "2025-08-30T12:00:00.000Z"].

(** Two tables with the same slots and different names. *)
Definition bdNomesA : BD :=
  mkBD [mkAgendamento "Ana" "2025-12-26" "09:30" "a@c.us" "t1";
        mkAgendamento "Bia" "2025-12-26" "11:00" "b@c.us" "t2"] [] [].
Definition bdNomesB : BD :=
  mkBD [mkAgendamento "Caio" "2025-12-26" "09:30" "c@c.us" "t3";
        mkAgendamento "Davi" "2025-12-26" "11:00" "d@c.us" "t4"] [] [].

(** The marker as a booking of "b@c.us" at [instante] leaves it. *)
Definition mundoMarcado : Mundo := com_ultimoAgendamento mundoVazio (Some ("b@c.us", instante)).

(** Exactly one of two bookings succeeded (a success replies [null]). *)
Definition exatamenteUmSucesso (r1 r2 : option string * Mundo) : Prop :=
  (fst r1 = None /\ fst r2 <> None) \/ (fst r1 <> None /\ fst r2 = None).

(** The reply asks for a time again: it ends with the time prompt. *)
Definition pedeHorario (r : option string * Mundo) : Prop :=
  exists e, fst r = Some (e ++ promptHorario).

(** ** Proof steps used more than once *)

(** Drop the section variables the goal does not mention, so that the
    arithmetic tactics do not pull them into the proof. *)
Ltac sem_variaveis :=
  try clear toLowerCase; try clear ADMIN_PHONE; try clear versao; try clear LocalTZA.

(** Two replies that differ in their first characters. *)
Ltac textos_diferentes :=
  let H := fresh in
  intros H; exfalso; revert H;
  unfold msgLimite, msgConflito, msgAvaliacaoInvalida, msgValeu; cbn; discriminate.

(** Case analysis on the comparisons of a month table. *)
Ltac casos_do_mes :=
  repeat match goal with
         | |- context [if ?a <? ?b then _ else _] => destruct (Z.ltb_spec a b); cbn
         end.

(** ** The remaining handlers of [main.js] *)

(** The test of the [setInterval] sweep on one entry:
    [estado.ultimoContato && agora - estado.ultimoContato > 10 * 60 * 1000]
    (a contact time of 0 is falsy). *)
Definition inativo (agora : Z) (s : Estado) : bool :=
  negb (ultimoContato s =? 0) && (10 * 60 * 1000 <? agora - ultimoContato s).

(** The sweep run every ten minutes over [estados]. *)
Definition limparEstadosInativos (agora : Z) (w : Mundo) : Mundo :=
  com_estados w (filter (fun kv => inativo agora (snd kv) = false) (estados w)).

Definition msgLembreteHoje (a : Agendamento) : string :=
  "Lembrete: " ++ ag_nome a ++ ", seu corte é hoje às " ++ ag_hora a ++ "! 😎".

(** [enviarLembrete(client)], run when the client is ready: one reminder
    per appointment of today, in the order of the table. *)
Definition enviarLembrete (agora : Z) (w : Mundo) : string * Mundo :=
  let hoje := dataUTC agora in
  let rows := List.filter (doDia hoje) (agendamentos (bd w)) in
  ("Lembretes enviados." ++ nl ++ nl ++ mostrarMenu,
   List.fold_left (fun w' a => sendMessage w' (ag_sender a) (Texto (msgLembreteHoje a)))
                  rows w).

Definition com_agendamento (t : string * string * string) (s : Estado) : Estado :=
  mkEstado (ultimoContato s) (etapa s) (est_data s) (est_hora s) (Some t).

Definition msgLembreteAmanha (dataAmanha : string) (a : Agendamento) : string :=
  "Lembrete: " ++ ag_nome a ++ ", seu corte é amanhã (" ++ dataAmanha ++ ") às "
  ++ ag_hora a ++ "! Confirme com 'Sim' ou 'Não'.".

(** What the 09:00 job does for one appointment of tomorrow: the reminder
    is sent and the state of its sender is put at "confirmar_presenca"
    with the appointment attached. *)
Definition lembrarAmanha (agora : Z) (dataAmanha : string) (w : Mundo) (a : Agendamento)
  : Mundo :=
  let w1 := sendMessage w (ag_sender a) (Texto (msgLembreteAmanha dataAmanha a)) in
  com_estados w1
    (alter (fun s => com_agendamento (ag_nome a, dataAmanha, ag_hora a)
                       (com_etapa (Some EConfirmarPresenca) s))
           (ag_sender a) (getEstado agora (ag_sender a) (estados w1))).

(** The job scheduled at 09:00.  When the date of tomorrow is invalid
    [toISOString] throws and nothing is done. *)
Definition lembretesDeAmanha (agora : Z) (w : Mundo) : Mundo :=
  match setDate agora (getDate agora + 1) with
  | Some amanha =>
      let dataAmanha := dataUTC amanha in
      List.fold_left (lembrarAmanha agora dataAmanha)
                     (List.filter (doDia dataAmanha) (agendamentos (bd w))) w
  | None => w
  end.

Definition msgInatividade : string :=
  "Inatividade detectada. Encerrando o bate-papo." ++ nl ++ nl ++ mostrarMenu.

(** The callback given to [setTimeout] by the chat with Chocolate, run
    when the idle timer of [sender] fires. *)
Definition aoExpirarChat (sender : string) (w : Mundo) : Mundo :=
  match conversasChocolate w !! sender with
  | Some _ =>
      com_conversas (sendMessage w sender (Texto msgInatividade))
                    (delete sender (conversasChocolate w))
  | None => w
  end.

(** The handler of the client's [message] event; [message.reply] answers
    in the chat the message came from. *)
Definition aoReceberMensagem (agora : Z) (from body : string) (hasMedia : bool)
           (w : Mundo) : Mundo :=
  if includes from "@g.us" then w
  else if hasMedia then
    sendMessage w from
      (Texto ("Desculpe, só processamos mensagens de texto! 😅" ++ nl ++ nl ++ mostrarMenu))
  else
    match processarMensagem agora body from w with
    | (Some resposta, w') => sendMessage w' from (Texto resposta)
    | (None, w') => w'
    end.

(** The body of the route [POST /bot/message] of the MongoDB variant, run
    once [authenticate] has let the request through: the reply, unless it
    is falsy ([null] or the empty string), is sent to [sender] and
    returned as the [message] of the response. *)
Definition botMessage (agora : Z) (message sender : string) (w : Mundo) : string * Mundo :=
  match processarMensagem agora message sender w with
  | (Some resposta, w') =>
      if String.eqb resposta EmptyString then ("Aguardando resposta", w')
      else (resposta, sendMessage w' sender (Texto resposta))
  | (None, w') => ("Aguardando resposta", w')
  end.

(** ** Invariants of the store and of the conversation states *)

(** No slot holds two appointments. *)
Definition semChoque (ags : list Agendamento) : Prop :=
  forall data hora, (List.length (List.filter (noHorario data hora) ags) <= 1)%nat.

(** Nobody owns more than three appointments. *)
Definition dentroDoLimite (ags : list Agendamento) : Prop :=
  forall sender, (List.length (List.filter (doSender sender) ags) <= 3)%nat.

(** What one message of [sender] can do to the store: nothing; add one
    appointment of [sender] on a slot that was free, [sender] owning fewer
    than three; delete the appointments of one (name, date, time) and log
    the cancellation; or add one feedback. *)
Definition passoBD (sender : string) (b b' : BD) : Prop :=
  b' = b
  \/ (exists a,
         b' = com_agendamentos b (agendamentos b ++ [a]) /\
         ag_sender a = sender /\
         List.find (noHorario (ag_data a) (ag_hora a)) (agendamentos b) = None /\
         (List.length (List.filter (doSender sender) (agendamentos b)) < 3)%nat)
  \/ (exists nome data hora c,
         b' = mkBD (apagar (doCliente nome data hora) (agendamentos b)) (feedbacks b)
                   (cancelamentos b ++ [c]))
  \/ (exists f,
         b' = mkBD (agendamentos b) (feedbacks b ++ [f]) (cancelamentos b)).

(** The fields a step needs are stored: a date at "horario", a date and a
    time at "nome", the appointment at "confirmar_presenca". *)
Definition estadoBem (s : Estado) : Prop :=
  match etapa s with
  | Some EHorario => is_Some (est_data s)
  | Some ENome => is_Some (est_data s) /\ is_Some (est_hora s)
  | Some EConfirmarPresenca => is_Some (est_agendamento s)
  | _ => True
  end.

Definition estadosBem (e : gmap string Estado) : Prop :=
  forall k s, e !! k = Some s -> estadoBem s.

(** Everything [w'] sent beyond what [w] had sent went to one of [dest]. *)
Definition soPara (dest : list string) (w w' : Mundo) : Prop :=
  exists l, enviadas w' = (enviadas w ++ l)%list /\ Forall (fun m => In (fst m) dest) l.

(** The entry of [k], if any, was last contacted at [agora]. *)
Definition contatoEm (agora : Z) (k : string) (e : gmap string Estado) : Prop :=
  forall s, e !! k = Some s -> ultimoContato s = agora.

(** The half-hour marks from [horaInicio]:00 up to, not including,
    [horaFim]:00. *)
Definition grade (horaInicio horaFim : Z) : list string :=
  List.map (fun i => horaTexto (Z.of_nat i / 2) (30 * (Z.of_nat i mod 2)))
           (List.seq (Z.to_nat (2 * horaInicio)) (Z.to_nat (2 * (horaFim - horaInicio)))).

(** The rating of a feedback is a whole number from 1 to 5. *)
Definition notaInteira (f : Feedback) : Prop :=
  exists n, 1 <= n <= 5 /\ fb_avaliacao f = Num (inject_Z n).

(** The two replies [triagemEstilo] can give to a one-word style. *)
Definition sugestaoDegrade : string :=
  "Sugerimos o *Degradê Navalhado* com o barbeiro Chocolate (R$55). 😎 "
  ++ "Deseja agendar? Digite 1 para iniciar." ++ nl ++ nl ++ mostrarMenu.

Definition estiloNaoIdentificado : string :=
  "Estilo não identificado. Descreva novamente (ex.: cabelo curto, barba cheia)."
  ++ nl ++ nl ++ mostrarMenu.

(** ** Further data of the worked examples *)

(** "b@c.us" is in a chat with Chocolate started at [instante]. *)
Definition mundoChat : Mundo :=
  mkMundo (mkBD [] [] []) ∅
          {["b@c.us" := mkConversa true instante (instante + 7 * 60 * 1000)]} None [].

(** "b@c.us" has chosen 2025-12-26 and is asked for a time. *)
Definition mundoNoHorario : Mundo :=
  mkMundo (mkBD [] [] [])
          {["b@c.us" := mkEstado instante (Some EHorario) (Some "2025-12-26") None None]}
          ∅ None [].

(** An appointment on 2025-11-02, the day after [instante]. *)
Definition agAmanha : Agendamento :=
  mkAgendamento "Bia" "2025-11-02" "10:00" "b@c.us" "2025-10-30T12:00:00.000Z".

Definition mundoAmanha : Mundo := mkMundo (mkBD [agAmanha] [] []) ∅ ∅ None [].

(** "b@c.us" has been reminded of [agAmanha]. *)
Definition mundoConfirmar : Mundo :=
  mkMundo (mkBD [agAmanha] [] [])
          {["b@c.us" := mkEstado instante (Some EConfirmarPresenca) None None
                                 (Some ("Bia", "2025-11-02", "10:00"))]}
          ∅ None [].

(** "b@c.us" has chosen option 2 while [agAmanha] is in the table. *)
Definition mundoCancelar : Mundo :=
  mkMundo (mkBD [agAmanha] [] [])
          {["b@c.us" := mkEstado instante (Some ECancelarNomeHora) None None None]}
          ∅ None [].

(** 2025-12-26 10:00 is taken by "c@c.us", and "b@c.us", who has chosen
    2025-12-26 and 11:00, is asked for a name. *)
Definition mundoNoNome : Mundo :=
  mkMundo (bd mundoOcupado)
          {["b@c.us" := mkEstado instante (Some ENome) (Some "2025-12-26") (Some "11:00")
                                 None]}
          ∅ None [].

(** The same requester asks for 10:00, the slot that is taken. *)
Definition mundoNoNomeOcupado : Mundo :=
  mkMundo (bd mundoOcupado)
          {["b@c.us" := mkEstado instante (Some ENome) (Some "2025-12-26") (Some "10:00")
                                 None]}
          ∅ None [].

(** "b@c.us" owns two appointments and is about to name a third. *)
Definition mundoDoisDeTres : Mundo :=
  mkMundo (mkBD [mkAgendamento "Bia" "2025-12-26" "09:00" "b@c.us" "2025-10-30T12:00:00.000Z";
                 mkAgendamento "Bia" "2025-12-27" "10:00" "b@c.us" "2025-10-30T12:01:00.000Z"]
                [] [])
          {["b@c.us" := mkEstado instante (Some ENome) (Some "2025-12-26") (Some "11:00")
                                 None]}
          ∅ None [].

(** "b@c.us" owns three appointments and is about to name a fourth. *)
Definition mundoTresDeTres : Mundo :=
  mkMundo (mkBD [mkAgendamento "Bia" "2025-12-26" "09:00" "b@c.us" "2025-10-30T12:00:00.000Z";
                 mkAgendamento "Bia" "2025-12-27" "10:00" "b@c.us" "2025-10-30T12:01:00.000Z";
                 mkAgendamento "Bia" "2025-12-29" "10:00" "b@c.us" "2025-10-30T12:02:00.000Z"]
                [] [])
          {["b@c.us" := mkEstado instante (Some ENome) (Some "2025-12-26") (Some "11:00")
                                 None]}
          ∅ None [].

(** * Properties *)

(** A lemma depends on the section variables of its statement only. *)
Set Default Proof Using "Type*".


(** ** Lists of rows *)

Lemma find_nenhum {A} (p : A -> bool) (l : list A) :
  (forall x, In x l -> p x = false) -> List.find p l = None.
Proof.
  induction l as [|a l IH]; intros H; [reflexivity|].
  cbn. rewrite (H a (or_introl eq_refl)). apply IH.
  intros x Hx. apply H. right. exact Hx.
Qed.

Lemma find_primeiro {A} (p : A -> bool) (l : list A) (a : A) :
  List.find p l = Some a ->
  exists l1 l2, l = (l1 ++ a :: l2)%list /\ p a = true /\ (forall x, In x l1 -> p x = false).
Proof.
  induction l as [|b l IH]; cbn; [discriminate|].
  destruct (p b) eqn:E.
  - intros [= ->]. exists [], l. repeat split; [exact E|intros x []].
  - intros H. destruct (IH H) as (l1 & l2 & -> & Ha & Hl1).
    exists (b :: l1), l2. repeat split; [exact Ha|].
    intros x [<-|Hx]; [exact E|apply Hl1, Hx].
Qed.

Lemma find_existe {A} (p : A -> bool) (l : list A) (x : A) :
  In x l -> p x = true -> exists a, List.find p l = Some a.
Proof.
  intros Hin Hp. destruct (List.find p l) as [a|] eqn:E; [eauto|].
  rewrite (List.find_none p l E x Hin) in Hp. discriminate.
Qed.

Lemma removerPrimeiro_split (p : Agendamento -> bool) l1 a l2 :
  p a = true -> (forall x, In x l1 -> p x = false) ->
  removerPrimeiro p (l1 ++ a :: l2)%list = (l1 ++ l2)%list.
Proof.
  intros Ha. induction l1 as [|b l1 IH]; intros H; cbn.
  - rewrite Ha. reflexivity.
  - rewrite (H b (or_introl eq_refl)). f_equal. apply IH.
    intros x Hx. apply H. right. exact Hx.
Qed.

Lemma filter_nenhum_sai {A} (p : A -> bool) (l : list A) :
  (forall x, In x l -> p x = false) -> List.filter (fun a => negb (p a)) l = l.
Proof.
  induction l as [|b l IH]; intros H; cbn; [reflexivity|].
  rewrite (H b (or_introl eq_refl)). cbn. f_equal. apply IH.
  intros x Hx. apply H. right. exact Hx.
Qed.

Lemma filter_nenhum {A} (p : A -> bool) (l : list A) :
  (forall x, In x l -> p x = false) -> List.filter p l = [].
Proof.
  induction l as [|b l IH]; intros H; cbn; [reflexivity|].
  rewrite (H b (or_introl eq_refl)). apply IH.
  intros x Hx. apply H. right. exact Hx.
Qed.

Lemma doCliente_true nome data hora a :
  doCliente nome data hora a = true <->
  ag_nome a = nome /\ ag_data a = data /\ ag_hora a = hora.
Proof.
  unfold doCliente. rewrite !andb_true_iff, !String.eqb_eq.
  split; [intros [[H1 H2] H3]|intros (H1 & H2 & H3)]; auto.
Qed.

Lemma noHorario_true data hora a :
  noHorario data hora a = true <-> ag_data a = data /\ ag_hora a = hora.
Proof. unfold noHorario. rewrite andb_true_iff, !String.eqb_eq. reflexivity. Qed.

(** ** The [estados] map *)

Lemma etapaDe_listarHorarios agora sender w :
  etapaDe sender (estados (snd (listarHorarios agora sender w))) = Some EData.
Proof.
  unfold listarHorarios, etapaDe, getEstado. cbn.
  rewrite lookup_alter_eq.
  destruct (estados w !! sender) as [s|] eqn:E.
  - rewrite E. reflexivity.
  - rewrite lookup_insert_eq. reflexivity.
Qed.

(** ** Sender validation *)

(** C10. A message whose sender identifier does not end with [@c.us] gets
    no reply ([null]) and leaves the whole world as it was: no entry of
    [estados] or [conversasChocolate] is created or changed, the store is
    not touched and nothing is sent. *)
Theorem processarMensagem_remetente_invalido agora mensagem sender w :
  endsWith sender "@c.us" = false ->
  processarMensagem agora mensagem sender w = (None, w).
Proof.
  intros H. unfold processarMensagem. rewrite H. reflexivity.
Qed.

(** ** Cancellation *)

(** C5. Without a row whose name, date and time all equal the arguments
    (string equality, hence case-sensitive), [cancelarServico] answers
    "not found" and changes nothing.  With such a row, the first one is
    deleted (MongoDB variant; the SQLite statement deletes the later
    matching rows as well), a cancellation with the reason
    "Cancelado pelo usuário" is appended, the administrator is sent a
    notice, and the success text followed by the menu is returned. *)
Theorem cancelarServico_correto agora nome data hora w :
  ((forall a, In a (agendamentos (bd w)) ->
              ~ (ag_nome a = nome /\ ag_data a = data /\ ag_hora a = hora)) ->
   cancelarServico agora nome data hora w
   = (Some (msgNaoEncontrado ++ nl ++ nl ++ mostrarMenu), w))
  /\
  (forall a, In a (agendamentos (bd w)) ->
             ag_nome a = nome -> ag_data a = data -> ag_hora a = hora ->
   exists l1 a1 l2,
     agendamentos (bd w) = (l1 ++ a1 :: l2)%list /\
     (ag_nome a1 = nome /\ ag_data a1 = data /\ ag_hora a1 = hora) /\
     (forall x, In x l1 -> ~ (ag_nome x = nome /\ ag_data x = data /\ ag_hora x = hora)) /\
     cancelarServico agora nome data hora w
     = (Some (msgCancelado ++ nl ++ nl ++ mostrarMenu),
        mkMundo
          (mkBD (l1 ++ match versao with
                       | MongoDB => l2
                       | SQLite =>
                           List.filter (fun x => negb (doCliente nome data hora x)) l2
                       end)
                (feedbacks (bd w))
                (cancelamentos (bd w)
                 ++ [mkCancelamento nome data hora "Cancelado pelo usuário"
                                    (toISOString agora)]))
          (estados w) (conversasChocolate w) (ultimoAgendamento w)
          (enviadas w
           ++ [(ADMIN_PHONE,
                Texto ("Cancelamento: " ++ nome ++ ", " ++ data ++ ", " ++ hora))]))).
Proof.
  split.
  - intros H. unfold cancelarServico. rewrite find_nenhum; [reflexivity|].
    intros x Hx. destruct (doCliente nome data hora x) eqn:E; [|reflexivity].
    exfalso. apply (H x Hx). apply doCliente_true. exact E.
  - intros a Hin Hn Hd Hh.
    destruct (find_existe (doCliente nome data hora) _ a Hin) as [a1 Hf].
    { apply doCliente_true. auto. }
    destruct (find_primeiro _ _ _ Hf) as (l1 & l2 & Hl & Ha1 & Hl1).
    exists l1, a1, l2. split; [exact Hl|]. split; [apply doCliente_true, Ha1|].
    split.
    { intros x Hx Hm. apply doCliente_true in Hm. rewrite (Hl1 x Hx) in Hm. discriminate. }
    unfold cancelarServico. rewrite Hf. unfold notificarAdmin, sendMessage, apagar. cbn.
    rewrite Hl. do 3 f_equal. f_equal.
    destruct versao.
    + rewrite List.filter_app. cbn. rewrite Ha1. cbn.
      rewrite filter_nenhum_sai by exact Hl1. reflexivity.
    + apply removerPrimeiro_split; assumption.
Qed.

(** ** Texts *)

Lemma length_append s1 s2 :
  String.length (s1 ++ s2) = (String.length s1 + String.length s2)%nat.
Proof.
  induction s1 as [|c s1 IH]; [reflexivity|].
  change (String c s1 ++ s2) with (String c (s1 ++ s2)). cbn [String.length].
  rewrite IH. reflexivity.
Qed.

Lemma substring_tudo s : String.substring 0 (String.length s) s = s.
Proof. induction s as [|c s IH]; cbn; [reflexivity|]. rewrite IH. reflexivity. Qed.

Lemma endsWith_append e s : endsWith (e ++ s) s = true.
Proof.
  unfold endsWith. rewrite length_append.
  replace (String.length e + String.length s - String.length s)%nat
    with (String.length e) by lia.
  apply andb_true_iff. split; [apply Nat.leb_le; lia|].
  apply String.eqb_eq.
  induction e as [|c e IH]; [apply substring_tudo|].
  change (String c e ++ s) with (String c (e ++ s)). cbn [String.length String.substring].
  exact IH.
Qed.

(** ** Booking *)


Lemma agendarServico_passa agora nome data hora sender w :
  verificarHorario agora data hora = None ->
  (List.length (List.filter (doSender sender) (agendamentos (bd w))) < 3)%nat ->
  (forall a, In a (agendamentos (bd w)) -> ~ (ag_data a = data /\ ag_hora a = hora)) ->
  let r := agendarServico agora nome data hora sender w in
  fst r = None /\
  bd (snd r)
  = com_agendamentos (bd w)
      (agendamentos (bd w) ++ [mkAgendamento nome data hora sender (toISOString agora)]) /\
  ultimoAgendamento (snd r) = Some (sender, agora) /\
  estados (snd r) = estados w /\
  exists lista,
    enviadas (snd r)
    = (enviadas w
       ++ [(ADMIN_PHONE, Texto ("Novo agendamento: " ++ nome ++ ", " ++ data ++ ", " ++ hora));
           (sender, lista);
           (sender, Texto (msgConfirmado nome data hora))])%list.
Proof.
  intros Hv Hc Hl r. subst r. unfold agendarServico. rewrite Hv.
  destruct (Nat.leb_spec 3 (List.length (List.filter (doSender sender) (agendamentos (bd w)))))
    as [Hge|_]; [lia|].
  rewrite find_nenhum.
  2:{ intros x Hx. destruct (noHorario data hora x) eqn:E; [|reflexivity].
      exfalso. apply (Hl x Hx). apply noHorario_true. exact E. }
  cbn. repeat split.
  eexists. rewrite <- !app_assoc. cbn. reflexivity.
Qed.

Lemma agendarServico_conflito agora nome data hora sender w a :
  verificarHorario agora data hora = None ->
  (List.length (List.filter (doSender sender) (agendamentos (bd w))) < 3)%nat ->
  In a (agendamentos (bd w)) -> ag_data a = data -> ag_hora a = hora ->
  let r := agendarServico agora nome data hora sender w in
  fst r = Some (msgConflito ++ nl ++ nl ++ promptData) /\
  bd (snd r) = bd w /\
  enviadas (snd r) = enviadas w /\
  ultimoAgendamento (snd r) = ultimoAgendamento w /\
  etapaDe sender (estados (snd r)) = Some EData.
Proof.
  intros Hv Hc Hin Hd Hh r. subst r. unfold agendarServico. rewrite Hv.
  destruct (Nat.leb_spec 3 (List.length (List.filter (doSender sender) (agendamentos (bd w)))))
    as [Hge|_]; [lia|].
  destruct (find_existe (noHorario data hora) _ a Hin) as [a1 Hf].
  { apply noHorario_true. auto. }
  rewrite Hf. cbn. repeat split.
  apply (etapaDe_listarHorarios agora sender w).
Qed.

(** The limit reply is given exactly when the three time checks pass and
    the sender owns three or more rows, of whatever date. *)
Lemma agendarServico_limite_sse agora nome data hora sender w :
  fst (agendarServico agora nome data hora sender w)
  = Some (msgLimite ++ nl ++ nl ++ mostrarMenu)
  <-> verificarHorario agora data hora = None /\
      (3 <= List.length (List.filter (doSender sender) (agendamentos (bd w))))%nat.
Proof.
  unfold agendarServico.
  destruct (verificarHorario agora data hora) as [e|] eqn:Hv.
  - cbn. split; [|intros [? _]; discriminate].
    textos_diferentes.
  - destruct (Nat.leb_spec 3 (List.length (List.filter (doSender sender) (agendamentos (bd w)))))
      as [Hge|Hlt].
    + cbn. split; [intros _; split; [reflexivity|exact Hge]|reflexivity].
    + split; [|lia].
      destruct (List.find (noHorario data hora) (agendamentos (bd w))); cbn.
      * textos_diferentes.
      * discriminate.
Qed.

(** C3. [agendarServico] answers with the limit text as soon as the time
    checks pass and the requester owns three rows in the table, whatever
    their dates: rows dated in the past count like the others.  Nothing is
    persisted or sent and the reply ends with the menu.  The time checks
    pass when no statement before the count throws; in the SQLite
    variant that includes the log line, which throws on a date and time
    that do not parse. *)
Theorem agendarServico_limite_conta_todos agora nome data hora sender w :
  verificarHorario agora data hora = None ->
  (3 <= List.length (List.filter (doSender sender) (agendamentos (bd w))))%nat ->
  agendarServico agora nome data hora sender w
  = (Some (msgLimite ++ nl ++ nl ++ mostrarMenu), w).
Proof.
  intros Hv Hc. unfold agendarServico. rewrite Hv.
  destruct (Nat.leb_spec 3 (List.length (List.filter (doSender sender) (agendamentos (bd w)))))
    as [_|Hlt]; [reflexivity|lia].
Qed.

(** C1, as the program has it.  Take a table in which the slot is free,
    two different requesters who each own fewer than three rows, and two
    requests for the slot that pass the time checks (no statement before
    the count throws, which in the SQLite variant includes the log line
    that needs a date and time that parse), handled one after the other.  The first is persisted and gets no reply text (its
    confirmation was sent); the second gets the conflict text with the
    date prompt and its step becomes "data"; the table has gained the
    first row only, and it is the only row of that slot. *)
Theorem agendarServico_dois_pedidos agora1 agora2 nome1 nome2 data hora s1 s2 w :
  s1 <> s2 ->
  verificarHorario agora1 data hora = None ->
  verificarHorario agora2 data hora = None ->
  (List.length (List.filter (doSender s1) (agendamentos (bd w))) < 3)%nat ->
  (List.length (List.filter (doSender s2) (agendamentos (bd w))) < 3)%nat ->
  (forall a, In a (agendamentos (bd w)) -> ~ (ag_data a = data /\ ag_hora a = hora)) ->
  let r1 := agendarServico agora1 nome1 data hora s1 w in
  let r2 := agendarServico agora2 nome2 data hora s2 (snd r1) in
  fst r1 = None /\
  fst r2 = Some (msgConflito ++ nl ++ nl ++ promptData) /\
  etapaDe s2 (estados (snd r2)) = Some EData /\
  agendamentos (bd (snd r2))
  = (agendamentos (bd w)
     ++ [mkAgendamento nome1 data hora s1 (toISOString agora1)])%list /\
  List.filter (noHorario data hora) (agendamentos (bd (snd r2)))
  = [mkAgendamento nome1 data hora s1 (toISOString agora1)].
Proof.
  intros Hne Hv1 Hv2 Hc1 Hc2 Hlivre r1 r2.
  destruct (agendarServico_passa agora1 nome1 data hora s1 w Hv1 Hc1 Hlivre)
    as (Hr1 & Hbd1 & _ & _ & _).
  fold r1 in Hr1, Hbd1.
  set (a1 := mkAgendamento nome1 data hora s1 (toISOString agora1)) in *.
  assert (Hags1 : agendamentos (bd (snd r1)) = (agendamentos (bd w) ++ [a1])%list).
  { rewrite Hbd1. reflexivity. }
  assert (Hc2' : (List.length (List.filter (doSender s2) (agendamentos (bd (snd r1)))) < 3)%nat).
  { rewrite Hags1, List.filter_app, List.length_app.
    change (List.filter (doSender s2) [a1]) with (if String.eqb s1 s2 then [a1] else []).
    destruct (String.eqb_spec s1 s2) as [E|_]; [contradiction|]. cbn. lia. }
  destruct (agendarServico_conflito agora2 nome2 data hora s2 (snd r1) a1 Hv2 Hc2')
    as (Hr2 & Hbd2 & _ & _ & Het); try reflexivity.
  { rewrite Hags1. apply List.in_or_app. right. left. reflexivity. }
  fold r2 in Hr2, Hbd2, Het.
  repeat split; try assumption.
  - rewrite Hbd2. exact Hags1.
  - rewrite Hbd2, Hags1, List.filter_app.
    change (List.filter (noHorario data hora) [a1])
      with (if String.eqb data data && String.eqb hora hora then [a1] else []).
    rewrite !String.eqb_refl. cbn [andb].
    rewrite filter_nenhum; [reflexivity|].
    intros x Hx. destruct (noHorario data hora x) eqn:E; [|reflexivity].
    exfalso. apply (Hlivre x Hx). apply noHorario_true, E.
Qed.

(** ** The [ultimoAgendamento] marker *)

Lemma agendarServico_sucesso_marca agora nome data hora sender w :
  fst (agendarServico agora nome data hora sender w) = None ->
  ultimoAgendamento (snd (agendarServico agora nome data hora sender w))
  = Some (sender, agora).
Proof.
  unfold agendarServico.
  destruct (verificarHorario agora data hora); [discriminate|].
  destruct (3 <=? _)%nat; [discriminate|].
  destruct (List.find _ _); [discriminate|]. reflexivity.
Qed.

(** C6. A booking that succeeds (reply [null]) leaves the marker
    [(sender, agora)].  While the marker names [sender] and less than
    60000 ms have passed, a message of [sender] is answered with the bare
    menu whatever it says, the marker is cleared, and only the contact time
    of [sender] changes; with the marker cleared the next message goes
    through the normal routing [rotear]; and a marker that names somebody
    else does not keep a message of [sender] from the normal routing. *)
Theorem marcador_ultimoAgendamento agora mensagem sender w :
  endsWith sender "@c.us" = true ->
  (forall nome data hora w0,
      fst (agendarServico agora nome data hora sender w0) = None ->
      ultimoAgendamento (snd (agendarServico agora nome data hora sender w0))
      = Some (sender, agora))
  /\
  (forall timestamp,
      ultimoAgendamento w = Some (sender, timestamp) ->
      agora - timestamp < 60000 ->
      processarMensagem agora mensagem sender w
      = (Some mostrarMenu,
         com_ultimoAgendamento (registrarContato agora sender w) None))
  /\
  (ultimoAgendamento w = None ->
   processarMensagem agora mensagem sender w
   = rotear agora mensagem sender (registrarContato agora sender w))
  /\
  (forall outro timestamp,
      ultimoAgendamento w = Some (outro, timestamp) ->
      outro <> sender ->
      processarMensagem agora mensagem sender w
      = rotear agora mensagem sender (registrarContato agora sender w)).
Proof.
  intros Hs. repeat split.
  - intros nome data hora w0. apply agendarServico_sucesso_marca.
  - intros timestamp Hm Hlt. unfold processarMensagem. rewrite Hs. cbn.
    unfold acabouDeAgendar, registrarContato. cbn. rewrite Hm, String.eqb_refl.
    destruct (Z.ltb_spec (agora - timestamp) 60000); [reflexivity|lia].
  - intros Hm. unfold processarMensagem. rewrite Hs. cbn.
    unfold acabouDeAgendar, registrarContato. cbn. rewrite Hm. reflexivity.
  - intros outro timestamp Hm Hne. unfold processarMensagem. rewrite Hs. cbn.
    unfold acabouDeAgendar, registrarContato. cbn. rewrite Hm.
    destruct (String.eqb_spec outro sender) as [E|_]; [contradiction|]. reflexivity.
Qed.

(** ** Feedback *)

(** C9. [coletarFeedback] accepts every number between 1 and 5, whole or
    not: the integer test is made on [parseInt(avaliacao)], which has
    already dropped the fraction.  The record is persisted with the
    number as given and the thanks are returned. *)
Theorem coletarFeedback_aceita_entre_1_e_5 agora nome comentario (q : Q) w :
  (1 <= q)%Q -> (q <= 5)%Q ->
  coletarFeedback agora nome comentario (Num q) w
  = (Some (msgValeu ++ nl ++ nl ++ mostrarMenu),
     com_bd w (mkBD (agendamentos (bd w))
                    (feedbacks (bd w)
                     ++ [mkFeedback nome comentario (Num q) (toISOString agora)])
                    (cancelamentos (bd w)))).
Proof.
  intros H1 H5. unfold coletarFeedback. cbn.
  assert (E1 : Qle_bool (inject_Z 1) q = true) by (apply Qle_bool_iff; exact H1).
  assert (E5 : Qle_bool q (inject_Z 5) = true) by (apply Qle_bool_iff; exact H5).
  rewrite E1, E5. reflexivity.
Qed.

(** What [coletarFeedback] rejects: NaN and the numbers below 1 or above 5. *)
Lemma coletarFeedback_rejeita agora nome comentario avaliacao w :
  coletarFeedback agora nome comentario avaliacao w
  = (Some (msgAvaliacaoInvalida ++ nl ++ nl ++ mostrarMenu), w)
  <-> match avaliacao with
      | NaN => True
      | Num q => (q < 1)%Q \/ (5 < q)%Q
      end.
Proof.
  unfold coletarFeedback. destruct avaliacao as [|q]; cbn; [split; [constructor|reflexivity]|].
  destruct (Qle_bool (inject_Z 1) q) eqn:E1; cbn.
  - destruct (Qle_bool q (inject_Z 5)) eqn:E5; cbn.
    + apply Qle_bool_iff in E1, E5. split.
      * textos_diferentes.
      * intros [H|H]; exfalso.
        -- apply (Qlt_not_le _ _ H). exact E1.
        -- apply (Qlt_not_le _ _ H). exact E5.
    + split; [|reflexivity]. intros _. right.
      apply Qnot_le_lt. intros H. apply Qle_bool_iff in H.
      change (inject_Z 5) with 5%Q in E5. congruence.
  - split; [|reflexivity]. intros _. left.
    apply Qnot_le_lt. intros H. apply Qle_bool_iff in H.
    change (inject_Z 1) with 1%Q in E1. congruence.
Qed.

(** A booking never gives a slot a second row: whatever the request and
    the table, a slot that held at most one row still does afterwards. *)
Lemma agendarServico_preserva_unicidade agora nome data hora sender w data' hora' :
  (List.length (List.filter (noHorario data' hora') (agendamentos (bd w))) <= 1)%nat ->
  (List.length
     (List.filter (noHorario data' hora')
        (agendamentos (bd (snd (agendarServico agora nome data hora sender w))))) <= 1)%nat.
Proof.
  intros Hu. unfold agendarServico.
  destruct (verificarHorario agora data hora); [exact Hu|].
  destruct (3 <=? _)%nat; [exact Hu|].
  destruct (List.find (noHorario data hora) (agendamentos (bd w))) eqn:Hf; [exact Hu|].
  cbn. rewrite List.filter_app, List.length_app.
  change (List.filter (noHorario data' hora')
            [mkAgendamento nome data hora sender (toISOString agora)])
    with (if String.eqb data data' && String.eqb hora hora'
          then [mkAgendamento nome data hora sender (toISOString agora)] else []).
  destruct (String.eqb_spec data data') as [<-|_]; [|cbn; lia].
  destruct (String.eqb_spec hora hora') as [<-|_]; [|cbn; lia].
  rewrite filter_nenhum; [cbn; lia|].
  intros x Hx. apply (List.find_none _ _ Hf x Hx).
Qed.

(** ** Availability listing *)

Lemma horariosLoop_map n sender rows c f :
  horariosLoop n sender rows c f
  = List.map (linhaHorario sender rows) (horasLoop n c f).
Proof.
  revert c. induction n as [|n IH]; intros c; cbn; [reflexivity|].
  destruct (c <? f); [|reflexivity]. cbn. f_equal. apply IH.
Qed.

Lemma listarAgendamentosDia_linhas agora sender data b :
  listarAgendamentosDia agora sender data b
  = join nl (List.map (linhaHorario sender
                         (List.filter (doDia (ouHoje agora data)) (agendamentos b)))
                      (horasDoDia agora data))
    ++ nl ++ nl ++ mostrarMenu.
Proof.
  unfold listarAgendamentosDia, horasDoDia, horarios.
  destruct (expediente _) as [horaInicio horaFim].
  destruct (Date_parse _) as [c|]; [|reflexivity].
  destruct (Date_parse _) as [f|]; [|reflexivity].
  rewrite horariosLoop_map. reflexivity.
Qed.

Lemma linhaHorario_publica sender rows horaStr :
  sender <> ADMIN_PHONE ->
  linhaHorario sender rows horaStr
  = linhaPublica (List.existsb (mesmaHora horaStr) rows) horaStr.
Proof.
  intros Hne. unfold linhaHorario, linhaPublica.
  destruct (String.eqb_spec sender ADMIN_PHONE) as [E|_]; [contradiction|].
  induction rows as [|a rows IH]; cbn; [reflexivity|].
  destruct (mesmaHora horaStr a); cbn; [reflexivity|exact IH].
Qed.

Lemma linhaHorario_admin rows horaStr :
  linhaHorario ADMIN_PHONE rows horaStr
  = linhaAdmin (option_map ag_nome (List.find (mesmaHora horaStr) rows)) horaStr.
Proof.
  unfold linhaHorario, linhaAdmin. rewrite String.eqb_refl.
  destruct (List.find (mesmaHora horaStr) rows); reflexivity.
Qed.

Lemma mesmosHorarios_ocupado dia horaStr l1 l2 :
  mesmosHorarios l1 l2 ->
  List.existsb (mesmaHora horaStr) (List.filter (doDia dia) l1)
  = List.existsb (mesmaHora horaStr) (List.filter (doDia dia) l2).
Proof.
  induction 1 as [|a b l1 l2 [Hd Hh] _ IH]; [reflexivity|].
  cbn [List.filter].
  assert (Ed : doDia dia a = doDia dia b) by (unfold doDia; rewrite Hd; reflexivity).
  assert (Eh : mesmaHora horaStr a = mesmaHora horaStr b)
    by (unfold mesmaHora; rewrite Hh; reflexivity).
  rewrite Ed. destruct (doDia dia b); [|exact IH].
  cbn [List.existsb]. rewrite Eh, IH. reflexivity.
Qed.

(** C7. For a caller other than the administrator the listing is a
    function of the booked slots alone: every line is the time followed by
    one of two fixed texts, and two tables that agree on the date and time
    of every row, whatever the names, give the same listing.  For the
    administrator every booked slot carries the name of its occupant (the
    first row of that time). *)
Theorem listarAgendamentosDia_oculta_nomes agora sender data b1 b2 :
  (sender <> ADMIN_PHONE ->
   listarAgendamentosDia agora sender data b1
   = join nl (List.map
                (fun h => linhaPublica
                            (List.existsb (mesmaHora h)
                               (List.filter (doDia (ouHoje agora data)) (agendamentos b1)))
                            h)
                (horasDoDia agora data))
     ++ nl ++ nl ++ mostrarMenu)
  /\
  (sender <> ADMIN_PHONE ->
   mesmosHorarios (agendamentos b1) (agendamentos b2) ->
   listarAgendamentosDia agora sender data b1
   = listarAgendamentosDia agora sender data b2)
  /\
  listarAgendamentosDia agora ADMIN_PHONE data b1
  = join nl (List.map
               (fun h => linhaAdmin
                           (option_map ag_nome
                              (List.find (mesmaHora h)
                                 (List.filter (doDia (ouHoje agora data)) (agendamentos b1))))
                           h)
               (horasDoDia agora data))
    ++ nl ++ nl ++ mostrarMenu.
Proof.
  assert (Hpub : forall b, sender <> ADMIN_PHONE ->
            listarAgendamentosDia agora sender data b
            = join nl (List.map
                (fun h => linhaPublica
                            (List.existsb (mesmaHora h)
                               (List.filter (doDia (ouHoje agora data)) (agendamentos b)))
                            h)
                (horasDoDia agora data))
              ++ nl ++ nl ++ mostrarMenu).
  { intros b Hne. rewrite listarAgendamentosDia_linhas. do 2 f_equal.
    apply List.map_ext. intros h. apply linhaHorario_publica, Hne. }
  split; [apply Hpub|]. split.
  - intros Hne Hm. rewrite !Hpub by exact Hne. do 2 f_equal.
    apply List.map_ext. intros h. f_equal. apply mesmosHorarios_ocupado, Hm.
  - rewrite listarAgendamentosDia_linhas. do 2 f_equal.
    apply List.map_ext. intros h. apply linhaHorario_admin.
Qed.

(** ** The loop of the listing ends by its own test *)

Lemma voltas_passo c f :
  c < f -> voltas c f = S (voltas (c + 30 * msPerMinute) f).
Proof.
  sem_variaveis.
  intros H. unfold voltas, msPerMinute.
  rewrite <- Z2Nat.inj_succ by (apply Z.div_pos; lia).
  f_equal. Z.div_mod_to_equations; lia.
Qed.

Lemma voltas_fim c f : f <= c -> voltas c f = O.
Proof.
  sem_variaveis.
  intros H. unfold voltas, msPerMinute.
  assert ((f - c + 30 * 60000 - 1) / (30 * 60000) <= 0) by (Z.div_mod_to_equations; lia).
  lia.
Qed.

(** Any bound from [voltas c f] on gives the same list: the loop stops
    because [currentTime < fimTime] fails, not because the bound is hit. *)
Lemma horasLoop_voltas n c f :
  (voltas c f <= n)%nat -> horasLoop n c f = horasLoop (voltas c f) c f.
Proof.
  revert c. induction n as [|n IH]; intros c Hn.
  - replace (voltas c f) with O by lia. reflexivity.
  - cbn. destruct (Z.ltb_spec c f) as [Hlt|Hge].
    + rewrite (voltas_passo c f Hlt) in *. cbn.
      destruct (Z.ltb_spec c f); [|lia]. f_equal. apply IH. lia.
    + rewrite (voltas_fim c f Hge). reflexivity.
Qed.

Lemma horariosLoop_voltas n sender rows c f :
  (voltas c f <= n)%nat ->
  horariosLoop n sender rows c f = horariosLoop (voltas c f) sender rows c f.
Proof.
  intros H. rewrite !horariosLoop_map, (horasLoop_voltas n c f H). reflexivity.
Qed.

(** ** Characters and numerals *)

Lemma ehDigito_casos c :
  ehDigito c = true ->
  exists n, 0 <= n <= 9 /\ c = digito n.
Proof.
  intros H. exists (valorDigito c). unfold ehDigito, valorDigito, digito in *.
  apply andb_true_iff in H. destruct H as [H1 H2].
  apply Z.leb_le in H1, H2. split; [lia|].
  replace (48 + (codigo c - 48)) with (codigo c) by lia.
  unfold codigo. rewrite N2Z.id. symmetry. apply ascii_N_embedding.
Qed.

Lemma codigo_digito n : 0 <= n <= 9 -> codigo (digito n) = 48 + n.
Proof.
  intros H. unfold codigo, digito.
  rewrite N_ascii_embedding by lia. lia.
Qed.

Lemma ehDigito_digito n : 0 <= n <= 9 -> ehDigito (digito n) = true.
Proof.
  intros H. unfold ehDigito. rewrite codigo_digito by exact H.
  apply andb_true_iff. split; apply Z.leb_le; lia.
Qed.

Lemma trimStartL_digito c r :
  ehDigito c = true -> trimStartL (c :: r) = c :: r.
Proof.
  intros H. unfold ehDigito in H. apply andb_true_iff in H. destruct H as [H1 H2].
  apply Z.leb_le in H1, H2.
  assert (E1 : ehEspacoASCII c = false).
  { unfold ehEspacoASCII. apply orb_false_iff. split.
    - apply andb_false_iff. right. apply Z.leb_gt. lia.
    - apply Z.eqb_neq. lia. }
  assert (E2 : forall c2, ehEspaco2 c c2 = false).
  { intros c2. unfold ehEspaco2. apply andb_false_iff. left. apply Z.eqb_neq. lia. }
  assert (E3 : forall c2 c3, ehEspaco3 c c2 c3 = false).
  { intros c2 c3. unfold ehEspaco3.
    assert (N1 : (codigo c =? 225) = false) by (apply Z.eqb_neq; lia).
    assert (N2 : (codigo c =? 226) = false) by (apply Z.eqb_neq; lia).
    assert (N3 : (codigo c =? 227) = false) by (apply Z.eqb_neq; lia).
    assert (N4 : (codigo c =? 239) = false) by (apply Z.eqb_neq; lia).
    rewrite N1, N2, N3, N4. reflexivity. }
  cbn [trimStartL]. rewrite E1.
  destruct r as [|c2 [|c3 r3]]; [reflexivity| |].
  - rewrite E2. reflexivity.
  - rewrite E2, E3. reflexivity.
Qed.

Lemma lerDigitos_digitos l :
  Forall (fun c => ehDigito c = true) l ->
  forall a, 0 <= a ->
  exists v, lerDigitos valorDec 10 (Some a) l = Some v /\
            a * 10 ^ Z.of_nat (List.length l) <= v
            < (a + 1) * 10 ^ Z.of_nat (List.length l).
Proof.
  induction 1 as [|c l Hc _ IH]; intros a Ha.
  - exists a. cbn. split; [reflexivity|lia].
  - cbn [lerDigitos]. unfold valorDec. rewrite Hc. cbn [default].
    assert (Hv : 0 <= valorDigito c <= 9).
    { unfold ehDigito, valorDigito in *. apply andb_true_iff in Hc.
      destruct Hc as [H1 H2]. apply Z.leb_le in H1, H2. lia. }
    destruct (IH (10 * a + valorDigito c) ltac:(lia)) as (v & Ev & Hb).
    exists v. split; [exact Ev|].
    cbn [List.length]. rewrite Nat2Z.inj_succ, Z.pow_succ_r by lia.
    set (p := 10 ^ Z.of_nat (List.length l)) in *.
    assert (0 < p) by (apply Z.pow_pos_nonneg; lia).
    nia.
Qed.

(** [parseInt] of a non-empty string of digits is its decimal value. *)
Lemma parseInt_digitos l :
  l <> [] -> Forall (fun c => ehDigito c = true) l ->
  exists v, parseInt (string_of_list_ascii l) = Some v /\
            0 <= v < 10 ^ Z.of_nat (List.length l).
Proof.
  intros Hne Hl. destruct l as [|c r]; [contradiction|].
  pose proof (Forall_inv Hl) as Hc. pose proof (Forall_inv_tail Hl) as Hr.
  unfold parseInt. rewrite list_ascii_of_string_of_list_ascii.
  rewrite (trimStartL_digito c r Hc).
  assert (Hk : 48 <= codigo c <= 57).
  { unfold ehDigito in Hc. apply andb_true_iff in Hc. destruct Hc as [H1 H2].
    apply Z.leb_le in H1, H2. lia. }
  destruct (Z.eqb_spec (codigo c) 45) as [E|_]; [lia|].
  destruct (Z.eqb_spec (codigo c) 43) as [E|_]; [lia|].
  assert (Ev : exists v, lerDigitos valorDec 10 None (c :: r) = Some v /\
                         0 <= v < 10 ^ Z.of_nat (List.length (c :: r))).
  { cbn [lerDigitos]. unfold valorDec at 1. rewrite Hc. cbn [default].
    assert (Hd : 0 <= valorDigito c <= 9) by (unfold valorDigito; lia).
    destruct (lerDigitos_digitos r Hr (10 * 0 + valorDigito c) ltac:(lia))
      as (v & E & Hb).
    exists v. split; [exact E|].
    cbn [List.length]. rewrite Nat2Z.inj_succ, Z.pow_succ_r by lia.
    set (p := 10 ^ Z.of_nat (List.length r)) in *.
    assert (0 < p) by (apply Z.pow_pos_nonneg; lia).
    nia. }
  destruct Ev as (v & E & Hb).
  exists v. split; [|exact Hb].
  destruct r as [|cx r'].
  - rewrite E. reflexivity.
  - pose proof (Forall_inv Hr) as Hcx.
    unfold ehDigito in Hcx. apply andb_true_iff in Hcx. destruct Hcx as [H1 H2].
    apply Z.leb_le in H1, H2.
    destruct (Z.eqb_spec (codigo cx) 120) as [E1|_]; [lia|].
    destruct (Z.eqb_spec (codigo cx) 88) as [E1|_]; [lia|].
    rewrite andb_false_r. rewrite E. reflexivity.
Qed.

(** ** Calendar arithmetic *)

Lemma DayFromYear_step y :
  DayFromYear (y + 1) = DayFromYear y + DaysInYear y.
Proof.
  sem_variaveis.
  unfold DayFromYear, DaysInYear, InLeapYear.
  destruct (y mod 4 =? 0) eqn:E4; destruct (y mod 100 =? 0) eqn:E100;
    destruct (y mod 400 =? 0) eqn:E400; cbn [andb orb negb];
    rewrite ?Z.eqb_eq, ?Z.eqb_neq in *; Z.div_mod_to_equations; lia.
Qed.

(** [YearFromDay] is the year of ECMA-262's YearFromTime. *)
Lemma YearFromDay_spec d :
  DayFromYear (YearFromDay d) <= d < DayFromYear (YearFromDay d + 1).
Proof.
  sem_variaveis.
  unfold YearFromDay.
  set (y := 400 * (d + 719528) / 146097).
  destruct (Z.leb_spec (DayFromYear (y + 1)) d) as [H1|H1].
  - split; [lia|]. subst y. unfold DayFromYear in *. Z.div_mod_to_equations; lia.
  - destruct (Z.ltb_spec d (DayFromYear y)) as [H2|H2].
    + replace (y - 1 + 1) with y by lia. split; [|lia].
      subst y. unfold DayFromYear in *. Z.div_mod_to_equations; lia.
    + lia.
Qed.

Lemma DayFromYear_mono y1 y2 : y1 <= y2 -> DayFromYear y1 <= DayFromYear y2.
Proof. sem_variaveis. intros H. unfold DayFromYear. Z.div_mod_to_equations; lia. Qed.

Lemma YearFromDay_mono d1 d2 : d1 <= d2 -> YearFromDay d1 <= YearFromDay d2.
Proof.
  intros H. pose proof (YearFromDay_spec d1). pose proof (YearFromDay_spec d2).
  destruct (Z.le_gt_cases (YearFromDay d1) (YearFromDay d2)) as [L|G]; [exact L|].
  pose proof (DayFromYear_mono (YearFromDay d2 + 1) (YearFromDay d1) ltac:(lia)). lia.
Qed.

Lemma DayWithinYear_range d :
  0 <= DayWithinYear d < DaysInYear (YearFromDay d).
Proof.
  unfold DayWithinYear. pose proof (YearFromDay_spec d) as S.
  rewrite DayFromYear_step in S. lia.
Qed.


Lemma monthOf_bounds (leap : bool) (w : Z) :
  0 <= w < (if leap then 366 else 365) ->
  0 <= monthOf leap w <= 11 /\
  monthStart leap (monthOf leap w) <= w < monthStart leap (monthOf leap w + 1).
Proof.
  intros W. unfold monthOf.
  destruct leap; cbn in *; casos_do_mes;
  match goal with
  | |- context [monthStart ?l (?a + ?b)] =>
      let v := eval vm_compute in (monthStart l (a + b)) in
      change (monthStart l (a + b)) with v
  end; lia.
Qed.

Lemma monthStart_range (leap : bool) (m : Z) : 0 <= monthStart leap m <= 366.
Proof.
  unfold monthStart.
  destruct leap;
  repeat match goal with
         | |- context [if ?a =? ?b then _ else _] => destruct (a =? b)
         end; lia.
Qed.

Lemma MonthFromDay_range d : 0 <= MonthFromDay d <= 11.
Proof.
  unfold MonthFromDay. apply monthOf_bounds.
  pose proof (DayWithinYear_range d) as W. unfold DaysInYear in W. exact W.
Qed.

Lemma DateFromDay_range d : 1 <= DateFromDay d <= 31.
Proof.
  pose proof (DayWithinYear_range d) as W.
  unfold DateFromDay, MonthFromDay, DaysInYear in *.
  generalize dependent (DayWithinYear d). generalize (InLeapYear (YearFromDay d)).
  intros leap w W. unfold monthOf.
  destruct leap; cbn in *; casos_do_mes; lia.
Qed.

(** The civil date of a day number gives the day number back. *)
Lemma MakeDay_civil d :
  MakeDay (YearFromDay d) (MonthFromDay d) (DateFromDay d) = d.
Proof.
  pose proof (MonthFromDay_range d) as M.
  unfold MakeDay.
  rewrite (Z.div_small (MonthFromDay d) 12), (Z.mod_small (MonthFromDay d) 12) by lia.
  rewrite Z.add_0_r. unfold DateFromDay, DayWithinYear. lia.
Qed.

(** ** Date validation *)

Lemma Date_ymd_valida y m d :
  - msPerDay <= LocalTZA <= msPerDay ->
  0 <= y < 10000 -> -1 <= m < 99 -> 0 <= d < 100 ->
  exists t, Date_ymd (Some y) (Some m) (Some d) = Some t.
Proof.
  sem_variaveis.
  intros Htz Hy Hm Hd. unfold Date_ymd, TimeClip.
  set (yr := if (0 <=? y) && (y <=? 99) then 1900 + y else y).
  assert (Hyr : 0 <= yr < 10000).
  { subst yr. destruct (Z.leb_spec 0 y); destruct (Z.leb_spec y 99); cbn; lia. }
  clearbody yr.
  match goal with |- context [Z.abs ?x <=? ?k] => destruct (Z.leb_spec (Z.abs x) k) as [_|H] end;
    [eauto|].
  exfalso. revert H. unfold UTC, MakeDate, MakeTime, MakeDay, msPerDay in *.
  pose proof (monthStart_range (InLeapYear (yr + m / 12)) (m mod 12)) as Hs.
  revert Hs. generalize (monthStart (InLeapYear (yr + m / 12)) (m mod 12)). intros s Hs.
  unfold DayFromYear. Z.div_mod_to_equations. lia.
Qed.

Lemma regexData_grupos data dia mes ano :
  regexData data = Some (dia, mes, ano) ->
  exists d1 d2 m1 m2 a1 a2 a3 a4,
    dia = string_of_list_ascii [d1; d2] /\ mes = string_of_list_ascii [m1; m2] /\
    ano = string_of_list_ascii [a1; a2; a3; a4] /\
    Forall (fun c => ehDigito c = true) [d1; d2; m1; m2; a1; a2; a3; a4].
Proof.
  unfold regexData.
  destruct (list_ascii_of_string data)
    as [|d1 [|d2 [|s1 [|m1 [|m2 [|s2 [|a1 [|a2 [|a3 [|a4 [|x r]]]]]]]]]]]; try discriminate.
  destruct (ehDigito d1) eqn:E1; [|discriminate].
  destruct (ehDigito d2) eqn:E2; [|discriminate].
  destruct (codigo s1 =? 47); [|discriminate].
  destruct (ehDigito m1) eqn:E3; [|discriminate].
  destruct (ehDigito m2) eqn:E4; [|discriminate].
  destruct (codigo s2 =? 47); [|discriminate].
  destruct (ehDigito a1) eqn:E5; [|discriminate].
  destruct (ehDigito a2) eqn:E6; [|discriminate].
  destruct (ehDigito a3) eqn:E7; [|discriminate].
  destruct (ehDigito a4) eqn:E8; [|discriminate].
  cbn. intros [= <- <- <-].
  exists d1, d2, m1, m2, a1, a2, a3, a4. repeat split.
  repeat constructor; assumption.
Qed.

(** C2. [validarData] is true for every string of the shape DD/MM/YYYY,
    whether or not it names a day of the calendar: [new Date(ano, mes - 1,
    dia)] carries a day or month out of range over instead of giving an
    invalid date, so the test [!isNaN(date)] never fails. *)
Theorem validarData_so_verifica_formato data :
  - msPerDay <= LocalTZA <= msPerDay ->
  validarData data = match regexData data with Some _ => true | None => false end.
Proof.
  intros Htz. unfold validarData.
  destruct (regexData data) as [[[dia mes] ano]|] eqn:E; [|reflexivity].
  destruct (regexData_grupos _ _ _ _ E)
    as (d1 & d2 & m1 & m2 & a1 & a2 & a3 & a4 & -> & -> & -> & HF).
  repeat match goal with
         | H : Forall _ (_ :: _) |- _ =>
             let Hc := fresh "Hc" in
             pose proof (Forall_inv H) as Hc; apply Forall_inv_tail in H
         end.
  destruct (parseInt_digitos [d1; d2]) as (vd & -> & Hvd);
    [discriminate|repeat constructor; assumption|].
  destruct (parseInt_digitos [m1; m2]) as (vm & -> & Hvm);
    [discriminate|repeat constructor; assumption|].
  destruct (parseInt_digitos [a1; a2; a3; a4]) as (va & -> & Hva);
    [discriminate|repeat constructor; assumption|].
  change (10 ^ Z.of_nat (List.length [d1; d2])) with 100 in Hvd.
  change (10 ^ Z.of_nat (List.length [m1; m2])) with 100 in Hvm.
  change (10 ^ Z.of_nat (List.length [a1; a2; a3; a4])) with 10000 in Hva.
  cbn [option_map].
  assert (Hok : exists t, Date_ymd (Some va) (Some (vm - 1)) (Some vd) = Some t)
    by (apply Date_ymd_valida; lia).
  destruct Hok as [t ->]. reflexivity.
Qed.

(** ** Business hours *)

Lemma lerN_length n acc l v r :
  lerN n acc l = Some (v, r) -> List.length l = (n + List.length r)%nat.
Proof.
  revert acc l. induction n as [|n IH]; intros acc l; cbn.
  - intros [= _ ->]. reflexivity.
  - destruct l as [|c l]; [discriminate|].
    destruct (ehDigito c); [|discriminate].
    intros H. apply IH in H. cbn. lia.
Qed.

Lemma lerSep_length k l r :
  lerSep k l = Some r -> List.length l = S (List.length r).
Proof.
  unfold lerSep. destruct l as [|c l]; [discriminate|].
  destruct (codigo c =? k); [|discriminate]. intros [= ->]. reflexivity.
Qed.

Lemma length_list_ascii_of_string s :
  List.length (list_ascii_of_string s) = String.length s.
Proof. induction s as [|c s IH]; cbn; [reflexivity|]. rewrite IH. reflexivity. Qed.

(** A ten-character string that parses is a date alone, and its time
    value is the UTC midnight of a day. *)
Lemma Date_parse_so_data data t :
  String.length data = 10%nat -> Date_parse data = Some t ->
  t mod msPerDay = 0.
Proof.
  intros Hlen. unfold Date_parse.
  pose proof (length_list_ascii_of_string data) as Hl. rewrite Hlen in Hl.
  destruct (lerN 4 0 (list_ascii_of_string data)) as [[y l1]|] eqn:E1; [|discriminate].
  destruct (lerSep 45 l1) as [l2|] eqn:E2; [|discriminate].
  destruct (lerN 2 0 l2) as [[m l3]|] eqn:E3; [|discriminate].
  destruct (lerSep 45 l3) as [l4|] eqn:E4; [|discriminate].
  destruct (lerN 2 0 l4) as [[d l5]|] eqn:E5; [|discriminate].
  apply lerN_length in E1, E3, E5. apply lerSep_length in E2, E4.
  destruct l5 as [|c l5]; [|cbn in *; lia].
  destruct ((1 <=? m) && (m <=? 12) && (1 <=? d) && (d <=? 31)); [|discriminate].
  unfold TimeClip, MakeDate.
  destruct (Z.abs _ <=? _); [|discriminate].
  intros [= <-]. rewrite Z.add_0_r. apply Z.mod_mul. unfold msPerDay. lia.
Qed.

(** East of Greenwich (and at it) the local weekday of a UTC midnight is
    the weekday of that day. *)
Lemma WeekDay_local t :
  0 <= LocalTZA < msPerDay -> t mod msPerDay = 0 ->
  WeekDay (LocalTime t) = WeekDay t.
Proof.
  sem_variaveis.
  intros Htz Ht. unfold WeekDay, LocalTime, Day. f_equal. f_equal.
  unfold msPerDay in *. Z.div_mod_to_equations. lia.
Qed.

(** Every HH:MM from 00:00 to 23:59 passes [validarHorario], and the
    number the hour check reads from it is HH. *)
Lemma horaTexto_valida h m :
  0 <= h < 24 -> 0 <= m < 60 ->
  validarHorario (horaTexto h m) = true /\ horaNumDe (horaTexto h m) = Some h.
Proof.
  intros Hh Hm.
  assert (T : List.forallb (fun a => List.forallb (horaBoa a) (List.seq 0 60))
                           (List.seq 0 24) = true) by (vm_compute; reflexivity).
  rewrite List.forallb_forall in T.
  specialize (T (Z.to_nat h)). rewrite List.forallb_forall in T.
  specialize (T ltac:(apply List.in_seq; lia) (Z.to_nat m) ltac:(apply List.in_seq; lia)).
  unfold horaBoa in T. rewrite !Z2Nat.id in T by lia.
  apply andb_true_iff in T. destruct T as [T1 T2]. split; [exact T1|].
  destruct (horaNumDe (horaTexto h m)) as [v|]; [|discriminate].
  apply Z.eqb_eq in T2. congruence.
Qed.

(** C4, as the program has it.  On a host at or east of UTC, where the
    weekday the program derives from the date is the date's own, a
    well-formed time whose hour is outside the hours of that weekday
    (Saturday 10 to 16, any other day 9 to 20, the hour alone being
    compared) is refused: nothing is persisted or sent, the reply is the
    out-of-hours error followed by the date prompt, and the requester's
    step becomes "data". *)
Theorem agendarServico_fora_do_expediente agora nome data h m sender w t :
  0 <= LocalTZA < msPerDay ->
  String.length data = 10%nat -> Date_parse data = Some t ->
  0 <= h < 24 -> 0 <= m < 60 ->
  (h < fst (expediente (Some (WeekDay t))) \/ snd (expediente (Some (WeekDay t))) <= h) ->
  agendarServico agora nome data (horaTexto h m) sender w
  = (Some ("Erro: "
           ++ msgForaDoExpediente (fst (expediente (Some (WeekDay t))))
                                  (snd (expediente (Some (WeekDay t))))
           ++ ". Tente novamente." ++ nl ++ nl ++ promptData),
     com_estados w
       (alter (com_etapa (Some EData)) sender (getEstado agora sender (estados w))))
  /\ etapaDe sender
       (alter (com_etapa (Some EData)) sender (getEstado agora sender (estados w)))
     = Some EData.
Proof.
  intros Htz Hlen Hp Hh Hm Hfora.
  destruct (horaTexto_valida h m Hh Hm) as [Hv Hn].
  split; [|apply (etapaDe_listarHorarios agora sender w)].
  unfold agendarServico, verificarHorario. rewrite Hv, Hn, Hp. cbn [negb getDay option_map].
  rewrite (WeekDay_local t Htz (Date_parse_so_data data t Hlen Hp)).
  destruct (expediente (Some (WeekDay t))) as [horaInicio horaFim]. cbn [fst snd] in *.
  assert (E : nanLt (Some h) horaInicio || nanGe (Some h) horaFim = true).
  { apply orb_true_iff. cbn. destruct Hfora; [left; apply Z.ltb_lt|right; apply Z.leb_le]; lia. }
  rewrite E. reflexivity.
Qed.

(** Conversely, whatever passes [validarHorario] is such an HH:MM. *)
Lemma validarHorario_horaTexto hora :
  validarHorario hora = true ->
  exists h m, 0 <= h < 24 /\ 0 <= m < 60 /\ hora = horaTexto h m.
Proof.
  sem_variaveis.
  intros H. unfold validarHorario in H.
  rewrite <- (string_of_list_ascii_of_string hora).
  destruct (list_ascii_of_string hora) as [|h1 [|h2 [|c [|m1 [|m2 [|x r]]]]]];
    try discriminate.
  unfold ehDigito in H.
  repeat match type of H with
         | (_ && _ = true) =>
             let Ha := fresh "Ha" in
             apply andb_true_iff in H; destruct H as [H Ha]
         end.
  repeat match goal with
         | Hx : (_ <=? _) = true |- _ => apply Z.leb_le in Hx
         | Hx : (_ =? _) = true |- _ => apply Z.eqb_eq in Hx
         end.
  exists (10 * (codigo h1 - 48) + (codigo h2 - 48)),
         (10 * (codigo m1 - 48) + (codigo m2 - 48)).
  assert (Hh : 0 <= 10 * (codigo h1 - 48) + (codigo h2 - 48) < 24).
  { apply orb_true_iff in H. destruct H as [H|H];
      repeat match type of H with
             | (_ && _ = true) =>
                 let Hb := fresh "Hb" in
                 apply andb_true_iff in H; destruct H as [H Hb]
             end;
      repeat match goal with
             | Hx : (_ <=? _) = true |- _ => apply Z.leb_le in Hx
             | Hx : (_ =? _) = true |- _ => apply Z.eqb_eq in Hx
             end; lia. }
  assert (Hm : 0 <= 10 * (codigo m1 - 48) + (codigo m2 - 48) < 60) by lia.
  split; [exact Hh|]. split; [exact Hm|].
  assert (Hd : forall a b, 48 <= codigo a <= 57 -> 48 <= codigo b <= 57 ->
                 dec2 (10 * (codigo a - 48) + (codigo b - 48))
                 = String a (String b EmptyString)).
  { intros a b Ha' Hb'. unfold dec2, digito.
    replace ((10 * (codigo a - 48) + (codigo b - 48)) / 10 mod 10) with (codigo a - 48)
      by (Z.div_mod_to_equations; lia).
    replace ((10 * (codigo a - 48) + (codigo b - 48)) mod 10) with (codigo b - 48)
      by (Z.div_mod_to_equations; lia).
    replace (48 + (codigo a - 48)) with (codigo a) by lia.
    replace (48 + (codigo b - 48)) with (codigo b) by lia.
    unfold codigo. rewrite !N2Z.id, !ascii_N_embedding. reflexivity. }
  assert (Hc : c = ":"%char).
  { rewrite <- (ascii_N_embedding c).
    replace (N_of_ascii c) with 58%N by (unfold codigo in *; lia). reflexivity. }
  assert (R1 : 48 <= codigo h1 <= 57 /\ 48 <= codigo h2 <= 57).
  { apply orb_true_iff in H. destruct H as [H|H];
      repeat match type of H with
             | (_ && _ = true) =>
                 let Hb := fresh "Hb" in
                 apply andb_true_iff in H; destruct H as [H Hb]
             end;
      repeat match goal with
             | Hx : (_ <=? _) = true |- _ => apply Z.leb_le in Hx
             | Hx : (_ =? _) = true |- _ => apply Z.eqb_eq in Hx
             end; lia. }
  unfold horaTexto. rewrite (Hd h1 h2), (Hd m1 m2) by lia. subst c. reflexivity.
Qed.

(** ** Retention *)

Lemma MakeDay_desloca y m dt k : MakeDay y m (dt - k) = MakeDay y m dt - k.
Proof. unfold MakeDay. ring. Qed.

Lemma setDate_menos_30 agora :
  Z.abs (agora - 30 * msPerDay) <= 8640000000000000 ->
  setDate agora (getDate agora - 30) = Some (agora - 30 * msPerDay).
Proof.
  intros Hb. unfold setDate, getDate.
  rewrite MakeDay_desloca, MakeDay_civil.
  unfold MakeDate, UTC, TimeWithinDay, Day, LocalTime.
  replace (((agora + LocalTZA) / msPerDay - 30) * msPerDay
           + (agora + LocalTZA) mod msPerDay - LocalTZA)
    with (agora - 30 * msPerDay).
  - unfold TimeClip. destruct (Z.leb_spec (Z.abs (agora - 30 * msPerDay)) 8640000000000000);
      [reflexivity|lia].
  - pose proof (Z.div_mod (agora + LocalTZA) msPerDay ltac:(discriminate)) as E.
    set (q := (agora + LocalTZA) / msPerDay) in *.
    set (r := (agora + LocalTZA) mod msPerDay) in *.
    clearbody q r. lia.
Qed.

Lemma semT_app s1 s2 : semT (s1 ++ s2) = semT s1 && semT s2.
Proof.
  unfold semT. induction s1 as [|c s1 IH]; [reflexivity|].
  change (String c s1 ++ s2) with (String c (s1 ++ s2)).
  cbn [list_ascii_of_string List.forallb].
  rewrite IH. apply andb_assoc.
Qed.

Lemma split_semT s r :
  semT s = true -> split "T" (s ++ String "T" r) = s :: split "T" r.
Proof.
  unfold semT. induction s as [|c s IH]; intros H; [reflexivity|].
  change (String c s ++ String "T" r) with (String c (s ++ String "T" r)).
  cbn [list_ascii_of_string List.forallb split] in *.
  apply andb_true_iff in H. destruct H as [Hc Hs].
  destruct (Ascii.eqb c "T"); [discriminate|].
  rewrite (IH Hs). reflexivity.
Qed.

Lemma digito_mod_semT x k :
  Ascii.eqb (digito (x / k mod 10)) "T" = false.
Proof.
  apply Ascii.eqb_neq. intros E.
  assert (H : codigo (digito (x / k mod 10)) = 84) by (rewrite E; reflexivity).
  pose proof (Z.mod_pos_bound (x / k) 10 ltac:(lia)).
  rewrite codigo_digito in H by lia. lia.
Qed.

Lemma digito_mod_semT1 x : Ascii.eqb (digito (x mod 10)) "T" = false.
Proof. rewrite <- (Z.div_1_r x) at 1. apply digito_mod_semT. Qed.

Lemma semT_dec2 n : semT (dec2 n) = true.
Proof. unfold semT, dec2. cbn. rewrite digito_mod_semT, digito_mod_semT1. reflexivity. Qed.

Lemma semT_dec4 n : semT (dec4 n) = true.
Proof.
  unfold semT, dec4, dec3, dec2. cbn.
  rewrite !digito_mod_semT, digito_mod_semT1. reflexivity.
Qed.

Lemma semT_dec6 n : semT (dec6 n) = true.
Proof.
  unfold semT, dec6, dec4, dec3, dec2. cbn.
  rewrite !digito_mod_semT, digito_mod_semT1. reflexivity.
Qed.

Lemma semT_dataISO t : semT (dataISO t) = true.
Proof.
  unfold dataISO. rewrite !semT_app, !semT_dec2.
  destruct ((0 <=? _) && (_ <=? 9999)).
  - rewrite semT_dec4. reflexivity.
  - rewrite semT_app, semT_dec6. destruct (_ <? 0); reflexivity.
Qed.

(** [toISOString().split('T')[0]] is the date part of the ISO text. *)
Lemma dataUTC_dataISO t : dataUTC t = dataISO t.
Proof.
  unfold dataUTC, toISOString.
  change (dataISO t ++ "T" ++ ?r) with (dataISO t ++ String "T" r).
  rewrite split_semT by apply semT_dataISO. reflexivity.
Qed.

Lemma compare_digito x y :
  Ascii.compare (digito (x mod 10)) (digito (y mod 10)) = (x mod 10 ?= y mod 10).
Proof.
  pose proof (Z.mod_pos_bound x 10 ltac:(lia)).
  pose proof (Z.mod_pos_bound y 10 ltac:(lia)).
  unfold Ascii.compare, digito.
  rewrite !N_ascii_embedding by lia.
  rewrite Z2N.inj_compare by lia. apply Z.add_compare_mono_l.
Qed.

(** Two dates in the format YYYY-MM-DD compare as texts the way the
    numbers YYYYMMDD compare. *)
Lemma compare_datas y1 m1 d1 y2 m2 d2 :
  0 <= y1 <= 9999 -> 0 <= m1 <= 99 -> 0 <= d1 <= 99 ->
  0 <= y2 <= 9999 -> 0 <= m2 <= 99 -> 0 <= d2 <= 99 ->
  String.compare (dec4 y1 ++ "-" ++ dec2 m1 ++ "-" ++ dec2 d1)
                 (dec4 y2 ++ "-" ++ dec2 m2 ++ "-" ++ dec2 d2)
  = (y1 * 10000 + m1 * 100 + d1 ?= y2 * 10000 + m2 * 100 + d2).
Proof.
  sem_variaveis.
  intros. cbv [dec4 dec3 dec2 String.append String.compare].
  rewrite !compare_digito.
  change (Ascii.compare "-" "-") with Eq. cbv iota.
  repeat match goal with
         | |- context [match ?a ?= ?b with _ => _ end] => destruct (Z.compare_spec a b)
         end;
  symmetry;
  first [ apply Z.compare_eq_iff | apply Z.compare_lt_iff | apply Z.compare_gt_iff ];
  Z.div_mod_to_equations; lia.
Qed.

Lemma Day_dia d : Day (d * msPerDay) = d.
Proof. unfold Day. apply Z.div_mul. discriminate. Qed.

Lemma YearFromDay_4digitos d :
  DayFromYear 0 <= d < DayFromYear 10000 -> 0 <= YearFromDay d <= 9999.
Proof.
  intros H. pose proof (YearFromDay_spec d) as S.
  destruct (Z.lt_ge_cases (YearFromDay d) 0) as [Hneg|Hpos].
  - pose proof (DayFromYear_mono (YearFromDay d + 1) 0 ltac:(lia)). lia.
  - split; [exact Hpos|].
    destruct (Z.le_gt_cases (YearFromDay d) 9999) as [Hle|Hgt]; [exact Hle|].
    pose proof (DayFromYear_mono 10000 (YearFromDay d) ltac:(lia)). lia.
Qed.

Lemma dataDoDia_formato d :
  DayFromYear 0 <= d < DayFromYear 10000 ->
  dataDoDia d
  = dec4 (YearFromDay d) ++ "-" ++ dec2 (MonthFromDay d + 1) ++ "-" ++ dec2 (DateFromDay d).
Proof.
  intros H. unfold dataDoDia, dataISO. rewrite Day_dia.
  pose proof (YearFromDay_4digitos d H) as Hy.
  destruct (Z.leb_spec 0 (YearFromDay d)); [|lia].
  destruct (Z.leb_spec (YearFromDay d) 9999); [|lia].
  reflexivity.
Qed.

Lemma monthOf_mono (leap : bool) (w1 w2 : Z) :
  w1 <= w2 -> monthOf leap w1 <= monthOf leap w2.
Proof.
  intros H. unfold monthOf.
  destruct leap; cbn; casos_do_mes; lia.
Qed.

(** The number YYYYMMDD grows with the day. *)
Lemma chaveDoDia_mono d1 d2 : d1 < d2 -> chaveDoDia d1 < chaveDoDia d2.
Proof.
  intros H. unfold chaveDoDia.
  pose proof (YearFromDay_mono d1 d2 ltac:(lia)) as Hy.
  pose proof (MonthFromDay_range d1). pose proof (MonthFromDay_range d2).
  pose proof (DateFromDay_range d1). pose proof (DateFromDay_range d2).
  destruct (Z.eq_dec (YearFromDay d1) (YearFromDay d2)) as [E|NE]; [|lia].
  assert (Hw : DayWithinYear d1 < DayWithinYear d2)
    by (unfold DayWithinYear; rewrite E; lia).
  assert (Hm : MonthFromDay d1 <= MonthFromDay d2).
  { unfold MonthFromDay. rewrite E. apply monthOf_mono. lia. }
  destruct (Z.eq_dec (MonthFromDay d1) (MonthFromDay d2)) as [Em|NEm]; [|lia].
  assert (DateFromDay d1 < DateFromDay d2)
    by (unfold DateFromDay; rewrite E, Em; lia).
  lia.
Qed.

(** On dates with a four-digit year the text order of the store is the
    order of the days. *)
Lemma dataDoDia_ltb d1 d2 :
  DayFromYear 0 <= d1 < DayFromYear 10000 ->
  DayFromYear 0 <= d2 < DayFromYear 10000 ->
  String.ltb (dataDoDia d1) (dataDoDia d2) = (d1 <? d2).
Proof.
  intros H1 H2. unfold String.ltb.
  rewrite (dataDoDia_formato d1 H1), (dataDoDia_formato d2 H2).
  pose proof (YearFromDay_4digitos d1 H1). pose proof (YearFromDay_4digitos d2 H2).
  pose proof (MonthFromDay_range d1). pose proof (MonthFromDay_range d2).
  pose proof (DateFromDay_range d1). pose proof (DateFromDay_range d2).
  rewrite compare_datas by lia.
  fold (chaveDoDia d1). fold (chaveDoDia d2).
  destruct (Z.ltb_spec d1 d2) as [Hlt|Hge].
  - pose proof (chaveDoDia_mono d1 d2 Hlt) as Hk.
    apply Z.compare_lt_iff in Hk. rewrite Hk. reflexivity.
  - destruct (Z.eq_dec d1 d2) as [->|Hne].
    + rewrite Z.compare_refl. reflexivity.
    + pose proof (chaveDoDia_mono d2 d1 ltac:(lia)) as Hk.
      apply Z.compare_gt_iff in Hk. rewrite Hk. reflexivity.
Qed.

(** C8. The retention job keeps the feedbacks and cancellations as they
    are and keeps exactly the appointments whose [data] does not sort
    before the date thirty days back from today (today being the current
    UTC date, the program's "hoje").  For an appointment dated on a
    calendar day [d] this means it is kept when [d] is at most thirty days
    before today and deleted when it is more: one dated 31 days ago goes,
    one dated 29 days ago stays. *)
Theorem limparAgendamentosAntigos_correto agora b :
  0 <= agora < 253402300800000 ->
  let b' := limparAgendamentosAntigos agora b in
  feedbacks b' = feedbacks b /\
  cancelamentos b' = cancelamentos b /\
  agendamentos b'
  = List.filter (fun a => negb (String.ltb (ag_data a) (dataDoDia (Day agora - 30))))
                (agendamentos b) /\
  forall a d,
    In a (agendamentos b) ->
    DayFromYear 0 <= d < DayFromYear 10000 ->
    ag_data a = dataDoDia d ->
    (In a (agendamentos b') <-> Day agora - d <= 30).
Proof.
  sem_variaveis.
  intros Hagora b'.
  assert (Hlim : setDate agora (getDate agora - 30) = Some (agora - 30 * msPerDay)).
  { apply setDate_menos_30. unfold msPerDay. lia. }
  assert (Hdia : dataUTC (agora - 30 * msPerDay) = dataDoDia (Day agora - 30)).
  { rewrite dataUTC_dataISO. unfold dataDoDia, dataISO. rewrite Day_dia.
    replace (Day (agora - 30 * msPerDay)) with (Day agora - 30); [reflexivity|].
    unfold Day, msPerDay. Z.div_mod_to_equations. lia. }
  assert (Hb' : agendamentos b'
                = List.filter
                    (fun a => negb (String.ltb (ag_data a) (dataDoDia (Day agora - 30))))
                    (agendamentos b)).
  { subst b'. unfold limparAgendamentosAntigos. rewrite Hlim, Hdia. reflexivity. }
  assert (Hr : DayFromYear 0 <= Day agora - 30 < DayFromYear 10000).
  { change (DayFromYear 0) with (-719528). change (DayFromYear 10000) with 2932897.
    unfold Day, msPerDay. Z.div_mod_to_equations. lia. }
  split; [|split; [|split]].
  - subst b'. unfold limparAgendamentosAntigos. rewrite Hlim. reflexivity.
  - subst b'. unfold limparAgendamentosAntigos. rewrite Hlim. reflexivity.
  - exact Hb'.
  - intros a d Hin Hd Ha. rewrite Hb', List.filter_In, Ha.
    rewrite (dataDoDia_ltb d (Day agora - 30) Hd Hr).
    destruct (Z.ltb_spec d (Day agora - 30)); cbn [negb].
    + split; [intros [_ H']; discriminate|lia].
    + split; [lia|intros _; split; [exact Hin|reflexivity]].
Qed.

(** * Further properties *)

(** ** What a message can do to the store *)

Lemma agendarServico_passoBD agora nome data hora sender w :
  passoBD sender (bd w) (bd (snd (agendarServico agora nome data hora sender w))).
Proof.
  unfold agendarServico.
  destruct (verificarHorario agora data hora); [left; reflexivity|].
  destruct (Nat.leb_spec 3 (List.length (List.filter (doSender sender) (agendamentos (bd w)))))
    as [_|Hlt]; [left; reflexivity|].
  destruct (List.find (noHorario data hora) (agendamentos (bd w))) eqn:Hf;
    [left; reflexivity|].
  right. left. exists (mkAgendamento nome data hora sender (toISOString agora)).
  cbn. repeat split; assumption.
Qed.

Lemma cancelarServico_passoBD agora nome data hora sender w :
  passoBD sender (bd w) (bd (snd (cancelarServico agora nome data hora w))).
Proof.
  unfold cancelarServico.
  destruct (List.find (doCliente nome data hora) (agendamentos (bd w)));
    [|left; reflexivity].
  right. right. left.
  exists nome, data, hora, (mkCancelamento nome data hora motivoUsuario (toISOString agora)).
  reflexivity.
Qed.

Lemma coletarFeedback_passoBD agora nome comentario avaliacao sender w :
  passoBD sender (bd w) (bd (snd (coletarFeedback agora nome comentario avaliacao w))).
Proof.
  unfold coletarFeedback.
  destruct (negb _ || _ || _); [left; reflexivity|].
  right. right. right. eexists. reflexivity.
Qed.

Lemma etapaData_bd agora mensagem sender w :
  bd (snd (etapaData agora mensagem sender w)) = bd w.
Proof.
  unfold etapaData.
  destruct (negb (validarData mensagem)); [reflexivity|].
  destruct (Date_lt _ _); [reflexivity|].
  destruct (expediente _). reflexivity.
Qed.

Lemma processarEtapa_passoBD agora e estado mensagem mensagemLower sender w :
  passoBD sender (bd w)
          (bd (snd (processarEtapa agora e estado mensagem mensagemLower sender w))).
Proof.
  destruct e; cbn [processarEtapa].
  - rewrite etapaData_bd. left. reflexivity.
  - destruct (negb (validarHorario mensagem)); left; reflexivity.
  - destruct (est_data estado), (est_hora estado); try (left; reflexivity).
    apply (agendarServico_passoBD agora mensagem s s0 sender (apagarEstado sender w)).
  - destruct (2 <=? _)%nat; [|left; reflexivity].
    destruct (negb (validarHorario _)); [left; reflexivity|].
    apply (cancelarServico_passoBD agora _ _ _ sender (apagarEstado sender w)).
  - destruct (String.eqb mensagemLower "sim"); [left; reflexivity|].
    destruct (String.eqb mensagemLower "não"); [|left; reflexivity].
    destruct (est_agendamento estado) as [[[nome data] hora]|]; [|left; reflexivity].
    apply (cancelarServico_passoBD agora _ _ _ sender (apagarEstado sender w)).
Qed.

Lemma comandosEspeciais_passoBD agora mensagem mensagemLower sender w :
  passoBD sender (bd w)
          (bd (snd (comandosEspeciais agora mensagem mensagemLower sender w))).
Proof.
  unfold comandosEspeciais.
  destruct (startsWith mensagemLower "triagem").
  { destruct (3 <=? _)%nat; left; reflexivity. }
  destruct (startsWith mensagemLower "feedback").
  { destruct (4 <=? _)%nat; [|left; reflexivity]. apply coletarFeedback_passoBD. }
  destruct (String.eqb mensagemLower "relatorio"); left; reflexivity.
Qed.

Lemma rotear_passoBD agora mensagem sender w :
  passoBD sender (bd w) (bd (snd (rotear agora mensagem sender w))).
Proof.
  unfold rotear.
  destruct (conversasChocolate w !! sender) as [c|].
  { unfold processarMensagemChocolate.
    destruct (conversasChocolate w !! sender) as [c'|]; [|left; reflexivity].
    destruct (negb (ativo c')); [left; reflexivity|].
    destruct (String.eqb _ "sair"); left; reflexivity. }
  destruct (String.eqb _ "sair" && _); [left; reflexivity|].
  destruct (negb _ && _ && _ && _ && _); [left; reflexivity|].
  destruct (String.eqb mensagem "1"); [left; reflexivity|].
  destruct (String.eqb mensagem "2"); [left; reflexivity|].
  destruct (String.eqb mensagem "3"); [left; reflexivity|].
  destruct (String.eqb mensagem "4"); [left; reflexivity|].
  destruct (String.eqb mensagem "5"); [left; reflexivity|].
  destruct (String.eqb mensagem "6"); [left; reflexivity|].
  destruct (String.eqb mensagem "7"); [left; reflexivity|].
  destruct (etapa _) as [e|].
  - apply processarEtapa_passoBD.
  - apply comandosEspeciais_passoBD.
Qed.

Lemma processarMensagem_passoBD agora mensagem sender w :
  passoBD sender (bd w) (bd (snd (processarMensagem agora mensagem sender w))).
Proof.
  unfold processarMensagem.
  destruct (negb (endsWith sender "@c.us")); [left; reflexivity|].
  destruct (acabouDeAgendar _ _ _); [left; reflexivity|].
  apply (rotear_passoBD agora mensagem sender (registrarContato agora sender w)).
Qed.

Lemma In_apagar (p : Agendamento -> bool) l a : In a (apagar p l) -> In a l.
Proof.
  unfold apagar. destruct versao.
  - intros H. apply List.filter_In in H. destruct H as [H _]. exact H.
  - induction l as [|b l IH]; cbn; [auto|].
    destruct (p b); [auto|]. intros [E|H]; [left; exact E|right; apply IH, H].
Qed.

Lemma filter_apagar_le (q p : Agendamento -> bool) l :
  (List.length (List.filter q (apagar p l)) <= List.length (List.filter q l))%nat.
Proof.
  unfold apagar. destruct versao.
  - induction l as [|b l IH]; cbn; [lia|].
    destruct (p b); cbn; destruct (q b); cbn; lia.
  - induction l as [|b l IH]; cbn; [lia|].
    destruct (p b).
    + destruct (q b); cbn; lia.
    + cbn. destruct (q b); cbn; lia.
Qed.

Lemma passoBD_semChoque sender b b' :
  passoBD sender b b' -> semChoque (agendamentos b) -> semChoque (agendamentos b').
Proof.
  intros [->|[(a & -> & _ & Hf & _)|[(nome & data & hora & c & ->)|(f & ->)]]] H;
    try exact H.
  - intros data hora. cbn. rewrite List.filter_app, List.length_app.
    change (List.filter (noHorario data hora) [a])
      with (if noHorario data hora a then [a] else []).
    destruct (noHorario data hora a) eqn:E; [|specialize (H data hora); cbn; lia].
    apply noHorario_true in E. destruct E as [<- <-].
    rewrite filter_nenhum; [cbn; lia|].
    intros x Hx. apply (List.find_none _ _ Hf x Hx).
  - intros data' hora'. cbn.
    pose proof (filter_apagar_le (noHorario data' hora') (doCliente nome data hora)
                  (agendamentos b)).
    specialize (H data' hora'). lia.
Qed.

Lemma passoBD_limite sender b b' :
  passoBD sender b b' -> dentroDoLimite (agendamentos b) ->
  dentroDoLimite (agendamentos b').
Proof.
  intros [->|[(a & -> & Hs & _ & Hc)|[(nome & data & hora & c & ->)|(f & ->)]]] H;
    try exact H.
  - intros s. cbn. rewrite List.filter_app, List.length_app.
    change (List.filter (doSender s) [a]) with (if doSender s a then [a] else []).
    destruct (doSender s a) eqn:E; [|specialize (H s); cbn; lia].
    unfold doSender in E. apply String.eqb_eq in E. rewrite Hs in E. subst s.
    cbn. lia.
  - intros s. cbn.
    pose proof (filter_apagar_le (doSender s) (doCliente nome data hora) (agendamentos b)).
    specialize (H s). lia.
Qed.

(** X1. Handling a message never gives a slot a second appointment: if no
    (date, time) held two rows before, none does afterwards, whatever the
    message and the sender. *)
Theorem processarMensagem_preserva_semChoque agora mensagem sender w :
  semChoque (agendamentos (bd w)) ->
  semChoque (agendamentos (bd (snd (processarMensagem agora mensagem sender w)))).
Proof.
  apply (passoBD_semChoque sender), processarMensagem_passoBD.
Qed.

(** X2. Handling a message never takes anybody past three appointments:
    if every requester owned at most three rows before, so it is
    afterwards. *)
Theorem processarMensagem_preserva_limite agora mensagem sender w :
  dentroDoLimite (agendamentos (bd w)) ->
  dentroDoLimite (agendamentos (bd (snd (processarMensagem agora mensagem sender w)))).
Proof.
  apply (passoBD_limite sender), processarMensagem_passoBD.
Qed.

(** X3. Feedbacks and cancellations are append-only under
    [processarMensagem]: the rows that were there stay, in place, and one
    message adds at most one row to the two tables together. *)
Theorem processarMensagem_registros_so_crescem agora mensagem sender w :
  exists novosFeedbacks novosCancelamentos,
    feedbacks (bd (snd (processarMensagem agora mensagem sender w)))
    = (feedbacks (bd w) ++ novosFeedbacks)%list /\
    cancelamentos (bd (snd (processarMensagem agora mensagem sender w)))
    = (cancelamentos (bd w) ++ novosCancelamentos)%list /\
    (List.length novosFeedbacks + List.length novosCancelamentos <= 1)%nat.
Proof.
  destruct (processarMensagem_passoBD agora mensagem sender w)
    as [->|[(a & -> & _)|[(nome & data & hora & c & ->)|(f & ->)]]].
  - exists [], []. rewrite !List.app_nil_r. repeat split. cbn. lia.
  - exists [], []. cbn. rewrite !List.app_nil_r. repeat split. lia.
  - exists [], [c]. cbn. rewrite List.app_nil_r. repeat split. lia.
  - exists [f], []. cbn. rewrite List.app_nil_r. repeat split. lia.
Qed.

(** X4. A message books for its own sender only: every appointment in
    the table after [processarMensagem] was there before or is owned by
    the sender of the message. *)
Theorem processarMensagem_so_agenda_para_o_remetente agora mensagem sender w a :
  In a (agendamentos (bd (snd (processarMensagem agora mensagem sender w)))) ->
  In a (agendamentos (bd w)) \/ ag_sender a = sender.
Proof.
  destruct (processarMensagem_passoBD agora mensagem sender w)
    as [->|[(a' & -> & Hs & _)|[(nome & data & hora & c & ->)|(f & ->)]]]; cbn.
  - auto.
  - intros H. apply List.in_app_or in H. destruct H as [H|[<-|[]]]; auto.
  - intros H. left. apply (In_apagar _ _ _ H).
  - auto.
Qed.

(** ** The conversation states stay well formed *)

Lemma estadosBem_getEstado agora k e :
  estadosBem e -> estadosBem (getEstado agora k e).
Proof.
  intros H. unfold getEstado. destruct (e !! k) eqn:E; [exact H|].
  intros k' s Hs. destruct (decide (k = k')) as [<-|Hne].
  - rewrite lookup_insert_eq in Hs. injection Hs as <-. exact I.
  - rewrite lookup_insert_ne in Hs by exact Hne. apply (H k' s Hs).
Qed.

Lemma estadosBem_alter (f : Estado -> Estado) k e :
  estadosBem e ->
  (forall s, e !! k = Some s -> estadoBem s -> estadoBem (f s)) ->
  estadosBem (alter f k e).
Proof.
  intros H Hf k' s Hs. destruct (decide (k = k')) as [<-|Hne].
  - rewrite lookup_alter_eq in Hs. destruct (e !! k) as [s0|] eqn:E; [|discriminate].
    injection Hs as <-. apply Hf; [reflexivity|apply (H k s0 E)].
  - rewrite lookup_alter_ne in Hs by exact Hne. apply (H k' s Hs).
Qed.

Lemma estadosBem_delete k e : estadosBem e -> estadosBem (delete k e).
Proof.
  intros H k' s Hs. destruct (decide (k = k')) as [<-|Hne].
  - rewrite lookup_delete_eq in Hs. discriminate.
  - rewrite lookup_delete_ne in Hs by exact Hne. apply (H k' s Hs).
Qed.

Lemma estadosBem_listarHorarios agora sender w :
  estadosBem (estados w) -> estadosBem (estados (snd (listarHorarios agora sender w))).
Proof.
  intros H. cbn. apply estadosBem_alter; [apply estadosBem_getEstado, H|].
  intros s _ _. exact I.
Qed.

Lemma estadosBem_agendarServico agora nome data hora sender w :
  estadosBem (estados w) ->
  estadosBem (estados (snd (agendarServico agora nome data hora sender w))).
Proof.
  intros H. unfold agendarServico.
  destruct (verificarHorario agora data hora);
    [apply (estadosBem_listarHorarios agora sender w H)|].
  destruct (3 <=? _)%nat; [exact H|].
  destruct (List.find _ _); [apply (estadosBem_listarHorarios agora sender w H)|exact H].
Qed.

Lemma estados_cancelarServico agora nome data hora w :
  estados (snd (cancelarServico agora nome data hora w)) = estados w.
Proof. unfold cancelarServico. destruct (List.find _ _); reflexivity. Qed.

Lemma estados_coletarFeedback agora nome comentario avaliacao w :
  estados (snd (coletarFeedback agora nome comentario avaliacao w)) = estados w.
Proof. unfold coletarFeedback. destruct (negb _ || _ || _); reflexivity. Qed.

Lemma estadosBem_processarEtapa agora e estado mensagem mensagemLower sender w :
  estados w !! sender = Some estado -> etapa estado = Some e ->
  estadosBem (estados w) ->
  estadosBem
    (estados (snd (processarEtapa agora e estado mensagem mensagemLower sender w))).
Proof.
  intros Hl He H. destruct e; cbn [processarEtapa].
  - unfold etapaData.
    destruct (negb (validarData mensagem)); [exact H|].
    destruct (Date_lt _ _); [exact H|].
    destruct (expediente _). cbn.
    apply estadosBem_alter; [exact H|]. intros s _ _. unfold estadoBem. cbn. eauto.
  - destruct (negb (validarHorario mensagem)).
    + apply (estadosBem_listarHorarios agora sender w H).
    + cbn. apply estadosBem_alter; [exact H|].
      intros s Hs Hb. rewrite Hl in Hs. injection Hs as <-.
      unfold estadoBem in *. rewrite He in Hb. cbn. split; [exact Hb|eauto].
  - destruct (est_data estado), (est_hora estado);
      try (apply estadosBem_delete, H).
    apply estadosBem_agendarServico. apply estadosBem_delete, H.
  - destruct (2 <=? _)%nat; [|exact H].
    destruct (negb (validarHorario _)); [exact H|].
    rewrite estados_cancelarServico. apply estadosBem_delete, H.
  - destruct (String.eqb mensagemLower "sim"); [apply estadosBem_delete, H|].
    destruct (String.eqb mensagemLower "não"); [|exact H].
    destruct (est_agendamento estado) as [[[nome data] hora]|];
      [|apply estadosBem_delete, H].
    rewrite estados_cancelarServico. apply estadosBem_delete, H.
Qed.

Lemma estados_comandosEspeciais agora mensagem mensagemLower sender w :
  estados (snd (comandosEspeciais agora mensagem mensagemLower sender w)) = estados w.
Proof.
  unfold comandosEspeciais.
  destruct (startsWith mensagemLower "triagem").
  { destruct (3 <=? _)%nat; reflexivity. }
  destruct (startsWith mensagemLower "feedback").
  { destruct (4 <=? _)%nat; [|reflexivity]. apply estados_coletarFeedback. }
  destruct (String.eqb mensagemLower "relatorio"); reflexivity.
Qed.

Lemma estados_processarMensagemChocolate agora mensagem sender w :
  estados (snd (processarMensagemChocolate agora mensagem sender w)) = estados w.
Proof.
  unfold processarMensagemChocolate.
  destruct (conversasChocolate w !! sender) as [c|]; [|reflexivity].
  destruct (negb (ativo c)); [reflexivity|].
  destruct (String.eqb _ "sair"); reflexivity.
Qed.

Lemma estadosBem_rotear agora mensagem sender w :
  estadosBem (estados w) ->
  estadosBem (estados (snd (rotear agora mensagem sender w))).
Proof.
  intros H. unfold rotear.
  destruct (conversasChocolate w !! sender) as [c|].
  { rewrite estados_processarMensagemChocolate. exact H. }
  destruct (String.eqb _ "sair" && _); [apply estadosBem_delete, H|].
  destruct (negb _ && _ && _ && _ && _); [exact H|].
  destruct (String.eqb mensagem "1").
  { cbn. apply estadosBem_alter; [exact H|]. intros s _ _. exact I. }
  destruct (String.eqb mensagem "2").
  { cbn. apply estadosBem_alter; [exact H|]. intros s _ _. exact I. }
  destruct (String.eqb mensagem "3"); [exact H|].
  destruct (String.eqb mensagem "4"); [exact H|].
  destruct (String.eqb mensagem "5"); [exact H|].
  destruct (String.eqb mensagem "6"); [exact H|].
  destruct (String.eqb mensagem "7"); [apply estadosBem_delete, H|].
  destruct (estados w !! sender) as [estado|] eqn:Hl.
  - change (default (mkEstado agora None None None None) (Some estado)) with estado.
    destruct (etapa estado) as [e|] eqn:He.
    + apply (estadosBem_processarEtapa agora e estado _ _ sender w Hl He H).
    + rewrite estados_comandosEspeciais. exact H.
  - change (etapa (default (mkEstado agora None None None None) None))
      with (@None Etapa).
    cbv iota. rewrite estados_comandosEspeciais. exact H.
Qed.

Lemma estadosBem_registrarContato agora sender w :
  estadosBem (estados w) -> estadosBem (estados (registrarContato agora sender w)).
Proof.
  intros H. cbn. apply estadosBem_alter; [apply estadosBem_getEstado, H|].
  intros s _ Hb. exact Hb.
Qed.

Lemma estadosBem_lembrarAmanha agora dataAmanha w a :
  estadosBem (estados w) -> estadosBem (estados (lembrarAmanha agora dataAmanha w a)).
Proof.
  intros H. cbn. apply estadosBem_alter; [apply estadosBem_getEstado, H|].
  intros s _ _. unfold estadoBem. cbn. eauto.
Qed.

(** X5. The conversation states stay well formed under every handler
    that writes them: after [processarMensagem], after the 09:00 reminder
    job and after the idle sweep, a requester at "horario" has a date
    stored, one at "nome" a date and a time, one at "confirmar_presenca"
    the appointment to confirm; so the step "nome" never books with a
    missing date or time. *)
Theorem estadosBem_preservado agora mensagem sender w :
  estadosBem (estados w) ->
  estadosBem (estados (snd (processarMensagem agora mensagem sender w))) /\
  estadosBem (estados (lembretesDeAmanha agora w)) /\
  estadosBem (estados (limparEstadosInativos agora w)).
Proof.
  intros H. split; [|split].
  - unfold processarMensagem.
    destruct (negb (endsWith sender "@c.us")); [exact H|].
    destruct (acabouDeAgendar _ _ _).
    + apply (estadosBem_registrarContato agora sender w H).
    + apply estadosBem_rotear, estadosBem_registrarContato, H.
  - unfold lembretesDeAmanha. destruct (setDate _ _) as [amanha|]; [|exact H].
    generalize (List.filter (doDia (dataUTC amanha)) (agendamentos (bd w))).
    intros rows. revert w H. induction rows as [|a rows IH]; intros w H; [exact H|].
    cbn [List.fold_left]. apply IH. apply estadosBem_lembrarAmanha, H.
  - intros k s Hs. cbn in Hs. apply map_lookup_filter_Some in Hs.
    destruct Hs as [Hs _]. apply (H k s Hs).
Qed.

(** ** Chat with Chocolate, "sair", and the sweep *)

Lemma etapaDe_registrarContato agora sender w k :
  etapaDe k (estados (registrarContato agora sender w)) = etapaDe k (estados w).
Proof.
  unfold registrarContato, etapaDe, getEstado. cbn.
  destruct (decide (sender = k)) as [<-|Hne].
  - rewrite lookup_alter_eq. destruct (estados w !! sender) as [s|] eqn:E.
    + rewrite E. reflexivity.
    + rewrite lookup_insert_eq. reflexivity.
  - rewrite lookup_alter_ne by exact Hne.
    destruct (estados w !! sender); [reflexivity|].
    rewrite lookup_insert_ne by exact Hne. reflexivity.
Qed.

Lemma delete_registrarContato agora sender w :
  delete sender (estados (registrarContato agora sender w)) = delete sender (estados w).
Proof.
  unfold registrarContato, getEstado. cbn. rewrite delete_alter_eq.
  destruct (estados w !! sender); [reflexivity|]. apply delete_insert_eq.
Qed.

(** X6. While a requester has an active chat with Chocolate every
    message is kept from the menu and the steps: it gets no reply, changes
    neither the store nor the requester's step nor what was sent, and
    re-arms the idle timer to seven minutes from now; only "sair" ends the
    chat, with the exit text, after which the idle callback has nothing
    left to do. *)
Theorem chat_chocolate_exclusivo agora mensagem sender w c :
  endsWith sender "@c.us" = true ->
  acabouDeAgendar agora sender w = false ->
  conversasChocolate w !! sender = Some c -> ativo c = true ->
  let r := processarMensagem agora mensagem sender w in
  bd (snd r) = bd w /\
  enviadas (snd r) = enviadas w /\
  etapaDe sender (estados (snd r)) = etapaDe sender (estados w) /\
  if String.eqb (trim (toLowerCase mensagem)) "sair" then
    fst r = Some ("Bate-papo encerrado. Voltando ao menu." ++ nl ++ nl ++ mostrarMenu) /\
    conversasChocolate (snd r) !! sender = None /\
    aoExpirarChat sender (snd r) = snd r
  else
    fst r = None /\
    conversasChocolate (snd r) !! sender = Some (mkConversa true agora (agora + seteMinutos)).
Proof.
  intros Hs Hm Hc Ha r. subst r. unfold processarMensagem. rewrite Hs. cbn [negb].
  change (acabouDeAgendar agora sender (registrarContato agora sender w))
    with (acabouDeAgendar agora sender w). rewrite Hm.
  unfold rotear.
  change (conversasChocolate (registrarContato agora sender w)) with (conversasChocolate w).
  rewrite Hc. unfold processarMensagemChocolate.
  change (conversasChocolate (registrarContato agora sender w)) with (conversasChocolate w).
  rewrite Hc, Ha. cbn [negb].
  destruct (String.eqb (trim (toLowerCase mensagem)) "sair").
  - cbn [fst snd]. split; [reflexivity|]. split; [reflexivity|].
    split; [apply (etapaDe_registrarContato agora sender w sender)|].
    split; [reflexivity|].
    assert (Hn : delete sender (conversasChocolate w) !! sender = None)
      by apply lookup_delete_eq.
    split; [exact Hn|]. unfold aoExpirarChat. cbn. rewrite Hn. reflexivity.
  - cbn [fst snd]. split; [reflexivity|]. split; [reflexivity|].
    split; [apply (etapaDe_registrarContato agora sender w sender)|].
    split; [reflexivity|]. cbn. rewrite lookup_insert_eq. reflexivity.
Qed.

(** X7. "sair" at any step of a flow drops the flow: the reply is the
    menu, the requester's state is deleted, and nothing else in the world
    changes. *)
Theorem sair_volta_ao_menu agora mensagem sender w e :
  endsWith sender "@c.us" = true ->
  acabouDeAgendar agora sender w = false ->
  conversasChocolate w !! sender = None ->
  etapaDe sender (estados w) = Some e ->
  trim (toLowerCase mensagem) = "sair" ->
  processarMensagem agora mensagem sender w
  = (Some mostrarMenu, com_estados w (delete sender (estados w))).
Proof.
  intros Hs Hm Hc He Hsair. unfold processarMensagem. rewrite Hs. cbn [negb].
  change (acabouDeAgendar agora sender (registrarContato agora sender w))
    with (acabouDeAgendar agora sender w). rewrite Hm.
  unfold rotear.
  change (conversasChocolate (registrarContato agora sender w)) with (conversasChocolate w).
  rewrite Hc, Hsair.
  pose proof (etapaDe_registrarContato agora sender w sender) as Hr.
  rewrite He in Hr. unfold etapaDe in Hr.
  destruct (estados (registrarContato agora sender w) !! sender) as [s|] eqn:El;
    [|discriminate].
  change (default (mkEstado agora None None None None) (Some s)) with s.
  rewrite Hr. cbn [String.eqb Ascii.eqb Bool.eqb andb].
  rewrite bool_decide_eq_true_2 by eauto.
  unfold apagarEstado. rewrite delete_registrarContato. reflexivity.
Qed.

(** ** Who is written to *)

Lemma soPara_igual dest w w' : enviadas w' = enviadas w -> soPara dest w w'.
Proof.
  intros H. exists []. rewrite H, List.app_nil_r. split; [reflexivity|constructor].
Qed.

Lemma soPara_sendMessage dest w w' para c :
  soPara dest w w' -> In para dest -> soPara dest w (sendMessage w' para c).
Proof.
  intros (l & H & F) Hin. exists (l ++ [(para, c)])%list. split.
  - cbn. rewrite H, <- List.app_assoc. reflexivity.
  - apply Forall_app. split; [exact F|]. constructor; [exact Hin|constructor].
Qed.

Lemma agendarServico_soPara agora nome data hora sender w :
  soPara [sender; ADMIN_PHONE] w (snd (agendarServico agora nome data hora sender w)).
Proof.
  unfold agendarServico.
  destruct (verificarHorario agora data hora); [apply soPara_igual; reflexivity|].
  destruct (3 <=? _)%nat; [apply soPara_igual; reflexivity|].
  destruct (List.find _ _); [apply soPara_igual; reflexivity|].
  cbn [snd].
  match goal with
  | |- soPara _ _ (com_ultimoAgendamento (sendMessage (sendMessage (notificarAdmin ?w1 ?m) _ ?c1) _ ?c2) _) =>
      exists [(ADMIN_PHONE, Texto m); (sender, c1); (sender, c2)]
  end.
  split.
  - unfold com_ultimoAgendamento, notificarAdmin, sendMessage. cbn [enviadas com_bd].
    rewrite <- !List.app_assoc. reflexivity.
  - constructor; [right; left; reflexivity|].
    constructor; [left; reflexivity|].
    constructor; [left; reflexivity|]. constructor.
Qed.

Lemma cancelarServico_soPara agora nome data hora sender w :
  soPara [sender; ADMIN_PHONE] w (snd (cancelarServico agora nome data hora w)).
Proof.
  unfold cancelarServico.
  destruct (List.find _ _); [|apply soPara_igual; reflexivity].
  cbn [snd]. unfold notificarAdmin. apply soPara_sendMessage.
  - apply soPara_igual. reflexivity.
  - right. left. reflexivity.
Qed.

Lemma etapaData_enviadas agora mensagem sender w :
  enviadas (snd (etapaData agora mensagem sender w)) = enviadas w.
Proof.
  unfold etapaData.
  destruct (negb (validarData mensagem)); [reflexivity|].
  destruct (Date_lt _ _); [reflexivity|].
  destruct (expediente _). reflexivity.
Qed.

Lemma enviadas_coletarFeedback agora nome comentario avaliacao w :
  enviadas (snd (coletarFeedback agora nome comentario avaliacao w)) = enviadas w.
Proof. unfold coletarFeedback. destruct (negb _ || _ || _); reflexivity. Qed.

Lemma processarEtapa_soPara agora e estado mensagem mensagemLower sender w :
  soPara [sender; ADMIN_PHONE] w
         (snd (processarEtapa agora e estado mensagem mensagemLower sender w)).
Proof.
  destruct e; cbn [processarEtapa].
  - apply soPara_igual, etapaData_enviadas.
  - destruct (negb (validarHorario mensagem)); apply soPara_igual; reflexivity.
  - destruct (est_data estado), (est_hora estado);
      try (apply soPara_igual; reflexivity).
    apply (agendarServico_soPara agora mensagem s s0 sender (apagarEstado sender w)).
  - destruct (2 <=? _)%nat; [|apply soPara_igual; reflexivity].
    destruct (negb (validarHorario _)); [apply soPara_igual; reflexivity|].
    apply (cancelarServico_soPara agora _ _ _ sender (apagarEstado sender w)).
  - destruct (String.eqb mensagemLower "sim"); [apply soPara_igual; reflexivity|].
    destruct (String.eqb mensagemLower "não"); [|apply soPara_igual; reflexivity].
    destruct (est_agendamento estado) as [[[nome data] hora]|];
      [|apply soPara_igual; reflexivity].
    apply (cancelarServico_soPara agora _ _ _ sender (apagarEstado sender w)).
Qed.

Lemma comandosEspeciais_enviadas agora mensagem mensagemLower sender w :
  enviadas (snd (comandosEspeciais agora mensagem mensagemLower sender w)) = enviadas w.
Proof.
  unfold comandosEspeciais.
  destruct (startsWith mensagemLower "triagem").
  { destruct (3 <=? _)%nat; reflexivity. }
  destruct (startsWith mensagemLower "feedback").
  { destruct (4 <=? _)%nat; [|reflexivity]. apply enviadas_coletarFeedback. }
  destruct (String.eqb mensagemLower "relatorio"); reflexivity.
Qed.

Lemma rotear_soPara agora mensagem sender w :
  soPara [sender; ADMIN_PHONE] w (snd (rotear agora mensagem sender w)).
Proof.
  unfold rotear.
  destruct (conversasChocolate w !! sender) as [c|].
  { unfold processarMensagemChocolate.
    destruct (conversasChocolate w !! sender) as [c'|]; [|apply soPara_igual; reflexivity].
    destruct (negb (ativo c')); [apply soPara_igual; reflexivity|].
    destruct (String.eqb _ "sair"); apply soPara_igual; reflexivity. }
  destruct (String.eqb _ "sair" && _); [apply soPara_igual; reflexivity|].
  destruct (negb _ && _ && _ && _ && _); [apply soPara_igual; reflexivity|].
  destruct (String.eqb mensagem "1"); [apply soPara_igual; reflexivity|].
  destruct (String.eqb mensagem "2"); [apply soPara_igual; reflexivity|].
  destruct (String.eqb mensagem "3"); [apply soPara_igual; reflexivity|].
  destruct (String.eqb mensagem "4"); [apply soPara_igual; reflexivity|].
  destruct (String.eqb mensagem "5"); [apply soPara_igual; reflexivity|].
  destruct (String.eqb mensagem "6"); [apply soPara_igual; reflexivity|].
  destruct (String.eqb mensagem "7"); [apply soPara_igual; reflexivity|].
  destruct (etapa _) as [e|].
  - apply processarEtapa_soPara.
  - apply soPara_igual, comandosEspeciais_enviadas.
Qed.

Lemma processarMensagem_soPara agora mensagem sender w :
  soPara [sender; ADMIN_PHONE] w (snd (processarMensagem agora mensagem sender w)).
Proof.
  unfold processarMensagem.
  destruct (negb (endsWith sender "@c.us")); [apply soPara_igual; reflexivity|].
  destruct (acabouDeAgendar _ _ _); [apply soPara_igual; reflexivity|].
  destruct (rotear_soPara agora mensagem sender (registrarContato agora sender w))
    as (l & H & F).
  exists l. split; [exact H|exact F].
Qed.

(** X8. Handling a message never writes to a third party: whatever the
    message, its origin and the state of the bot, everything sent while
    the message is handled, be it by the [message] event of the client or
    by the route [/bot/message], goes to the chat it came from or to the
    administrator, and nothing sent before is touched. *)
Theorem aoReceberMensagem_destinatarios agora from body hasMedia w :
  soPara [from; ADMIN_PHONE] w (aoReceberMensagem agora from body hasMedia w) /\
  soPara [from; ADMIN_PHONE] w (snd (botMessage agora body from w)).
Proof.
  pose proof (processarMensagem_soPara agora body from w) as H.
  split.
  - unfold aoReceberMensagem.
    destruct (includes from "@g.us"); [apply soPara_igual; reflexivity|].
    destruct hasMedia.
    { apply soPara_sendMessage; [apply soPara_igual; reflexivity|left; reflexivity]. }
    destruct (processarMensagem agora body from w) as [[resposta|] w']; cbn [snd] in H.
    + apply soPara_sendMessage; [exact H|left; reflexivity].
    + exact H.
  - unfold botMessage.
    destruct (processarMensagem agora body from w) as [[resposta|] w']; cbn [snd] in H.
    + destruct (String.eqb resposta EmptyString); cbn [snd]; [exact H|].
      apply soPara_sendMessage; [exact H|left; reflexivity].
    + exact H.
Qed.

(** ** Idle states *)

Lemma contatoEm_alter (f : Estado -> Estado) agora k k' e :
  (forall s, ultimoContato (f s) = ultimoContato s) ->
  contatoEm agora k e -> contatoEm agora k (alter f k' e).
Proof.
  intros Hf H s Hs. destruct (decide (k' = k)) as [->|Hne].
  - rewrite lookup_alter_eq in Hs. destruct (e !! k) as [s0|] eqn:E; [|discriminate Hs].
    cbn in Hs. injection Hs as <-. rewrite Hf. apply H. exact E.
  - rewrite lookup_alter_ne in Hs by exact Hne. apply (H s Hs).
Qed.

Lemma contatoEm_getEstado agora k k' e :
  contatoEm agora k e -> contatoEm agora k (getEstado agora k' e).
Proof.
  intros H. unfold getEstado. destruct (e !! k') eqn:E; [exact H|].
  intros s Hs. destruct (decide (k' = k)) as [->|Hne].
  - rewrite lookup_insert_eq in Hs. injection Hs as <-. reflexivity.
  - rewrite lookup_insert_ne in Hs by exact Hne. apply (H s Hs).
Qed.

Lemma contatoEm_delete agora k k' e :
  contatoEm agora k e -> contatoEm agora k (delete k' e).
Proof.
  intros H s Hs. destruct (decide (k' = k)) as [->|Hne].
  - rewrite lookup_delete_eq in Hs. discriminate Hs.
  - rewrite lookup_delete_ne in Hs by exact Hne. apply (H s Hs).
Qed.

Lemma contatoEm_listarHorarios agora k sender w :
  contatoEm agora k (estados w) ->
  contatoEm agora k (estados (snd (listarHorarios agora sender w))).
Proof.
  intros H. cbn. apply contatoEm_alter; [reflexivity|]. apply contatoEm_getEstado, H.
Qed.

Lemma contatoEm_agendarServico agora k nome data hora sender w :
  contatoEm agora k (estados w) ->
  contatoEm agora k (estados (snd (agendarServico agora nome data hora sender w))).
Proof.
  intros H. unfold agendarServico.
  destruct (verificarHorario agora data hora);
    [apply (contatoEm_listarHorarios agora k sender w H)|].
  destruct (3 <=? _)%nat; [exact H|].
  destruct (List.find _ _); [apply (contatoEm_listarHorarios agora k sender w H)|].
  exact H.
Qed.

Lemma etapaData_contato agora k mensagem sender w :
  contatoEm agora k (estados w) ->
  contatoEm agora k (estados (snd (etapaData agora mensagem sender w))).
Proof.
  intros H. unfold etapaData.
  destruct (negb (validarData mensagem)); [exact H|].
  destruct (Date_lt _ _); [exact H|].
  destruct (expediente _). cbn. apply contatoEm_alter; [reflexivity|exact H].
Qed.

Lemma contatoEm_processarEtapa agora k e estado mensagem mensagemLower sender w :
  contatoEm agora k (estados w) ->
  contatoEm agora k
    (estados (snd (processarEtapa agora e estado mensagem mensagemLower sender w))).
Proof.
  intros H.
  assert (Hd : contatoEm agora k (estados (apagarEstado sender w)))
    by (cbn; apply contatoEm_delete, H).
  destruct e; cbn [processarEtapa].
  - apply etapaData_contato, H.
  - destruct (negb (validarHorario mensagem)).
    + apply (contatoEm_listarHorarios agora k sender w H).
    + cbn. apply contatoEm_alter; [reflexivity|exact H].
  - destruct (est_data estado), (est_hora estado); try exact Hd.
    apply contatoEm_agendarServico, Hd.
  - destruct (2 <=? _)%nat; [|exact H].
    destruct (negb (validarHorario _)); [exact H|].
    rewrite estados_cancelarServico. exact Hd.
  - destruct (String.eqb mensagemLower "sim"); [exact Hd|].
    destruct (String.eqb mensagemLower "não"); [|exact H].
    destruct (est_agendamento estado) as [[[nome data] hora]|]; [|exact Hd].
    rewrite estados_cancelarServico. exact Hd.
Qed.

Lemma contatoEm_rotear agora k mensagem sender w :
  contatoEm agora k (estados w) ->
  contatoEm agora k (estados (snd (rotear agora mensagem sender w))).
Proof.
  intros H. unfold rotear.
  destruct (conversasChocolate w !! sender) as [c|].
  { rewrite estados_processarMensagemChocolate. exact H. }
  destruct (String.eqb _ "sair" && _); [cbn; apply contatoEm_delete, H|].
  destruct (negb _ && _ && _ && _ && _); [exact H|].
  destruct (String.eqb mensagem "1"); [cbn; apply contatoEm_alter; [reflexivity|exact H]|].
  destruct (String.eqb mensagem "2"); [cbn; apply contatoEm_alter; [reflexivity|exact H]|].
  destruct (String.eqb mensagem "3"); [exact H|].
  destruct (String.eqb mensagem "4"); [exact H|].
  destruct (String.eqb mensagem "5"); [exact H|].
  destruct (String.eqb mensagem "6"); [exact H|].
  destruct (String.eqb mensagem "7"); [cbn; apply contatoEm_delete, H|].
  destruct (etapa _) as [e|].
  - apply contatoEm_processarEtapa, H.
  - rewrite estados_comandosEspeciais. exact H.
Qed.

Lemma contatoEm_registrarContato agora sender w :
  contatoEm agora sender (estados (registrarContato agora sender w)).
Proof.
  intros s Hs. cbn in Hs. rewrite lookup_alter_eq in Hs.
  destruct (getEstado agora sender (estados w) !! sender) as [s0|]; [|discriminate Hs].
  cbn in Hs. injection Hs as <-. reflexivity.
Qed.

Lemma processarMensagem_contato agora mensagem sender w :
  endsWith sender "@c.us" = true ->
  contatoEm agora sender (estados (snd (processarMensagem agora mensagem sender w))).
Proof.
  intros Hs. unfold processarMensagem. rewrite Hs. cbn [negb].
  destruct (acabouDeAgendar _ _ _).
  - apply (contatoEm_registrarContato agora sender w).
  - apply contatoEm_rotear, contatoEm_registrarContato.
Qed.

Lemma limparEstadosInativos_lookup agora w k :
  estados (limparEstadosInativos agora w) !! k
  = match estados w !! k with
    | Some s => if inativo agora s then None else Some s
    | None => None
    end.
Proof.
  cbn. destruct (estados w !! k) as [s|] eqn:E.
  - destruct (inativo agora s) eqn:I.
    + apply map_lookup_filter_None. right. intros s' Hs'. cbn.
      rewrite E in Hs'. injection Hs' as <-. rewrite I. discriminate.
    + apply map_lookup_filter_Some. split; [exact E|exact I].
  - apply map_lookup_filter_None. left. exact E.
Qed.

(** X9. The ten-minute rule for conversation states.  After a message
    handled at [agora], the sweep leaves the requester's state (and with
    it the step of the flow) alone while at most ten minutes have passed,
    and deletes it once more than ten minutes have passed. *)
Theorem inatividade_dez_minutos agora depois mensagem sender w :
  endsWith sender "@c.us" = true -> agora <> 0 ->
  let w' := snd (processarMensagem agora mensagem sender w) in
  (depois - agora <= 10 * 60 * 1000 ->
   estados (limparEstadosInativos depois w') !! sender = estados w' !! sender) /\
  (10 * 60 * 1000 < depois - agora ->
   estados (limparEstadosInativos depois w') !! sender = None).
Proof.
  intros Hs H0 w'.
  pose proof (processarMensagem_contato agora mensagem sender w Hs) as Hc.
  fold w' in Hc. rewrite limparEstadosInativos_lookup.
  destruct (estados w' !! sender) as [s|] eqn:E; [|split; reflexivity].
  unfold inativo. rewrite (Hc s E).
  destruct (Z.eqb_spec agora 0) as [Hz|_]; [contradiction|]. cbn [negb andb].
  split; intros Hd.
  - destruct (Z.ltb_spec (10 * 60 * 1000) (depois - agora)); [lia|reflexivity].
  - destruct (Z.ltb_spec (10 * 60 * 1000) (depois - agora)); [reflexivity|lia].
Qed.

(** ** Reminders *)

Lemma fold_sendMessage (f : Agendamento -> string) (g : Agendamento -> Conteudo) l w :
  List.fold_left (fun w' a => sendMessage w' (f a) (g a)) l w
  = mkMundo (bd w) (estados w) (conversasChocolate w) (ultimoAgendamento w)
            (enviadas w ++ List.map (fun a => (f a, g a)) l).
Proof.
  revert w. induction l as [|a l IH]; intros w.
  - cbn. rewrite List.app_nil_r. destruct w; reflexivity.
  - cbn [List.fold_left List.map]. rewrite IH. cbn.
    rewrite <- List.app_assoc. reflexivity.
Qed.

(** X10. The reminders of the day.  [enviarLembrete] appends to what was
    sent exactly one reminder per appointment whose date is today's UTC
    date, in the order of the table, each to the chat that booked it and
    naming its holder and its time: the list of new messages is the image
    of the list of today's rows.  Nothing else in the world changes, and
    the reply is the fixed text followed by the menu. *)
Theorem enviarLembrete_um_por_agendamento agora w :
  let hoje := dataUTC agora in
  let linhas := List.filter (fun a => String.eqb (ag_data a) hoje) (agendamentos (bd w)) in
  enviarLembrete agora w
  = ("Lembretes enviados." ++ nl ++ nl ++ mostrarMenu,
     mkMundo (bd w) (estados w) (conversasChocolate w) (ultimoAgendamento w)
             (enviadas w
              ++ List.map (fun a => (ag_sender a,
                                     Texto ("Lembrete: " ++ ag_nome a
                                            ++ ", seu corte é hoje às " ++ ag_hora a
                                            ++ "! 😎")))
                          linhas)) /\
  List.length (enviadas (snd (enviarLembrete agora w)))
  = (List.length (enviadas w) + List.length linhas)%nat /\
  forall i a, nth_error linhas i = Some a ->
    nth_error (enviadas (snd (enviarLembrete agora w))) (List.length (enviadas w) + i)
    = Some (ag_sender a, Texto (msgLembreteHoje a)).
Proof.
  intros hoje linhas.
  assert (E : enviarLembrete agora w
              = ("Lembretes enviados." ++ nl ++ nl ++ mostrarMenu,
                 mkMundo (bd w) (estados w) (conversasChocolate w) (ultimoAgendamento w)
                         (enviadas w
                          ++ List.map (fun a => (ag_sender a, Texto (msgLembreteHoje a)))
                                      linhas))).
  { unfold enviarLembrete.
    rewrite (fold_sendMessage ag_sender (fun a => Texto (msgLembreteHoje a))).
    reflexivity. }
  split; [exact E|]. rewrite E. cbn [snd enviadas]. split.
  - rewrite List.length_app, List.length_map. reflexivity.
  - intros i a Hi. rewrite List.nth_error_app2 by lia.
    replace (List.length (enviadas w) + i - List.length (enviadas w))%nat with i by lia.
    rewrite List.nth_error_map, Hi. reflexivity.
Qed.

Lemma setDate_mais agora k :
  Z.abs (agora + k * msPerDay) <= 8640000000000000 ->
  setDate agora (getDate agora + k) = Some (agora + k * msPerDay).
Proof.
  intros Hb. unfold setDate, getDate.
  replace (DateFromDay (Day (LocalTime agora)) + k)
    with (DateFromDay (Day (LocalTime agora)) - (- k)) by ring.
  rewrite MakeDay_desloca, MakeDay_civil.
  unfold MakeDate, UTC, TimeWithinDay, Day, LocalTime.
  replace (((agora + LocalTZA) / msPerDay - - k) * msPerDay
           + (agora + LocalTZA) mod msPerDay - LocalTZA)
    with (agora + k * msPerDay).
  - unfold TimeClip. destruct (Z.leb_spec (Z.abs (agora + k * msPerDay)) 8640000000000000);
      [reflexivity|lia].
  - pose proof (Z.div_mod (agora + LocalTZA) msPerDay ltac:(discriminate)) as E.
    set (q := (agora + LocalTZA) / msPerDay) in *.
    set (r := (agora + LocalTZA) mod msPerDay) in *.
    clearbody q r. lia.
Qed.

Lemma lembrarAmanha_outro agora dataAmanha w a k :
  ag_sender a <> k ->
  estados (lembrarAmanha agora dataAmanha w a) !! k = estados w !! k.
Proof.
  intros Hne. cbn. rewrite lookup_alter_ne by exact Hne.
  unfold getEstado. destruct (estados w !! ag_sender a); [reflexivity|].
  apply lookup_insert_ne. exact Hne.
Qed.

Lemma lembrarAmanha_arma agora dataAmanha w a :
  exists s, estados (lembrarAmanha agora dataAmanha w a) !! ag_sender a = Some s /\
            etapa s = Some EConfirmarPresenca /\
            est_agendamento s = Some (ag_nome a, dataAmanha, ag_hora a).
Proof.
  cbn. rewrite lookup_alter_eq. unfold getEstado.
  destruct (estados w !! ag_sender a) as [s|] eqn:E.
  - rewrite E. eexists. split; [reflexivity|]. split; reflexivity.
  - rewrite lookup_insert_eq. eexists. split; [reflexivity|]. split; reflexivity.
Qed.

Lemma fold_lembrarAmanha_outros agora dataAmanha l w k :
  (forall b, In b l -> ag_sender b <> k) ->
  estados (List.fold_left (lembrarAmanha agora dataAmanha) l w) !! k = estados w !! k.
Proof.
  revert w. induction l as [|a l IH]; intros w H; [reflexivity|].
  cbn [List.fold_left]. rewrite IH by (intros b Hb; apply H; right; exact Hb).
  apply lembrarAmanha_outro, H. left. reflexivity.
Qed.

Lemma fold_lembrarAmanha_resto agora dataAmanha l w :
  bd (List.fold_left (lembrarAmanha agora dataAmanha) l w) = bd w /\
  conversasChocolate (List.fold_left (lembrarAmanha agora dataAmanha) l w)
  = conversasChocolate w /\
  enviadas (List.fold_left (lembrarAmanha agora dataAmanha) l w)
  = (enviadas w
     ++ List.map (fun a => (ag_sender a, Texto (msgLembreteAmanha dataAmanha a))) l)%list.
Proof.
  revert w. induction l as [|a l IH]; intros w.
  - cbn. rewrite List.app_nil_r. split; [reflexivity|]. split; reflexivity.
  - cbn [List.fold_left List.map]. destruct (IH (lembrarAmanha agora dataAmanha w a))
      as (Hb & Hc & He).
    rewrite Hb, Hc, He. cbn. rewrite <- List.app_assoc.
    split; [reflexivity|]. split; reflexivity.
Qed.

(** X11. The 09:00 job.  Tomorrow is the UTC date of the instant 24 hours
    ahead.  The store is not touched; every appointment of that date gets
    its reminder, in table order; and the chat of each one is put at the
    step "confirmar_presenca" holding the name, date and time of the last
    of its appointments of that date. *)
Theorem lembretesDeAmanha_arma_confirmacao agora w antes a depois :
  Z.abs (agora + msPerDay) <= 8640000000000000 ->
  List.filter (doDia (dataUTC (agora + msPerDay))) (agendamentos (bd w))
  = (antes ++ a :: depois)%list ->
  (forall b, In b depois -> ag_sender b <> ag_sender a) ->
  let amanha := dataUTC (agora + msPerDay) in
  let w' := lembretesDeAmanha agora w in
  bd w' = bd w /\
  enviadas w'
  = (enviadas w
     ++ List.map (fun b => (ag_sender b, Texto (msgLembreteAmanha amanha b)))
                 (List.filter (doDia amanha) (agendamentos (bd w))))%list /\
  exists s, estados w' !! ag_sender a = Some s /\
            etapa s = Some EConfirmarPresenca /\
            est_agendamento s = Some (ag_nome a, amanha, ag_hora a).
Proof.
  intros Hb Hrows Hdepois amanha w'. subst w'. unfold lembretesDeAmanha.
  rewrite (setDate_mais agora 1) by (rewrite Z.mul_1_l; exact Hb).
  rewrite Z.mul_1_l. fold amanha.
  destruct (fold_lembrarAmanha_resto agora amanha
              (List.filter (doDia amanha) (agendamentos (bd w))) w) as (H1 & _ & H3).
  split; [exact H1|]. split; [exact H3|].
  subst amanha. rewrite Hrows, List.fold_left_app. cbn [List.fold_left].
  rewrite fold_lembrarAmanha_outros by exact Hdepois.
  apply lembrarAmanha_arma.
Qed.

(** ** The answers to a reminder and the cancellation by menu *)

Lemma lookup_registrarContato agora sender w s :
  estados w !! sender = Some s ->
  estados (registrarContato agora sender w) !! sender = Some (com_ultimoContato agora s).
Proof.
  intros H. cbn. rewrite lookup_alter_eq. unfold getEstado. rewrite H, H. reflexivity.
Qed.

Lemma apagarEstado_registrarContato agora sender w :
  apagarEstado sender (registrarContato agora sender w)
  = com_estados w (delete sender (estados w)).
Proof. unfold apagarEstado. rewrite delete_registrarContato. reflexivity. Qed.

(** X12. The answer to a reminder.  At the step "confirmar_presenca",
    for a message that is not one of the menu digits: "sim" keeps the
    appointment and ends the step; "não" cancels the appointment the
    reminder was about, exactly as [cancelarServico] does for its name,
    date and time, and ends the step; "sair" aside, anything else asks
    again and leaves store and step as they are. *)
Theorem confirmar_presenca_respostas agora mensagem sender w s nome data hora :
  endsWith sender "@c.us" = true ->
  acabouDeAgendar agora sender w = false ->
  conversasChocolate w !! sender = None ->
  estados w !! sender = Some s ->
  etapa s = Some EConfirmarPresenca ->
  est_agendamento s = Some (nome, data, hora) ->
  pertence mensagem ["1"; "2"; "3"; "4"; "5"; "6"; "7"] = false ->
  let resposta := trim (toLowerCase mensagem) in
  let w0 := com_estados w (delete sender (estados w)) in
  (resposta = "sim" ->
   processarMensagem agora mensagem sender w
   = (Some ("Show! Te esperamos no horário. 😎" ++ nl ++ nl ++ mostrarMenu), w0)) /\
  (resposta = "não" ->
   processarMensagem agora mensagem sender w = cancelarServico agora nome data hora w0) /\
  (resposta <> "sim" -> resposta <> "não" -> resposta <> "sair" ->
   fst (processarMensagem agora mensagem sender w)
   = Some "Responda 'Sim' ou 'Não' para confirmar sua presença." /\
   bd (snd (processarMensagem agora mensagem sender w)) = bd w /\
   estados (snd (processarMensagem agora mensagem sender w)) !! sender
   = Some (com_ultimoContato agora s)).
Proof.
  intros Hs Hm Hc Hl He Ha Hd resposta w0.
  assert (R : resposta <> "sair" ->
              processarMensagem agora mensagem sender w
              = processarEtapa agora EConfirmarPresenca (com_ultimoContato agora s)
                               mensagem resposta sender
                               (registrarContato agora sender w)).
  { intros Hn. unfold processarMensagem. rewrite Hs. cbn [negb].
    change (acabouDeAgendar agora sender (registrarContato agora sender w))
      with (acabouDeAgendar agora sender w). rewrite Hm.
    unfold rotear.
    change (conversasChocolate (registrarContato agora sender w))
      with (conversasChocolate w).
    rewrite Hc, (lookup_registrarContato agora sender w s Hl).
    change (default (mkEstado agora None None None None) (Some (com_ultimoContato agora s)))
      with (com_ultimoContato agora s).
    change (etapa (com_ultimoContato agora s)) with (etapa s). rewrite He.
    fold resposta.
    destruct (String.eqb_spec resposta "sair") as [E|_]; [contradiction|].
    cbn [andb]. rewrite bool_decide_eq_true_2 by eauto. cbn [negb andb].
    unfold pertence in Hd. cbn [List.existsb] in Hd.
    repeat (apply orb_false_iff in Hd; destruct Hd as [?H Hd]).
    repeat match goal with
           | H : String.eqb mensagem ?d = false |- _ => rewrite H; clear H
           end.
    reflexivity. }
  split; [|split].
  - intros E. rewrite R by (rewrite E; discriminate).
    cbn [processarEtapa]. rewrite E. cbn [String.eqb Ascii.eqb Bool.eqb andb].
    rewrite apagarEstado_registrarContato. reflexivity.
  - intros E. rewrite R by (rewrite E; discriminate).
    cbn [processarEtapa]. rewrite E.
    change (est_agendamento (com_ultimoContato agora s)) with (est_agendamento s).
    rewrite Ha, apagarEstado_registrarContato.
    destruct (String.eqb_spec "não" "sim") as [X|_]; [discriminate X|].
    rewrite String.eqb_refl. reflexivity.
  - intros N1 N2 N3. rewrite (R N3). cbn [processarEtapa].
    destruct (String.eqb_spec resposta "sim") as [X|_]; [contradiction|].
    destruct (String.eqb_spec resposta "não") as [X|_]; [contradiction|].
    cbn [fst snd]. split; [reflexivity|]. split; [reflexivity|].
    apply (lookup_registrarContato agora sender w s Hl).
Qed.

Lemma In_apagar_fica (p : Agendamento -> bool) l a :
  p a = false -> In a l -> In a (apagar p l).
Proof.
  intros Hp. unfold apagar. destruct versao.
  - intros H. apply List.filter_In. split; [exact H|]. rewrite Hp. reflexivity.
  - induction l as [|b l IH]; cbn; [auto|].
    intros [<-|H]; [rewrite Hp; left; reflexivity|].
    destruct (p b); [exact H|right; apply IH, H].
Qed.

(** X13. The cancellation by menu reaches today only.  At the step
    opened by option 2 no message, whatever its text, removes an
    appointment whose date is not today's UTC date. *)
Theorem cancelamento_pelo_menu_so_de_hoje agora mensagem sender w a :
  etapaDe sender (estados w) = Some ECancelarNomeHora ->
  In a (agendamentos (bd w)) -> ag_data a <> dataUTC agora ->
  In a (agendamentos (bd (snd (processarMensagem agora mensagem sender w)))).
Proof.
  intros He Hin Hd. unfold processarMensagem.
  destruct (negb (endsWith sender "@c.us")); [exact Hin|].
  destruct (acabouDeAgendar _ _ _); [exact Hin|].
  pose proof (etapaDe_registrarContato agora sender w sender) as Hr.
  rewrite He in Hr. unfold etapaDe in Hr.
  change (bd w) with (bd (registrarContato agora sender w)) in Hin.
  revert Hr Hin. generalize (registrarContato agora sender w). clear He. intros w1 Hr Hin.
  unfold rotear.
  destruct (conversasChocolate w1 !! sender) as [c|].
  { unfold processarMensagemChocolate.
    destruct (conversasChocolate w1 !! sender) as [c'|]; [|exact Hin].
    destruct (negb (ativo c')); [exact Hin|].
    destruct (String.eqb _ "sair"); exact Hin. }
  destruct (estados w1 !! sender) as [s|]; [|discriminate Hr]. cbn in Hr.
  change (default (mkEstado agora None None None None) (Some s)) with s.
  rewrite Hr.
  destruct (String.eqb _ "sair" && _); [exact Hin|].
  destruct (negb _ && _ && _ && _ && _); [exact Hin|].
  destruct (String.eqb mensagem "1"); [exact Hin|].
  destruct (String.eqb mensagem "2"); [exact Hin|].
  destruct (String.eqb mensagem "3"); [exact Hin|].
  destruct (String.eqb mensagem "4"); [exact Hin|].
  destruct (String.eqb mensagem "5"); [exact Hin|].
  destruct (String.eqb mensagem "6"); [exact Hin|].
  destruct (String.eqb mensagem "7"); [exact Hin|].
  cbn [processarEtapa].
  destruct (2 <=? _)%nat; [|exact Hin].
  destruct (negb (validarHorario _)); [exact Hin|].
  unfold cancelarServico. destruct (List.find _ _); [|exact Hin].
  cbn [snd notificarAdmin sendMessage bd com_bd agendamentos com_agendamentos].
  apply In_apagar_fica; [|exact Hin].
  unfold doCliente. destruct (String.eqb_spec (ag_data a) (dataUTC agora)) as [X|_];
    [contradiction|]. rewrite andb_false_r. reflexivity.
Qed.

(** ** Dates as texts *)

Lemma mod10 x : 0 <= x mod 10 <= 9.
Proof. sem_variaveis. pose proof (Z.mod_pos_bound x 10 ltac:(lia)). lia. Qed.

Lemma lerN_digito n acc k r :
  0 <= k <= 9 -> lerN (S n) acc (digito k :: r) = lerN n (10 * acc + k) r.
Proof.
  intros H. cbn [lerN]. rewrite ehDigito_digito by exact H.
  unfold valorDigito. rewrite codigo_digito by exact H.
  replace (48 + k - 48) with k by lia. reflexivity.
Qed.

Lemma quatro_digitos y :
  0 <= y <= 9999 ->
  10 * (10 * (10 * (10 * 0 + y / 1000 mod 10) + y / 100 mod 10) + y / 10 mod 10) + y mod 10
  = y.
Proof. sem_variaveis. intros H. Z.div_mod_to_equations; lia. Qed.

Lemma dois_digitos n : 0 <= n <= 99 -> 10 * (10 * 0 + n / 10 mod 10) + n mod 10 = n.
Proof. sem_variaveis. intros H. Z.div_mod_to_equations; lia. Qed.

Lemma lerN_zero acc r : lerN 0 acc r = Some (acc, r).
Proof. reflexivity. Qed.

(** [new Date("YYYY-MM-DD")]. *)
Lemma Date_parse_data y m dd :
  0 <= y <= 9999 -> 1 <= m <= 12 -> 1 <= dd <= 31 ->
  Date_parse (dec4 y ++ "-" ++ dec2 m ++ "-" ++ dec2 dd)
  = TimeClip (MakeDate (MakeDay y (m - 1) dd) 0).
Proof.
  intros Hy Hm Hd. unfold Date_parse, dec4, dec3, dec2.
  cbv [String.append list_ascii_of_string].
  repeat (first [ rewrite lerN_digito by first [apply mod10 | lia]
                 | rewrite lerN_zero
                 | progress change (lerSep 45 ("-"%char :: ?r)) with (Some r)
                 | progress change (lerSep 84 ("T"%char :: ?r)) with (Some r)
                 | progress change (lerSep 58 (":"%char :: ?r)) with (Some r) ];
          cbv iota beta).
  rewrite (quatro_digitos y Hy), (dois_digitos m), (dois_digitos dd) by lia.
  destruct (Z.leb_spec 1 m); [|lia]. destruct (Z.leb_spec m 12); [|lia].
  destruct (Z.leb_spec 1 dd); [|lia]. destruct (Z.leb_spec dd 31); [|lia].
  reflexivity.
Qed.

(** [new Date("YYYY-MM-DDTHH:00:00")]. *)
Lemma Date_parse_data_hora y m dd hh :
  0 <= y <= 9999 -> 1 <= m <= 12 -> 1 <= dd <= 31 -> 0 <= hh <= 23 ->
  Date_parse ((dec4 y ++ "-" ++ dec2 m ++ "-" ++ dec2 dd) ++ "T" ++ dec2 hh ++ ":00:00")
  = TimeClip (UTC (MakeDate (MakeDay y (m - 1) dd) (MakeTime hh 0 0 0))).
Proof.
  intros Hy Hm Hd Hh. unfold Date_parse, dec4, dec3, dec2.
  cbv [String.append list_ascii_of_string].
  change "0"%char with (digito 0).
  repeat (first [ rewrite lerN_digito by first [apply mod10 | lia]
                 | rewrite lerN_zero
                 | progress change (lerSep 45 ("-"%char :: ?r)) with (Some r)
                 | progress change (lerSep 84 ("T"%char :: ?r)) with (Some r)
                 | progress change (lerSep 58 (":"%char :: ?r)) with (Some r) ];
          cbv iota beta).
  rewrite (quatro_digitos y Hy), (dois_digitos m), (dois_digitos dd) by lia.
  destruct (Z.leb_spec 1 m); [|lia]. destruct (Z.leb_spec m 12); [|lia].
  destruct (Z.leb_spec 1 dd); [|lia]. destruct (Z.leb_spec dd 31); [|lia].
  cbn [andb]. cbv iota.
  repeat (first [ rewrite lerN_digito by first [apply mod10 | lia]
                 | rewrite lerN_zero
                 | progress change (lerSep 45 ("-"%char :: ?r)) with (Some r)
                 | progress change (lerSep 84 ("T"%char :: ?r)) with (Some r)
                 | progress change (lerSep 58 (":"%char :: ?r)) with (Some r) ];
          cbv iota beta).
  rewrite (dois_digitos hh) by lia.
  destruct (Z.leb_spec hh 23); [|lia]. reflexivity.
Qed.

Lemma dataISO_do_dia t : dataISO t = dataDoDia (Day t).
Proof. unfold dataDoDia, dataISO. rewrite Day_dia. reflexivity. Qed.

Lemma dia_4digitos d :
  DayFromYear 0 <= d < DayFromYear 10000 ->
  Z.abs (d * msPerDay) <= 8640000000000000 - 2 * msPerDay.
Proof.
  sem_variaveis. intros H.
  change (DayFromYear 0) with (-719528) in H.
  change (DayFromYear 10000) with 2932897 in H. unfold msPerDay. lia.
Qed.

Lemma Date_parse_dataDoDia d :
  DayFromYear 0 <= d < DayFromYear 10000 ->
  Date_parse (dataDoDia d) = Some (d * msPerDay).
Proof.
  intros H. rewrite (dataDoDia_formato d H).
  pose proof (YearFromDay_4digitos d H). pose proof (MonthFromDay_range d).
  pose proof (DateFromDay_range d). pose proof (dia_4digitos d H) as Hb.
  rewrite Date_parse_data by lia.
  replace (MonthFromDay d + 1 - 1) with (MonthFromDay d) by lia.
  rewrite MakeDay_civil. unfold MakeDate, TimeClip. rewrite Z.add_0_r.
  destruct (Z.leb_spec (Z.abs (d * msPerDay)) 8640000000000000); [reflexivity|].
  unfold msPerDay in *. lia.
Qed.

(** X14. The date text of an instant reads back as the UTC midnight of
    its day: [new Date(d.toISOString().split('T')[0])] is the start of
    the UTC day of [d], for every instant of the years 0 to 9999. *)
Theorem Date_parse_dataUTC t :
  DayFromYear 0 <= Day t < DayFromYear 10000 ->
  Date_parse (dataUTC t) = Some (Day t * msPerDay).
Proof.
  intros H. rewrite dataUTC_dataISO, dataISO_do_dia. apply Date_parse_dataDoDia, H.
Qed.

(** X15. The weekday the program derives from a date text with
    [new Date(data).getDay()] is the date's own only on a host at or east
    of UTC; on a host west of UTC it is the weekday of the day before, so
    that there the Saturday hours fall on the Sunday. *)
Theorem diaSemana_da_data d :
  DayFromYear 0 <= d < DayFromYear 10000 ->
  (0 <= LocalTZA < msPerDay ->
   getDay (Date_parse (dataDoDia d)) = Some (WeekDay (d * msPerDay))) /\
  (- msPerDay <= LocalTZA < 0 ->
   getDay (Date_parse (dataDoDia d)) = Some (WeekDay ((d - 1) * msPerDay)) /\
   (expediente (getDay (Date_parse (dataDoDia d))) = (10, 16) <-> (d + 4) mod 7 = 0)).
Proof.
  sem_variaveis.
  intros H. rewrite (Date_parse_dataDoDia d H). cbn [getDay option_map].
  unfold WeekDay, LocalTime. rewrite !Day_dia.
  split; intros Htz.
  - f_equal. f_equal. f_equal. unfold Day, msPerDay in *.
    clear H. Z.div_mod_to_equations; lia.
  - assert (E : Day (d * msPerDay + LocalTZA) = d - 1).
    { unfold Day, msPerDay in *. clear H. Z.div_mod_to_equations; lia. }
    rewrite E. split; [reflexivity|].
    assert (R : 0 <= (d - 1 + 4) mod 7 < 7) by (apply Z.mod_pos_bound; lia).
    assert (K : (d - 1 + 4) mod 7 = 6 <-> (d + 4) mod 7 = 0).
    { clear H E Htz. Z.div_mod_to_equations; lia. }
    destruct K as [K1 K2]. split.
    + intros X. apply K1. revert X R. generalize ((d - 1 + 4) mod 7). intros z.
      unfold expediente.
      destruct z as [|p|p]; try discriminate.
      destruct p as [p|p|]; try discriminate.
      destruct p as [p|p|]; try discriminate.
      destruct p as [p|p|]; try discriminate. reflexivity.
    + intros X. rewrite (K2 X). reflexivity.
Qed.

(** X16. [validarHorario] accepts exactly the 1440 texts HH:MM with the
    hour from 00 to 23 and the minute from 00 to 59, both on two digits. *)
Theorem validarHorario_sse hora :
  validarHorario hora = true <->
  exists h m, 0 <= h < 24 /\ 0 <= m < 60 /\ hora = horaTexto h m.
Proof.
  split.
  - apply validarHorario_horaTexto.
  - intros (h & m & Hh & Hm & ->). destruct (horaTexto_valida h m Hh Hm) as [V _].
    exact V.
Qed.

(** ** The slots of a day *)

Lemma horaLocal_meia d j :
  0 <= j < 48 ->
  horaLocal (d * msPerDay + j * (30 * msPerMinute) - LocalTZA)
  = horaTexto (j / 2) (30 * (j mod 2)).
Proof.
  intros Hj. unfold horaLocal, horaTexto, LocalTime.
  replace (d * msPerDay + j * (30 * msPerMinute) - LocalTZA + LocalTZA)
    with (d * msPerDay + j * (30 * msPerMinute)) by ring.
  assert (Hh : HourFromTime (d * msPerDay + j * (30 * msPerMinute)) = j / 2).
  { unfold HourFromTime, msPerDay, msPerHour, msPerMinute.
    replace (d * 86400000 + j * (30 * 60000))
      with ((j mod 2) * 1800000 + (24 * d + j / 2) * 3600000)
      by (clear; Z.div_mod_to_equations; lia).
    rewrite Z.div_add by discriminate.
    rewrite (Z.div_small (j mod 2 * 1800000)) by (clear; Z.div_mod_to_equations; lia).
    rewrite Z.add_0_l, Z.add_comm, Z.mul_comm, Z.mod_add by discriminate.
    apply Z.mod_small. clear - Hj. Z.div_mod_to_equations; lia. }
  assert (Hm : MinFromTime (d * msPerDay + j * (30 * msPerMinute)) = 30 * (j mod 2)).
  { unfold MinFromTime, msPerDay, msPerMinute.
    replace (d * 86400000 + j * (30 * 60000))
      with (0 + (1440 * d + 30 * j) * 60000) by ring.
    rewrite Z.div_add by discriminate. rewrite Z.add_0_l.
    replace (1440 * d + 30 * j) with (30 * (j mod 2) + (24 * d + j / 2) * 60)
      by (clear; Z.div_mod_to_equations; lia).
    rewrite Z.mod_add by discriminate.
    apply Z.mod_small. clear. Z.div_mod_to_equations; lia. }
  rewrite Hh, Hm. reflexivity.
Qed.

Lemma horasLoop_grade d n j :
  (j + n <= 48)%nat ->
  horasLoop n (d * msPerDay + Z.of_nat j * (30 * msPerMinute) - LocalTZA)
            (d * msPerDay + Z.of_nat (j + n) * (30 * msPerMinute) - LocalTZA)
  = List.map (fun i => horaTexto (Z.of_nat i / 2) (30 * (Z.of_nat i mod 2)))
             (List.seq j n).
Proof.
  revert j. induction n as [|n IH]; intros j Hj; [reflexivity|].
  cbn [horasLoop List.seq List.map].
  destruct (Z.ltb_spec (d * msPerDay + Z.of_nat j * (30 * msPerMinute) - LocalTZA)
                       (d * msPerDay + Z.of_nat (j + S n) * (30 * msPerMinute) - LocalTZA))
    as [_|Hge]; [|unfold msPerMinute in Hge; lia].
  rewrite horaLocal_meia by lia. f_equal.
  replace (d * msPerDay + Z.of_nat j * (30 * msPerMinute) - LocalTZA + 30 * msPerMinute)
    with (d * msPerDay + Z.of_nat (S j) * (30 * msPerMinute) - LocalTZA) by lia.
  replace (j + S n)%nat with (S j + n)%nat by lia. apply IH. lia.
Qed.

Lemma voltas_grade d n j :
  voltas (d * msPerDay + Z.of_nat j * (30 * msPerMinute) - LocalTZA)
         (d * msPerDay + Z.of_nat (j + n) * (30 * msPerMinute) - LocalTZA) = n.
Proof.
  unfold voltas.
  replace (d * msPerDay + Z.of_nat (j + n) * (30 * msPerMinute) - LocalTZA
           - (d * msPerDay + Z.of_nat j * (30 * msPerMinute) - LocalTZA)
           + 30 * msPerMinute - 1)
    with (Z.of_nat n * (30 * msPerMinute) + (30 * msPerMinute - 1)) by lia.
  rewrite Z.div_add_l by discriminate.
  rewrite (Z.div_small (30 * msPerMinute - 1)) by (unfold msPerMinute; lia).
  rewrite Z.add_0_r. apply Nat2Z.id.
Qed.

Lemma expediente_casos x : expediente x = (10, 16) \/ expediente x = (9, 20).
Proof.
  unfold expediente. destruct x as [z|]; [|right; reflexivity].
  destruct z as [|p|p]; try (right; reflexivity).
  destruct p as [p|p|]; try (right; reflexivity).
  destruct p as [p|p|]; try (right; reflexivity).
  destruct p as [p|p|]; try (right; reflexivity). left. reflexivity.
Qed.

Lemma Date_parse_abertura d hh :
  DayFromYear 0 <= d < DayFromYear 10000 -> - msPerDay <= LocalTZA <= msPerDay ->
  0 <= hh <= 23 ->
  Date_parse (dataDoDia d ++ "T" ++ dec2 hh ++ ":00:00")
  = Some (d * msPerDay + Z.of_nat (Z.to_nat (2 * hh)) * (30 * msPerMinute) - LocalTZA).
Proof.
  intros H Htz Hh. rewrite (dataDoDia_formato d H).
  pose proof (YearFromDay_4digitos d H). pose proof (MonthFromDay_range d).
  pose proof (DateFromDay_range d). pose proof (dia_4digitos d H) as Hb.
  rewrite Date_parse_data_hora by lia.
  replace (MonthFromDay d + 1 - 1) with (MonthFromDay d) by lia.
  rewrite MakeDay_civil. unfold MakeDate, MakeTime, UTC, TimeClip.
  rewrite Z2Nat.id by lia.
  replace (d * msPerDay + (hh * msPerHour + 0 * msPerMinute + 0 * 1000 + 0) - LocalTZA)
    with (d * msPerDay + 2 * hh * (30 * msPerMinute) - LocalTZA)
    by (unfold msPerHour, msPerMinute; ring).
  destruct (Z.leb_spec (Z.abs (d * msPerDay + 2 * hh * (30 * msPerMinute) - LocalTZA))
                       8640000000000000); [reflexivity|].
  unfold msPerDay, msPerMinute in *. lia.
Qed.

(** X17. What the listing of a day shows.  For a date of the years 0 to
    9999 the listing has one line per half hour from the opening hour to
    the last half hour before the closing hour (10:00 to 15:30 when the
    weekday derived from the date is 6, else 09:00 to 19:30), in local
    time whatever the zone of the host, each line giving the status of its
    slot among the appointments of that date; the menu follows. *)
Theorem listarAgendamentosDia_grade agora sender data b d :
  DayFromYear 0 <= d < DayFromYear 10000 -> - msPerDay <= LocalTZA <= msPerDay ->
  ouHoje agora data = dataDoDia d ->
  listarAgendamentosDia agora sender data b
  = join nl (List.map (linhaHorario sender
                         (List.filter (doDia (dataDoDia d)) (agendamentos b)))
                      (grade (fst (expediente (getDay (Date_parse (dataDoDia d)))))
                             (snd (expediente (getDay (Date_parse (dataDoDia d)))))))
    ++ nl ++ nl ++ mostrarMenu.
Proof.
  intros H Htz Hd. rewrite listarAgendamentosDia_linhas, Hd. do 3 f_equal.
  unfold horasDoDia. rewrite Hd.
  destruct (expediente_casos (getDay (Date_parse (dataDoDia d)))) as [E|E]; rewrite E;
    cbn [fst snd].
  - change (padStart2 (toString 10)) with (dec2 10).
    change (padStart2 (toString 16)) with (dec2 16).
    rewrite !Date_parse_abertura by (try assumption; lia).
    change (Z.to_nat (2 * 16)) with (Z.to_nat (2 * 10) + Z.to_nat (2 * (16 - 10)))%nat.
    rewrite voltas_grade. apply horasLoop_grade.
    apply Nat.leb_le. vm_compute. reflexivity.
  - change (padStart2 (toString 9)) with (dec2 9).
    change (padStart2 (toString 20)) with (dec2 20).
    rewrite !Date_parse_abertura by (try assumption; lia).
    change (Z.to_nat (2 * 20)) with (Z.to_nat (2 * 9) + Z.to_nat (2 * (20 - 9)))%nat.
    rewrite voltas_grade. apply horasLoop_grade.
    apply Nat.leb_le. vm_compute. reflexivity.
Qed.

(** ** The booking flow, step by step *)

Lemma validarHorario_nao_e_opcao hora :
  validarHorario hora = true ->
  pertence hora ["1"; "2"; "3"; "4"; "5"; "6"; "7"] = false.
Proof.
  intros H. destruct (validarHorario_horaTexto hora H) as (h & m & _ & _ & ->).
  unfold horaTexto, dec2. cbv [String.append pertence List.existsb String.eqb].
  repeat match goal with |- context [if ?b then false else false] => destruct b end;
    reflexivity.
Qed.

Lemma rotear_na_etapa agora mensagem sender w s e :
  conversasChocolate w !! sender = None ->
  estados w !! sender = Some s -> etapa s = Some e ->
  pertence mensagem ["1"; "2"; "3"; "4"; "5"; "6"; "7"] = false ->
  trim (toLowerCase mensagem) <> "sair" ->
  rotear agora mensagem sender w
  = processarEtapa agora e s mensagem (trim (toLowerCase mensagem)) sender w.
Proof.
  intros Hc Hl He Hd Hn. unfold rotear. rewrite Hc, Hl.
  change (default (mkEstado agora None None None None) (Some s)) with s.
  rewrite He.
  destruct (String.eqb_spec (trim (toLowerCase mensagem)) "sair") as [E|_];
    [contradiction|].
  cbn [andb]. rewrite bool_decide_eq_true_2 by eauto. cbn [negb andb].
  unfold pertence in Hd. cbn [List.existsb] in Hd.
  repeat (apply orb_false_iff in Hd; destruct Hd as [?H Hd]).
  repeat match goal with
         | H : String.eqb mensagem ?d = false |- _ => rewrite H; clear H
         end.
  reflexivity.
Qed.

(** X18. From the time to the booking.  At the step "horario" with a
    date stored, a well-formed time is stored and the name is asked for;
    the next message, unless it is a menu digit or "sair", is taken
    verbatim as the name and [agendarServico] is called with it, the
    stored date and the stored time, the requester's state having been
    deleted first. *)
Theorem fluxo_horario_nome t1 t2 hora nome sender w s data :
  endsWith sender "@c.us" = true ->
  ultimoAgendamento w = None ->
  conversasChocolate w !! sender = None ->
  estados w !! sender = Some s ->
  etapa s = Some EHorario -> est_data s = Some data ->
  validarHorario hora = true -> trim (toLowerCase hora) <> "sair" ->
  pertence nome ["1"; "2"; "3"; "4"; "5"; "6"; "7"] = false ->
  trim (toLowerCase nome) <> "sair" ->
  let r1 := processarMensagem t1 hora sender w in
  fst r1 = Some "Digite seu nome ou 'sair' para voltar ao menu:" /\
  processarMensagem t2 nome sender (snd r1)
  = agendarServico t2 nome data hora sender (com_estados w (delete sender (estados w))).
Proof.
  intros Hs Hu Hc Hl He Hd Hv Hn1 Hp Hn2 r1.
  assert (E1 : r1 = (Some "Digite seu nome ou 'sair' para voltar ao menu:",
                     com_estados (registrarContato t1 sender w)
                       (alter (fun s => com_etapa (Some ENome) (com_hora hora s)) sender
                              (estados (registrarContato t1 sender w))))).
  { subst r1. unfold processarMensagem. rewrite Hs. cbn [negb].
    unfold acabouDeAgendar.
    change (ultimoAgendamento (registrarContato t1 sender w)) with (ultimoAgendamento w).
    rewrite Hu.
    rewrite (rotear_na_etapa t1 hora sender (registrarContato t1 sender w)
               (com_ultimoContato t1 s) EHorario Hc
               (lookup_registrarContato t1 sender w s Hl) He
               (validarHorario_nao_e_opcao hora Hv) Hn1).
    cbn [processarEtapa]. rewrite Hv. reflexivity. }
  rewrite E1. cbn [fst snd]. split; [reflexivity|].
  set (w1 := com_estados (registrarContato t1 sender w) _).
  assert (Hl1 : estados w1 !! sender
                = Some (com_etapa (Some ENome) (com_hora hora (com_ultimoContato t1 s)))).
  { subst w1. cbn [estados com_estados]. rewrite lookup_alter_eq.
    rewrite (lookup_registrarContato t1 sender w s Hl). reflexivity. }
  unfold processarMensagem. rewrite Hs. cbn [negb].
  unfold acabouDeAgendar.
  change (ultimoAgendamento (registrarContato t2 sender w1)) with (ultimoAgendamento w).
  rewrite Hu.
  rewrite (rotear_na_etapa t2 nome sender (registrarContato t2 sender w1)
             (com_ultimoContato t2 (com_etapa (Some ENome)
                                      (com_hora hora (com_ultimoContato t1 s))))
             ENome Hc (lookup_registrarContato t2 sender w1 _ Hl1) eq_refl Hp Hn2).
  cbn [processarEtapa est_data est_hora com_ultimoContato com_etapa com_hora].
  rewrite Hd, apagarEstado_registrarContato. f_equal.
  subst w1. unfold com_estados. cbn [bd conversasChocolate ultimoAgendamento enviadas estados
                                      registrarContato].
  f_equal. rewrite delete_alter_eq. apply delete_registrarContato.
Qed.

(** ** Ratings that arrive by chat *)

Lemma feedbacks_agendarServico agora nome data hora sender w :
  feedbacks (bd (snd (agendarServico agora nome data hora sender w))) = feedbacks (bd w).
Proof.
  unfold agendarServico.
  destruct (verificarHorario agora data hora); [reflexivity|].
  destruct (3 <=? _)%nat; [reflexivity|].
  destruct (List.find _ _); reflexivity.
Qed.

Lemma feedbacks_cancelarServico agora nome data hora w :
  feedbacks (bd (snd (cancelarServico agora nome data hora w))) = feedbacks (bd w).
Proof. unfold cancelarServico. destruct (List.find _ _); reflexivity. Qed.

Lemma feedbacks_processarEtapa agora e estado mensagem mensagemLower sender w :
  feedbacks (bd (snd (processarEtapa agora e estado mensagem mensagemLower sender w)))
  = feedbacks (bd w).
Proof.
  destruct e; cbn [processarEtapa].
  - rewrite etapaData_bd. reflexivity.
  - destruct (negb (validarHorario mensagem)); reflexivity.
  - destruct (est_data estado), (est_hora estado); try reflexivity.
    apply (feedbacks_agendarServico agora mensagem s s0 sender (apagarEstado sender w)).
  - destruct (2 <=? _)%nat; [|reflexivity].
    destruct (negb (validarHorario _)); [reflexivity|].
    apply (feedbacks_cancelarServico agora _ _ _ (apagarEstado sender w)).
  - destruct (String.eqb mensagemLower "sim"); [reflexivity|].
    destruct (String.eqb mensagemLower "não"); [|reflexivity].
    destruct (est_agendamento estado) as [[[nome data] hora]|]; [|reflexivity].
    apply (feedbacks_cancelarServico agora _ _ _ (apagarEstado sender w)).
Qed.

Lemma coletarFeedback_de_inteiro agora nome comentario o w f :
  In f (feedbacks (bd (snd (coletarFeedback agora nome comentario (number_of_int o) w)))) ->
  In f (feedbacks (bd w)) \/ notaInteira f.
Proof.
  unfold coletarFeedback. destruct o as [z|]; cbn [number_of_int].
  - destruct (negb _ || numLt (Num (inject_Z z)) 1 || numGt (Num (inject_Z z)) 5) eqn:E;
      [left; assumption|].
    cbn. intros Hin. apply List.in_app_or in Hin. destruct Hin as [Hin|[<-|[]]];
      [left; exact Hin|right].
    apply orb_false_iff in E. destruct E as [E E5].
    apply orb_false_iff in E. destruct E as [_ E1].
    unfold numLt in E1. unfold numGt in E5.
    apply negb_false_iff, Qle_bool_iff in E1, E5.
    rewrite <- Zle_Qle in E1, E5.
    exists z. split; [lia|reflexivity].
  - cbn. left. assumption.
Qed.

Lemma comandosEspeciais_feedbacks agora mensagem mensagemLower sender w f :
  In f (feedbacks (bd (snd (comandosEspeciais agora mensagem mensagemLower sender w)))) ->
  In f (feedbacks (bd w)) \/ notaInteira f.
Proof.
  unfold comandosEspeciais.
  destruct (startsWith mensagemLower "triagem").
  { destruct (3 <=? _)%nat; left; assumption. }
  destruct (startsWith mensagemLower "feedback").
  { destruct (4 <=? _)%nat; [|left; assumption]. apply coletarFeedback_de_inteiro. }
  destruct (String.eqb mensagemLower "relatorio"); left; assumption.
Qed.

(** X19. Ratings that arrive by chat are whole numbers.  The last word
    of a "feedback" message goes through [parseInt] before
    [coletarFeedback] sees it, so every feedback a message adds to the
    store carries an integer rating from 1 to 5. *)
Theorem processarMensagem_feedback_inteiro agora mensagem sender w f :
  In f (feedbacks (bd (snd (processarMensagem agora mensagem sender w)))) ->
  In f (feedbacks (bd w)) \/ notaInteira f.
Proof.
  unfold processarMensagem.
  destruct (negb (endsWith sender "@c.us")); [left; assumption|].
  destruct (acabouDeAgendar _ _ _); [left; assumption|].
  change (feedbacks (bd w)) with (feedbacks (bd (registrarContato agora sender w))).
  generalize (registrarContato agora sender w). intros w1.
  unfold rotear.
  destruct (conversasChocolate w1 !! sender) as [c|].
  { unfold processarMensagemChocolate.
    destruct (conversasChocolate w1 !! sender) as [c'|]; [|left; assumption].
    destruct (negb (ativo c')); [left; assumption|].
    destruct (String.eqb _ "sair"); left; assumption. }
  destruct (String.eqb _ "sair" && _); [left; assumption|].
  destruct (negb _ && _ && _ && _ && _); [left; assumption|].
  destruct (String.eqb mensagem "1"); [left; assumption|].
  destruct (String.eqb mensagem "2"); [left; assumption|].
  destruct (String.eqb mensagem "3"); [left; assumption|].
  destruct (String.eqb mensagem "4"); [left; assumption|].
  destruct (String.eqb mensagem "5"); [left; assumption|].
  destruct (String.eqb mensagem "6"); [left; assumption|].
  destruct (String.eqb mensagem "7"); [left; assumption|].
  destruct (etapa _) as [e|].
  - rewrite feedbacks_processarEtapa. left. assumption.
  - apply comandosEspeciais_feedbacks.
Qed.

(** ** The style triage through the chat *)

Lemma includes_char a r c :
  includes (String a r) (String c EmptyString)
  = Ascii.eqb c a || includes r (String c EmptyString).
Proof.
  cbn [includes String.prefix]. f_equal.
  destruct (ascii_dec c a) as [->|Hne].
  - rewrite Ascii.eqb_refl. destruct r; reflexivity.
  - symmetry. apply Ascii.eqb_neq. exact Hne.
Qed.

Lemma split_sem_sep sep s x :
  In x (split sep s) -> includes x (String sep EmptyString) = false.
Proof.
  revert x. induction s as [|c r IH]; intros x; cbn [split].
  - intros [<-|[]]. reflexivity.
  - destruct (Ascii.eqb c sep) eqn:E.
    + intros [<-|H]; [reflexivity|apply IH, H].
    + destruct (split sep r) as [|h t].
      * intros [<-|[]]. rewrite includes_char, Ascii.eqb_sym, E. reflexivity.
      * intros [<-|H]; [|apply IH; right; exact H].
        rewrite includes_char, Ascii.eqb_sym, E. apply IH. left. reflexivity.
Qed.

Lemma prefix_tem c k1 k2 s :
  String.prefix (k1 ++ String c k2) s = true ->
  includes s (String c EmptyString) = true.
Proof.
  revert s. induction k1 as [|a k1 IH]; intros s.
  - change (EmptyString ++ String c k2) with (String c k2).
    destruct s as [|b s]; cbn [String.prefix]; [discriminate|].
    destruct (ascii_dec c b) as [->|_]; [|discriminate]. intros _.
    rewrite includes_char, Ascii.eqb_refl. reflexivity.
  - change (String a k1 ++ String c k2) with (String a (k1 ++ String c k2)).
    destruct s as [|b s]; cbn [String.prefix]; [discriminate|].
    destruct (ascii_dec a b) as [_|_]; [|discriminate]. intros H.
    rewrite includes_char, (IH s H). apply orb_true_r.
Qed.

Lemma includes_tem c k1 k2 s :
  includes s (k1 ++ String c k2) = true -> includes s (String c EmptyString) = true.
Proof.
  induction s as [|b s IH]; cbn [includes].
  - rewrite orb_false_r. apply prefix_tem.
  - intros H. apply orb_true_iff in H. destruct H as [H|H].
    + apply (prefix_tem c k1 k2 (String b s) H).
    + change (includes (String b s) (String c EmptyString) = true).
      rewrite includes_char, (IH H). apply orb_true_r.
Qed.

Lemma sem_espaco_sem_chave e k1 k2 :
  includes e " " = false -> includes e (k1 ++ String " " k2) = false.
Proof.
  intros H. destruct (includes e (k1 ++ String " " k2)) eqn:E; [|reflexivity].
  rewrite (includes_tem " " k1 k2 e E) in H. discriminate H.
Qed.

(** X20. The triage command reaches one style only.  The style handed
    to [triagemEstilo] is the second word of the message, and four of the
    five keys of [ESTILOS] contain a space; so, lower-casing putting no
    space into a word, a well-formed "triagem" message gets the "degrade"
    suggestion when its second word contains "degrade" and the
    "not identified" reply otherwise, whatever else it says. *)
Theorem triagem_pelo_chat agora mensagem mensagemLower sender w :
  (forall s, includes s " " = false -> includes (toLowerCase s) " " = false) ->
  startsWith mensagemLower "triagem" = true ->
  (3 <=? List.length (split " " mensagem))%nat = true ->
  comandosEspeciais agora mensagem mensagemLower sender w
  = (Some (if includes (toLowerCase (parte (split " " mensagem) 1)) "degrade"
           then sugestaoDegrade else estiloNaoIdentificado), w).
Proof.
  intros Hlow Ht Hn. unfold comandosEspeciais. rewrite Ht, Hn. f_equal. f_equal.
  assert (Hin : In (parte (split " " mensagem) 1) (split " " mensagem)).
  { apply Nat.leb_le in Hn. unfold parte, elemento.
    destruct (split " " mensagem) as [|x0 [|x1 l]]; cbn in Hn |- *; [lia|lia|].
    right. left. reflexivity. }
  pose proof (Hlow _ (split_sem_sep " " mensagem _ Hin)) as He.
  unfold triagemEstilo. generalize dependent (toLowerCase (parte (split " " mensagem) 1)).
  intros e He. unfold ESTILOS. cbn [List.find].
  assert (H1 : includes e "cabelo curto" = false)
    by apply (sem_espaco_sem_chave e "cabelo" "curto" He).
  assert (H2 : includes e "cabelo longo" = false)
    by apply (sem_espaco_sem_chave e "cabelo" "longo" He).
  assert (H3 : includes e "barba cheia" = false)
    by apply (sem_espaco_sem_chave e "barba" "cheia" He).
  assert (H4 : includes e "barba rala" = false)
    by apply (sem_espaco_sem_chave e "barba" "rala" He).
  rewrite H1, H2, H3, H4.
  destruct (includes e "degrade"); reflexivity.
Qed.

(** ** A date the runtime cannot parse *)

(** X21. The two variants part on a date that does not parse.  For a
    well-formed time within the weekday hours and a date that neither
    [new Date(data)] nor [new Date(data + "T" + hora + ":00")] can parse
    (such as 2026-02-32, which the step "data" stores for 32/02/2026):
    the SQLite variant throws at its log line, answers with the error
    "Invalid time value" and the date prompt, stores and sends nothing
    and puts the requester at the step "data"; the MongoDB variant, which
    has no such line, lets the date through the check on the past and,
    the limit and the slot allowing, books the row. *)
Theorem agendarServico_data_que_nao_analisa agora nome data hora sender w h :
  validarHorario hora = true -> horaNumDe hora = Some h -> 9 <= h < 20 ->
  Date_parse data = None -> Date_parse (data ++ "T" ++ hora ++ ":00") = None ->
  (versao = SQLite ->
   agendarServico agora nome data hora sender w
   = (Some ("Erro: " ++ msgDataInvalida ++ ". Tente novamente." ++ nl ++ nl ++ promptData),
      com_estados w
        (alter (com_etapa (Some EData)) sender (getEstado agora sender (estados w))))) /\
  (versao = MongoDB ->
   (List.length (List.filter (doSender sender) (agendamentos (bd w))) < 3)%nat ->
   (forall a, In a (agendamentos (bd w)) -> ~ (ag_data a = data /\ ag_hora a = hora)) ->
   fst (agendarServico agora nome data hora sender w) = None /\
   bd (snd (agendarServico agora nome data hora sender w))
   = com_agendamentos (bd w)
       (agendamentos (bd w) ++ [mkAgendamento nome data hora sender (toISOString agora)])).
Proof.
  intros Hv Hn Hh Hd Hdh.
  assert (Hfora : nanLt (Some h) 9 || nanGe (Some h) 20 = false).
  { apply orb_false_iff. cbn. split; [apply Z.ltb_ge|apply Z.leb_gt]; lia. }
  split.
  - intros Hs. unfold agendarServico, verificarHorario.
    rewrite Hv, Hn, Hd, Hdh, Hs. cbn [negb getDay option_map expediente].
    rewrite Hfora. reflexivity.
  - intros Hs Hlim Hlivre.
    assert (Hok : verificarHorario agora data hora = None).
    { unfold verificarHorario.
      rewrite Hv, Hn, Hd, Hdh, Hs. cbn [negb getDay option_map expediente].
      rewrite Hfora. reflexivity. }
    destruct (agendarServico_passa agora nome data hora sender w Hok Hlim Hlivre)
      as (H1 & H2 & _).
    split; [exact H1|exact H2].
Qed.

End Barbearia.

(** * Worked examples *)

(** The scenario of the specification: "1", a date, a time, a name. *)
Example cenario_agendamento :
  let pm := processarMensagem fusoMaceio toLowerASCII admin MongoDB in
  let r1 := pm instante "1" "b@c.us" mundoVazio in
  let r2 := pm (instante + 1000) "25/12/2025" "b@c.us" (snd r1) in
  let r3 := pm (instante + 2000) "09:00" "b@c.us" (snd r2) in
  let r4 := pm (instante + 3000) "Joao" "b@c.us" (snd r3) in
  fst r4 = None /\
  agendamentos (bd (snd r4))
  = [mkAgendamento "Joao" "2025-12-25" "09:00" "b@c.us" "2025-11-01T21:00:03.123Z"] /\
  estados (snd r4) !! "b@c.us" = None /\
  List.map fst (enviadas (snd r4)) = [admin; "b@c.us"; "b@c.us"].
Proof. vm_compute. repeat split. Qed.

(** C10, on an example: a group identifier. *)
Lemma processarMensagem_remetente_invalido_exemplo :
  endsWith "5582999990000-123@g.us" "@c.us" = false /\
  processarMensagem fusoMaceio toLowerASCII admin MongoDB instante "1"
                    "5582999990000-123@g.us" mundoVazio
  = (None, mundoVazio).
Proof.
  split; [reflexivity|].
  apply (processarMensagem_remetente_invalido fusoMaceio toLowerASCII admin MongoDB).
  reflexivity.
Defined.

(** C5, on an example: no row for "caio" (the stored name is "Caio"), one
    row for "Caio". *)
Lemma cancelarServico_correto_exemplo :
  cancelarServico admin SQLite instante "caio" "2025-12-26" "10:00" mundoOcupado
  = (Some (msgNaoEncontrado ++ nl ++ nl ++ mostrarMenu), mundoOcupado)
  /\
  agendamentos
    (bd (snd (cancelarServico admin SQLite instante "Caio" "2025-12-26" "10:00" mundoOcupado)))
  = [].
Proof.
  pose proof (cancelarServico_correto admin SQLite instante "caio" "2025-12-26" "10:00"
                mundoOcupado) as [Hnao _].
  pose proof (cancelarServico_correto admin SQLite instante "Caio" "2025-12-26" "10:00"
                mundoOcupado) as [_ Hsim].
  split.
  - apply Hnao. intros a [<-|[]] [Hn _]. discriminate Hn.
  - destruct (Hsim _ (or_introl eq_refl) eq_refl eq_refl eq_refl)
      as (l1 & a1 & l2 & Hl & _ & _ & ->).
    destruct l1 as [|x [|y l1]]; [|discriminate Hl|discriminate Hl].
    injection Hl as <- <-. reflexivity.
Defined.

(** C6, on an example: five seconds after the booking of "b@c.us" the
    message "1" of "b@c.us" gets the menu and clears the marker. *)
Lemma marcador_ultimoAgendamento_exemplo :
  endsWith "b@c.us" "@c.us" = true /\
  processarMensagem fusoMaceio toLowerASCII admin MongoDB (instante + 5000) "1" "b@c.us"
                    mundoMarcado
  = (Some mostrarMenu,
     com_ultimoAgendamento (registrarContato (instante + 5000) "b@c.us" mundoMarcado) None).
Proof.
  split; [reflexivity|].
  destruct (marcador_ultimoAgendamento fusoMaceio toLowerASCII admin MongoDB
              (instante + 5000) "1" "b@c.us" mundoMarcado eq_refl) as (_ & H & _ & _).
  apply (H instante); [reflexivity|unfold instante; lia].
Defined.

(** The same message from somebody else is routed: it gets the date prompt. *)
Example marcador_de_outro :
  fst (processarMensagem fusoMaceio toLowerASCII admin MongoDB (instante + 5000) "1"
                         "a@c.us" mundoMarcado)
  = Some promptData.
Proof. vm_compute. reflexivity. Qed.

(** C1 as stated fails when the slot is already taken: both requests are
    turned down and no booking succeeds. *)
Lemma agendarServico_horario_ja_ocupado :
  let r1 := agendarServico fusoMaceio admin MongoDB instante "Ana" "2025-12-26" "10:00"
                           "a@c.us" mundoOcupado in
  let r2 := agendarServico fusoMaceio admin MongoDB (instante + 1000) "Bia" "2025-12-26"
                           "10:00" "b@c.us" (snd r1) in
  "a@c.us" <> "b@c.us" /\
  fst r1 = Some (msgConflito ++ nl ++ nl ++ promptData) /\
  fst r2 = Some (msgConflito ++ nl ++ nl ++ promptData) /\
  ~ exatamenteUmSucesso r1 r2.
Proof.
  assert (E1 : fst (agendarServico fusoMaceio admin MongoDB instante "Ana" "2025-12-26"
                      "10:00" "a@c.us" mundoOcupado)
               = Some (msgConflito ++ nl ++ nl ++ promptData)) by (vm_compute; reflexivity).
  assert (E2 : fst (agendarServico fusoMaceio admin MongoDB (instante + 1000) "Bia"
                      "2025-12-26" "10:00" "b@c.us"
                      (snd (agendarServico fusoMaceio admin MongoDB instante "Ana"
                              "2025-12-26" "10:00" "a@c.us" mundoOcupado)))
               = Some (msgConflito ++ nl ++ nl ++ promptData)) by (vm_compute; reflexivity).
  cbv zeta. split; [discriminate|]. split; [exact E1|]. split; [exact E2|].
  unfold exatamenteUmSucesso. rewrite E1, E2.
  intros [[H _]|[_ H]]; discriminate H.
Qed.

(** C1 as amended, on an example: the slot is free in the empty table. *)
Lemma agendarServico_dois_pedidos_exemplo :
  let r1 := agendarServico fusoMaceio admin MongoDB instante "Ana" "2025-12-26" "10:00"
                           "a@c.us" mundoVazio in
  let r2 := agendarServico fusoMaceio admin MongoDB (instante + 1000) "Bia" "2025-12-26"
                           "10:00" "b@c.us" (snd r1) in
  fst r1 = None /\
  fst r2 = Some (msgConflito ++ nl ++ nl ++ promptData) /\
  etapaDe "b@c.us" (estados (snd r2)) = Some EData /\
  agendamentos (bd (snd r2))
  = (agendamentos (bd mundoVazio)
     ++ [mkAgendamento "Ana" "2025-12-26" "10:00" "a@c.us" (toISOString instante)])%list /\
  List.filter (noHorario "2025-12-26" "10:00") (agendamentos (bd (snd r2)))
  = [mkAgendamento "Ana" "2025-12-26" "10:00" "a@c.us" (toISOString instante)].
Proof.
  apply (agendarServico_dois_pedidos fusoMaceio admin MongoDB instante (instante + 1000)
           "Ana" "Bia" "2025-12-26" "10:00" "a@c.us" "b@c.us" mundoVazio).
  - discriminate.
  - vm_compute. reflexivity.
  - vm_compute. reflexivity.
  - cbn. lia.
  - cbn. lia.
  - intros a [].
Defined.

(** C3, at the failing input: on 2025-11-01 the three rows of "b@c.us"
    are all dated in October, none of them is active, and the request for
    2025-12-26 10:00 is still refused with the limit text. *)
Lemma agendarServico_limite_conta_todos_exemplo :
  List.filter
    (fun a => doSender "b@c.us" a && negb (String.ltb (ag_data a) (dataUTC instante)))
    (agendamentos (bd mundoPassado))
  = [] /\
  agendarServico fusoMaceio admin MongoDB instante "Bia" "2025-12-26" "10:00" "b@c.us"
                 mundoPassado
  = (Some (msgLimite ++ nl ++ nl ++ mostrarMenu), mundoPassado).
Proof.
  split; [vm_compute; reflexivity|].
  apply (agendarServico_limite_conta_todos fusoMaceio admin MongoDB).
  - vm_compute. reflexivity.
  - cbn. lia.
Defined.

(** C4 as stated fails on the prompt: 08:00 on Friday 2025-12-26 is
    refused with the out-of-hours error, but what follows is the date
    prompt, and the step becomes "data", not "horario". *)
Lemma agendarServico_fora_do_expediente_pede_data :
  let r := agendarServico 0 admin MongoDB instante "Joao" "2025-12-26" "08:00" "b@c.us"
                          mundoVazio in
  validarHorario "08:00" = true /\
  getDay 0 (Date_parse 0 "2025-12-26") = Some 5 /\
  fst r = Some ("Erro: Horário fora do expediente (9h às 20h). Tente novamente."
                ++ nl ++ nl ++ promptData) /\
  bd (snd r) = bd mundoVazio /\
  etapaDe "b@c.us" (estados (snd r)) = Some EData /\
  ~ pedeHorario r.
Proof.
  cbv zeta. split; [reflexivity|]. split; [reflexivity|].
  assert (E : fst (agendarServico 0 admin MongoDB instante "Joao" "2025-12-26" "08:00"
                     "b@c.us" mundoVazio)
              = Some ("Erro: Horário fora do expediente (9h às 20h). Tente novamente."
                      ++ nl ++ nl ++ promptData)) by (vm_compute; reflexivity).
  split; [exact E|]. split; [reflexivity|]. split; [vm_compute; reflexivity|].
  intros [e He]. rewrite E in He. injection He as He.
  pose proof (endsWith_append e promptHorario) as Hs. rewrite <- He in Hs.
  vm_compute in Hs. discriminate Hs.
Qed.

(** C4 as amended, on the same example. *)
Lemma agendarServico_fora_do_expediente_exemplo :
  agendarServico 0 admin MongoDB instante "Joao" "2025-12-26" (horaTexto 8 0) "b@c.us"
                 mundoVazio
  = (Some ("Erro: " ++ msgForaDoExpediente 9 20 ++ ". Tente novamente." ++ nl ++ nl
           ++ promptData),
     com_estados mundoVazio
       (alter (com_etapa (Some EData)) "b@c.us"
              (getEstado instante "b@c.us" (estados mundoVazio)))).
Proof.
  apply (agendarServico_fora_do_expediente 0 admin MongoDB instante "Joao" "2025-12-26" 8 0
           "b@c.us" mundoVazio 1766707200000).
  - unfold msPerDay. lia.
  - reflexivity.
  - vm_compute. reflexivity.
  - lia.
  - lia.
  - left. vm_compute. reflexivity.
Defined.

(** West of Greenwich the weekday is taken one day early: in Maceió
    Saturday 2025-12-27 gets the hours of a Friday, and 09:00 is booked. *)
Example agendarServico_sabado_em_Maceio :
  WeekDay 1766793600000 = 6 /\
  Date_parse fusoMaceio "2025-12-27" = Some 1766793600000 /\
  getDay fusoMaceio (Date_parse fusoMaceio "2025-12-27") = Some 5 /\
  fst (agendarServico fusoMaceio admin MongoDB instante "Joao" "2025-12-27" "09:00" "b@c.us"
                      mundoVazio) = None.
Proof. vm_compute. repeat split. Qed.

(** C2, at the failing inputs: 31 February and day 0 are accepted. *)
Lemma validarData_so_verifica_formato_exemplo :
  validarData fusoMaceio "31/02/2025" = true /\
  validarData fusoMaceio "00/01/2025" = true /\
  validarData fusoMaceio "aa/bb/cccc" = false.
Proof.
  assert (Htz : - msPerDay <= fusoMaceio <= msPerDay)
    by (split; apply Z.leb_le; vm_compute; reflexivity).
  rewrite !(validarData_so_verifica_formato fusoMaceio _ Htz).
  repeat split.
Defined.

(** C8, on an example: run on 2025-11-01, the job deletes the row dated
    2025-10-01 (31 days before) and keeps the one dated 2025-10-03 (29 days
    before). *)
Lemma limparAgendamentosAntigos_correto_exemplo :
  dataUTC instante = "2025-11-01" /\
  agendamentos (limparAgendamentosAntigos fusoMaceio instante bdAntigo) = [ag29] /\
  In ag29 (agendamentos (limparAgendamentosAntigos fusoMaceio instante bdAntigo)) /\
  ~ In ag31 (agendamentos (limparAgendamentosAntigos fusoMaceio instante bdAntigo)) /\
  feedbacks (limparAgendamentosAntigos fusoMaceio instante bdAntigo) = feedbacks bdAntigo /\
  cancelamentos (limparAgendamentosAntigos fusoMaceio instante bdAntigo)
  = cancelamentos bdAntigo.
Proof.
  assert (Hi : 0 <= instante < 253402300800000) by (unfold instante; lia).
  destruct (limparAgendamentosAntigos_correto fusoMaceio instante bdAntigo Hi)
    as (Hf & Hc & Ha & Hd).
  split; [vm_compute; reflexivity|].
  split; [rewrite Ha; vm_compute; reflexivity|].
  split; [|split; [|split; assumption]].
  - assert (Hr : DayFromYear 0 <= Day instante - 29 < DayFromYear 10000)
      by (split; [apply Z.leb_le|apply Z.ltb_lt]; vm_compute; reflexivity).
    assert (He : ag_data ag29 = dataDoDia (Day instante - 29)) by (vm_compute; reflexivity).
    destruct (Hd ag29 (Day instante - 29) (or_intror (or_introl eq_refl)) Hr He) as [_ Hk].
    apply Hk. lia.
  - assert (Hr : DayFromYear 0 <= Day instante - 31 < DayFromYear 10000)
      by (split; [apply Z.leb_le|apply Z.ltb_lt]; vm_compute; reflexivity).
    assert (He : ag_data ag31 = dataDoDia (Day instante - 31)) by (vm_compute; reflexivity).
    destruct (Hd ag31 (Day instante - 31) (or_introl eq_refl) Hr He) as [Hk _].
    intros Hin. specialize (Hk Hin). lia.
Defined.

(** C9, at the failing input: the rating 4.5 is stored. *)
Lemma coletarFeedback_aceita_entre_1_e_5_exemplo :
  ~ (exists z : Z, (9 # 2 == inject_Z z)%Q) /\
  coletarFeedback instante "Ana" "bom" (Num (9 # 2)) mundoVazio
  = (Some (msgValeu ++ nl ++ nl ++ mostrarMenu),
     com_bd mundoVazio
       (mkBD [] [mkFeedback "Ana" "bom" (Num (9 # 2)) (toISOString instante)] [])).
Proof.
  split.
  - intros [z Hz]. unfold Qeq in Hz. cbn in Hz. lia.
  - apply (coletarFeedback_aceita_entre_1_e_5 instante "Ana" "bom" (9 # 2) mundoVazio).
    + unfold Qle. cbn. lia.
    + unfold Qle. cbn. lia.
Defined.

(** Through the chat the token "4.5" is read as 4 and accepted. *)
Example feedback_pelo_chat :
  let r := processarMensagem fusoMaceio toLowerASCII admin MongoDB instante
                             "feedback Ana muito bom 4.5" "a@c.us" mundoVazio in
  fst r = Some (msgValeu ++ nl ++ nl ++ mostrarMenu) /\
  List.map (fun f => (fb_comentario f, fb_avaliacao f)) (feedbacks (bd (snd r)))
  = [("muito bom", Num (inject_Z 4))].
Proof. vm_compute. repeat split. Qed.

(** C7, on an example: same slots, other names, same listing for a
    client; the administrator reads the names. *)
Lemma listarAgendamentosDia_oculta_nomes_exemplo :
  "b@c.us" <> admin /\
  listarAgendamentosDia fusoMaceio admin instante "b@c.us" (Some "2025-12-26") bdNomesA
  = listarAgendamentosDia fusoMaceio admin instante "b@c.us" (Some "2025-12-26") bdNomesB.
Proof.
  split; [discriminate|].
  destruct (listarAgendamentosDia_oculta_nomes fusoMaceio admin instante "b@c.us"
              (Some "2025-12-26") bdNomesA bdNomesB) as (_ & H & _).
  apply H; [discriminate|].
  repeat constructor.
Defined.

Example listagem_do_dia :
  horasDoDia fusoMaceio instante (Some "2025-12-26")
  = ["09:00"; "09:30"; "10:00"; "10:30"; "11:00"; "11:30"; "12:00"; "12:30"; "13:00";
     "13:30"; "14:00"; "14:30"; "15:00"; "15:30"; "16:00"; "16:30"; "17:00"; "17:30";
     "18:00"; "18:30"; "19:00"; "19:30"] /\
  linhaHorario admin admin (agendamentos bdNomesA) "09:30" = "09:30 ⏰ (agendado - Ana)" /\
  linhaHorario admin "b@c.us" (agendamentos bdNomesA) "09:30" = "09:30 ⏰ (agendado)".
Proof. vm_compute. repeat split. Qed.

(** * Worked examples of the further properties *)

Lemma semChoque_um a : semChoque [a].
Proof.
  intros data hora. cbn [List.filter]. destruct (noHorario data hora a); cbn; lia.
Qed.

Lemma dentroDoLimite_um a : dentroDoLimite [a].
Proof.
  intros sender. cbn [List.filter]. destruct (doSender sender a); cbn; lia.
Qed.

Lemma estadosBem_vazio : estadosBem ∅.
Proof. intros k s H. rewrite lookup_empty in H. discriminate H. Qed.

(** The slots of a weekday and of a Saturday. *)
Example grade_de_semana :
  grade 9 20
  = ["09:00"; "09:30"; "10:00"; "10:30"; "11:00"; "11:30"; "12:00"; "12:30"; "13:00";
     "13:30"; "14:00"; "14:30"; "15:00"; "15:30"; "16:00"; "16:30"; "17:00"; "17:30";
     "18:00"; "18:30"; "19:00"; "19:30"].
Proof. vm_compute. reflexivity. Qed.

Example grade_de_sabado :
  grade 10 16
  = ["10:00"; "10:30"; "11:00"; "11:30"; "12:00"; "12:30"; "13:00"; "13:30"; "14:00";
     "14:30"; "15:00"; "15:30"].
Proof. vm_compute. reflexivity. Qed.

Lemma dentroDoLimite_curto l : (List.length l <= 3)%nat -> dentroDoLimite l.
Proof.
  intros H sender. pose proof (List.filter_length_le (doSender sender) l). lia.
Qed.

(** X1, on two examples.  With 2025-12-26 10:00 taken, the name given
    at the step "nome" for 11:00 books a second row, and the name given
    for 10:00 is refused with the conflict text; either way no slot has
    two rows. *)
Lemma processarMensagem_preserva_semChoque_exemplo :
  let pm := processarMensagem fusoMaceio toLowerASCII admin MongoDB (instante + 1000) "Ana"
                              "b@c.us" in
  semChoque (agendamentos (bd mundoNoNome)) /\
  List.map (fun a => (ag_nome a, ag_data a, ag_hora a, ag_sender a))
           (agendamentos (bd (snd (pm mundoNoNome))))
  = [("Caio", "2025-12-26", "10:00", "c@c.us"); ("Ana", "2025-12-26", "11:00", "b@c.us")] /\
  semChoque (agendamentos (bd (snd (pm mundoNoNome)))) /\
  fst (pm mundoNoNomeOcupado) = Some (msgConflito ++ nl ++ nl ++ promptData) /\
  semChoque (agendamentos (bd (snd (pm mundoNoNomeOcupado)))).
Proof.
  intros pm. subst pm.
  split; [exact (semChoque_um _)|]. split; [vm_compute; reflexivity|].
  split; [|split; [vm_compute; reflexivity|]].
  - apply (processarMensagem_preserva_semChoque fusoMaceio toLowerASCII admin MongoDB).
    exact (semChoque_um _).
  - apply (processarMensagem_preserva_semChoque fusoMaceio toLowerASCII admin MongoDB).
    exact (semChoque_um _).
Defined.

(** X2, on two examples.  The requester who owns two rows books a third
    and then owns three; the requester who owns three is refused with the
    limit text and still owns three. *)
Lemma processarMensagem_preserva_limite_exemplo :
  let pm := processarMensagem fusoMaceio toLowerASCII admin MongoDB (instante + 1000) "Bia"
                              "b@c.us" in
  dentroDoLimite (agendamentos (bd mundoDoisDeTres)) /\
  fst (pm mundoDoisDeTres) = None /\
  List.length (List.filter (doSender "b@c.us") (agendamentos (bd (snd (pm mundoDoisDeTres)))))
  = 3%nat /\
  dentroDoLimite (agendamentos (bd (snd (pm mundoDoisDeTres)))) /\
  dentroDoLimite (agendamentos (bd mundoTresDeTres)) /\
  fst (pm mundoTresDeTres) = Some (msgLimite ++ nl ++ nl ++ mostrarMenu) /\
  dentroDoLimite (agendamentos (bd (snd (pm mundoTresDeTres)))).
Proof.
  intros pm. subst pm.
  assert (H2 : dentroDoLimite (agendamentos (bd mundoDoisDeTres)))
    by (apply dentroDoLimite_curto; vm_compute; lia).
  assert (H3 : dentroDoLimite (agendamentos (bd mundoTresDeTres)))
    by (apply dentroDoLimite_curto; vm_compute; lia).
  split; [exact H2|]. split; [vm_compute; reflexivity|].
  split; [vm_compute; reflexivity|]. split.
  - exact (processarMensagem_preserva_limite fusoMaceio toLowerASCII admin MongoDB
             (instante + 1000) "Bia" "b@c.us" mundoDoisDeTres H2).
  - split; [exact H3|]. split; [vm_compute; reflexivity|].
    exact (processarMensagem_preserva_limite fusoMaceio toLowerASCII admin MongoDB
             (instante + 1000) "Bia" "b@c.us" mundoTresDeTres H3).
Defined.

(** X4, on an example: the name given at the step "nome" books for the
    sender of the message. *)
Lemma processarMensagem_so_agenda_para_o_remetente_exemplo :
  let a := mkAgendamento "Ana" "2025-12-26" "10:00" "b@c.us" (toISOString instante) in
  let w := com_estados mundoVazio
             {["b@c.us" := mkEstado instante (Some ENome) (Some "2025-12-26")
                                    (Some "10:00") None]} in
  In a (agendamentos
          (bd (snd (processarMensagem fusoMaceio toLowerASCII admin MongoDB instante "Ana"
                                      "b@c.us" w)))) /\
  (In a (agendamentos (bd w)) \/ ag_sender a = "b@c.us").
Proof.
  intros a w.
  assert (H : In a (agendamentos
                      (bd (snd (processarMensagem fusoMaceio toLowerASCII admin MongoDB
                                                  instante "Ana" "b@c.us" w)))))
    by (vm_compute; left; reflexivity).
  split; [exact H|].
  exact (processarMensagem_so_agenda_para_o_remetente fusoMaceio toLowerASCII admin MongoDB
           instante "Ana" "b@c.us" w a H).
Defined.

(** X5, on an example: the empty map of states. *)
Lemma estadosBem_preservado_exemplo :
  estadosBem (estados mundoAmanha) /\
  estadosBem (estados (lembretesDeAmanha fusoMaceio instante mundoAmanha)).
Proof.
  split; [exact estadosBem_vazio|].
  destruct (estadosBem_preservado fusoMaceio toLowerASCII admin MongoDB instante "1"
              "b@c.us" mundoAmanha estadosBem_vazio) as (_ & H & _).
  exact H.
Defined.

(** X6, on an example: "oi" during the chat. *)
Lemma chat_chocolate_exclusivo_exemplo :
  let r := processarMensagem fusoMaceio toLowerASCII admin MongoDB (instante + 1000) "oi"
                             "b@c.us" mundoChat in
  fst r = None /\ bd (snd r) = bd mundoChat /\
  conversasChocolate (snd r) !! "b@c.us"
  = Some (mkConversa true (instante + 1000) (instante + 1000 + seteMinutos)).
Proof.
  pose proof (chat_chocolate_exclusivo fusoMaceio toLowerASCII admin MongoDB
                (instante + 1000) "oi" "b@c.us" mundoChat
                (mkConversa true instante (instante + 7 * 60 * 1000))
                eq_refl eq_refl eq_refl eq_refl) as H.
  cbv zeta in H. destruct H as (Hb & _ & _ & Hif).
  change (String.eqb (trim (toLowerASCII "oi")) "sair") with false in Hif.
  cbv iota in Hif. destruct Hif as [Hr Hc].
  intros r. split; [exact Hr|]. split; [exact Hb|exact Hc].
Defined.

(** X7, on an example: "Sair" at the step "horario". *)
Lemma sair_volta_ao_menu_exemplo :
  processarMensagem fusoMaceio toLowerASCII admin MongoDB (instante + 1000) "Sair" "b@c.us"
                    mundoNoHorario
  = (Some mostrarMenu,
     com_estados mundoNoHorario (delete "b@c.us" (estados mundoNoHorario))).
Proof.
  apply (sair_volta_ao_menu fusoMaceio toLowerASCII admin MongoDB (instante + 1000) "Sair"
           "b@c.us" mundoNoHorario EHorario); reflexivity.
Defined.

(** X9, on an example: one minute and twelve minutes after the message. *)
Lemma inatividade_dez_minutos_exemplo :
  let w' := snd (processarMensagem fusoMaceio toLowerASCII admin MongoDB instante "1"
                                   "b@c.us" mundoVazio) in
  estados (limparEstadosInativos (instante + 60000) w') !! "b@c.us"
  = estados w' !! "b@c.us" /\
  estados (limparEstadosInativos (instante + 720000) w') !! "b@c.us" = None.
Proof.
  intros w'. split.
  - destruct (inatividade_dez_minutos fusoMaceio toLowerASCII admin MongoDB instante
                (instante + 60000) "1" "b@c.us" mundoVazio eq_refl) as [H _].
    + unfold instante. lia.
    + apply H. lia.
  - destruct (inatividade_dez_minutos fusoMaceio toLowerASCII admin MongoDB instante
                (instante + 720000) "1" "b@c.us" mundoVazio eq_refl) as [_ H].
    + unfold instante. lia.
    + apply H. lia.
Defined.

(** X11, on an example: the appointment of 2025-11-02 seen from
    2025-11-01. *)
Lemma lembretesDeAmanha_arma_confirmacao_exemplo :
  dataUTC (instante + msPerDay) = "2025-11-02" /\
  exists s,
    estados (lembretesDeAmanha fusoMaceio instante mundoAmanha) !! ag_sender agAmanha
    = Some s /\
    etapa s = Some EConfirmarPresenca /\
    est_agendamento s
    = Some (ag_nome agAmanha, dataUTC (instante + msPerDay), ag_hora agAmanha).
Proof.
  split; [vm_compute; reflexivity|].
  assert (Hb : Z.abs (instante + msPerDay) <= 8640000000000000)
    by (apply Z.leb_le; vm_compute; reflexivity).
  assert (Hr : List.filter (doDia (dataUTC (instante + msPerDay)))
                           (agendamentos (bd mundoAmanha))
               = ([] ++ agAmanha :: [])%list) by (vm_compute; reflexivity).
  destruct (lembretesDeAmanha_arma_confirmacao fusoMaceio instante mundoAmanha []
              agAmanha [] Hb Hr) as (_ & _ & H).
  - intros b [].
  - exact H.
Defined.

(** X12, on an example: "Não" answers the reminder. *)
Lemma confirmar_presenca_respostas_exemplo :
  processarMensagem fusoMaceio toLowerASCII admin MongoDB (instante + 1000) "Não" "b@c.us"
                    mundoConfirmar
  = cancelarServico admin MongoDB (instante + 1000) "Bia" "2025-11-02" "10:00"
                    (com_estados mundoConfirmar (delete "b@c.us" (estados mundoConfirmar))).
Proof.
  destruct (confirmar_presenca_respostas fusoMaceio toLowerASCII admin MongoDB
              (instante + 1000) "Não" "b@c.us" mundoConfirmar
              (mkEstado instante (Some EConfirmarPresenca) None None
                        (Some ("Bia", "2025-11-02", "10:00")))
              "Bia" "2025-11-02" "10:00" eq_refl eq_refl eq_refl eq_refl eq_refl eq_refl
              eq_refl) as (_ & H & _).
  apply H. vm_compute. reflexivity.
Defined.

(** X13, on an example: the appointment of tomorrow cannot be cancelled
    by menu today. *)
Lemma cancelamento_pelo_menu_so_de_hoje_exemplo :
  In agAmanha
     (agendamentos
        (bd (snd (processarMensagem fusoMaceio toLowerASCII admin MongoDB instante
                                    "Bia 10:00" "b@c.us" mundoCancelar)))).
Proof.
  apply (cancelamento_pelo_menu_so_de_hoje fusoMaceio toLowerASCII admin MongoDB).
  - reflexivity.
  - left. reflexivity.
  - intros E. vm_compute in E. discriminate E.
Defined.

(** X14, on an example. *)
Lemma Date_parse_dataUTC_exemplo :
  Date_parse fusoMaceio (dataUTC instante) = Some (Day instante * msPerDay).
Proof.
  apply Date_parse_dataUTC. split.
  - apply Z.leb_le. vm_compute. reflexivity.
  - apply Z.ltb_lt. vm_compute. reflexivity.
Defined.

(** X15, on an example: in Maceió the Saturday 2025-11-01 (day 20393)
    is given the weekday of the Friday, and the Sunday 2025-11-02 the
    Saturday hours. *)
Lemma diaSemana_da_data_exemplo :
  dataDoDia 20393 = "2025-11-01" /\ WeekDay (20393 * msPerDay) = 6 /\
  getDay fusoMaceio (Date_parse fusoMaceio (dataDoDia 20393))
  = Some (WeekDay ((20393 - 1) * msPerDay)) /\
  expediente (getDay fusoMaceio (Date_parse fusoMaceio (dataDoDia 20394))) = (10, 16).
Proof.
  split; [vm_compute; reflexivity|]. split; [vm_compute; reflexivity|].
  assert (R : forall d, 20393 <= d <= 20394 -> DayFromYear 0 <= d < DayFromYear 10000).
  { intros d Hd. change (DayFromYear 0) with (-719528).
    change (DayFromYear 10000) with 2932897. lia. }
  assert (Hz : - msPerDay <= fusoMaceio < 0) by (vm_compute; split; [discriminate|reflexivity]).
  split.
  - destruct (diaSemana_da_data fusoMaceio 20393 (R 20393 ltac:(lia))) as [_ H].
    destruct (H Hz) as [H1 _]. exact H1.
  - destruct (diaSemana_da_data fusoMaceio 20394 (R 20394 ltac:(lia))) as [_ H].
    destruct (H Hz) as [_ [_ H2]]. apply H2. vm_compute. reflexivity.
Defined.

(** X17, on an example: the listing of 2025-11-01 asked on that day. *)
Lemma listarAgendamentosDia_grade_exemplo :
  listarAgendamentosDia fusoMaceio admin instante "b@c.us" None (bd mundoVazio)
  = join nl (List.map (linhaHorario admin "b@c.us"
                         (List.filter (doDia (dataDoDia 20393))
                                      (agendamentos (bd mundoVazio))))
                      (grade (fst (expediente (getDay fusoMaceio
                                                 (Date_parse fusoMaceio (dataDoDia 20393)))))
                             (snd (expediente (getDay fusoMaceio
                                                 (Date_parse fusoMaceio (dataDoDia 20393)))))))
    ++ nl ++ nl ++ mostrarMenu.
Proof.
  apply listarAgendamentosDia_grade.
  - change (DayFromYear 0) with (-719528). change (DayFromYear 10000) with 2932897. lia.
  - vm_compute. split; discriminate.
  - vm_compute. reflexivity.
Defined.

(** X18, on an example: "10:00", then "Ana". *)
Lemma fluxo_horario_nome_exemplo :
  let pm := processarMensagem fusoMaceio toLowerASCII admin MongoDB in
  pm (instante + 2000) "Ana" "b@c.us" (snd (pm (instante + 1000) "10:00" "b@c.us" mundoNoHorario))
  = agendarServico fusoMaceio admin MongoDB (instante + 2000) "Ana" "2025-12-26" "10:00"
                   "b@c.us"
                   (com_estados mundoNoHorario (delete "b@c.us" (estados mundoNoHorario))).
Proof.
  intros pm. subst pm.
  destruct (fluxo_horario_nome fusoMaceio toLowerASCII admin MongoDB (instante + 1000)
              (instante + 2000) "10:00" "Ana" "b@c.us" mundoNoHorario
              (mkEstado instante (Some EHorario) (Some "2025-12-26") None None)
              "2025-12-26" eq_refl eq_refl eq_refl eq_refl eq_refl eq_refl eq_refl)
    as [_ H].
  - intros E. vm_compute in E. discriminate E.
  - reflexivity.
  - intros E. vm_compute in E. discriminate E.
  - exact H.
Defined.

(** X19, on an example: the token "4.5" is stored as 4. *)
Lemma processarMensagem_feedback_inteiro_exemplo :
  let f := mkFeedback "Ana" "muito bom" (Num (inject_Z 4)) (toISOString instante) in
  In f (feedbacks
          (bd (snd (processarMensagem fusoMaceio toLowerASCII admin MongoDB instante
                                      "feedback Ana muito bom 4.5" "a@c.us" mundoVazio)))) /\
  (In f (feedbacks (bd mundoVazio)) \/ notaInteira f).
Proof.
  intros f.
  assert (H : In f (feedbacks
                      (bd (snd (processarMensagem fusoMaceio toLowerASCII admin MongoDB
                                                  instante "feedback Ana muito bom 4.5"
                                                  "a@c.us" mundoVazio)))))
    by (vm_compute; left; reflexivity).
  split; [exact H|].
  exact (processarMensagem_feedback_inteiro fusoMaceio toLowerASCII admin MongoDB instante
           "feedback Ana muito bom 4.5" "a@c.us" mundoVazio f H).
Defined.

Lemma minuscula_sem_espaco c :
  Ascii.eqb " " (minuscula c) = Ascii.eqb " " c.
Proof. destruct c as [[] [] [] [] [] [] [] []]; vm_compute; reflexivity. Qed.

Lemma toLowerASCII_sem_espaco s :
  includes s " " = false -> includes (toLowerASCII s) " " = false.
Proof.
  induction s as [|c s IH]; [intros _; reflexivity|].
  change (toLowerASCII (String c s)) with (String (minuscula c) (toLowerASCII s)).
  rewrite !includes_char, minuscula_sem_espaco. intros H.
  apply orb_false_iff in H. destruct H as [H1 H2].
  rewrite H1, (IH H2). reflexivity.
Qed.

(** X20, on an example: "cabelo curto" is split into the style "cabelo"
    and the name "curto", and is not identified. *)
Lemma triagem_pelo_chat_exemplo :
  comandosEspeciais toLowerASCII admin instante "triagem cabelo curto Joao"
                    "triagem cabelo curto joao" "b@c.us" mundoVazio
  = (Some estiloNaoIdentificado, mundoVazio).
Proof.
  rewrite (triagem_pelo_chat toLowerASCII admin instante "triagem cabelo curto Joao"
             "triagem cabelo curto joao" "b@c.us" mundoVazio toLowerASCII_sem_espaco
             eq_refl eq_refl).
  reflexivity.
Defined.

(** The date 32/02/2026 through the chat: the step "data" accepts it and
    stores 2026-02-32; at the name the SQLite variant answers with the
    error of its log line and stores nothing, the MongoDB variant books
    the row. *)
Example data_que_nao_existe_pelo_chat :
  let chat versao :=
    let pm := processarMensagem fusoMaceio toLowerASCII admin versao in
    let r1 := pm instante "1" "b@c.us" mundoVazio in
    let r2 := pm (instante + 1000) "32/02/2026" "b@c.us" (snd r1) in
    let r3 := pm (instante + 2000) "10:00" "b@c.us" (snd r2) in
    pm (instante + 3000) "Ana" "b@c.us" (snd r3) in
  fst (chat SQLite)
  = Some ("Erro: Invalid time value. Tente novamente." ++ nl ++ nl ++ promptData) /\
  agendamentos (bd (snd (chat SQLite))) = [] /\
  enviadas (snd (chat SQLite)) = [] /\
  etapaDe "b@c.us" (estados (snd (chat SQLite))) = Some EData /\
  fst (chat MongoDB) = None /\
  List.map (fun a => (ag_nome a, ag_data a, ag_hora a)) (agendamentos (bd (snd (chat MongoDB))))
  = [("Ana", "2026-02-32", "10:00")].
Proof. vm_compute. repeat split. Qed.

(** X21, on an example: 2026-02-32 at 10:00 in the two variants. *)
Lemma agendarServico_data_que_nao_analisa_exemplo :
  agendarServico fusoMaceio admin SQLite instante "Ana" "2026-02-32" "10:00" "a@c.us"
                 mundoVazio
  = (Some ("Erro: " ++ msgDataInvalida ++ ". Tente novamente." ++ nl ++ nl ++ promptData),
     com_estados mundoVazio
       (alter (com_etapa (Some EData)) "a@c.us"
              (getEstado instante "a@c.us" (estados mundoVazio)))) /\
  fst (agendarServico fusoMaceio admin MongoDB instante "Ana" "2026-02-32" "10:00" "a@c.us"
                      mundoVazio) = None /\
  bd (snd (agendarServico fusoMaceio admin MongoDB instante "Ana" "2026-02-32" "10:00"
                          "a@c.us" mundoVazio))
  = com_agendamentos (bd mundoVazio)
      (agendamentos (bd mundoVazio)
       ++ [mkAgendamento "Ana" "2026-02-32" "10:00" "a@c.us" (toISOString instante)]).
Proof.
  assert (Hh : 9 <= 10 < 20) by lia.
  split.
  - destruct (agendarServico_data_que_nao_analisa fusoMaceio admin SQLite instante "Ana"
                "2026-02-32" "10:00" "a@c.us" mundoVazio 10 eq_refl eq_refl Hh eq_refl
                eq_refl) as [H _].
    exact (H eq_refl).
  - destruct (agendarServico_data_que_nao_analisa fusoMaceio admin MongoDB instante "Ana"
                "2026-02-32" "10:00" "a@c.us" mundoVazio 10 eq_refl eq_refl Hh eq_refl
                eq_refl) as [_ H].
    apply (H eq_refl).
    + cbn. lia.
    + intros a [].
Defined.
